(** * The pharmacy scrape / geocode / emit scripts, embedded in Rocq

    The repository is a set of standalone Python scripts.  Each section below
    embeds one of them: Python [str] values are lists of code points, values
    decoded from JSON are trees, [dict]s are association lists in insertion
    order, a raised exception is [None], and a loop that mutates a list of
    dicts threads that list through its iterations. *)

From Stdlib Require Import String Ascii ZArith NArith Bool Lia PeanoNat List.
From Stdlib Require Import Floats.
From Stdlib Require Decimal DecimalFacts DecimalNat DecimalZ.
Import ListNotations.

Set Warnings "-register-all,-inexact-float".

(** ** Python values *)

(** A Python [str]: its code points. *)
Definition pystr := list N.

(** An ASCII literal of the source as a [pystr]. *)
Definition lit (s : string) : pystr :=
  map N_of_ascii (list_ascii_of_string s).

Definition pystr_eqb (a b : pystr) : bool :=
  if list_eq_dec N.eq_dec a b then true else false.

(** What [json.load] and [response.json()] build. *)
Inductive json : Type :=
| JNull
| JBool (b : bool)
| JInt (z : Z)
| JFloat (f : float)
| JStr (s : pystr)
| JArr (l : list json)
| JObj (kv : list (pystr * json)).

(** A Python [dict] with string keys, in insertion order.  [json.load] builds
    a fresh dict for every element of a decoded array, so the records of a
    list never alias one another and a list of values models the list of
    objects. *)
Definition pydict := list (pystr * json).

(** The digits of a decimal numeral as text. *)
Fixpoint uint_str (d : Decimal.uint) : pystr :=
  match d with
  | Decimal.Nil => []
  | Decimal.D0 d' => 48%N :: uint_str d'
  | Decimal.D1 d' => 49%N :: uint_str d'
  | Decimal.D2 d' => 50%N :: uint_str d'
  | Decimal.D3 d' => 51%N :: uint_str d'
  | Decimal.D4 d' => 52%N :: uint_str d'
  | Decimal.D5 d' => 53%N :: uint_str d'
  | Decimal.D6 d' => 54%N :: uint_str d'
  | Decimal.D7 d' => 55%N :: uint_str d'
  | Decimal.D8 d' => 56%N :: uint_str d'
  | Decimal.D9 d' => 57%N :: uint_str d'
  end.

(** [str(n)] for a natural number. *)
Definition str_nat (n : nat) : pystr := uint_str (Nat.to_uint n).

(** [f"{n:04d}"]: zero-padded to four digits, longer numbers in full. *)
Definition pad4 (n : nat) : pystr :=
  let d := str_nat n in
  repeat 48%N (4 - length d) ++ d.

(** [str(z)] for an [int]. *)
Definition str_int (z : Z) : pystr :=
  match Z.to_int z with
  | Decimal.Pos d => uint_str d
  | Decimal.Neg d => 45%N :: uint_str d
  end.

(** [s.startswith(prefix)] *)
Fixpoint starts_with (prefix s : pystr) : bool :=
  match prefix, s with
  | [], _ => true
  | _ :: _, [] => false
  | a :: prefix', b :: s' => N.eqb a b && starts_with prefix' s'
  end.

(** [needle in s] *)
Fixpoint contains (needle s : pystr) : bool :=
  starts_with needle s
  || match s with
     | [] => false
     | _ :: s' => contains needle s'
     end.

(** [s.replace(c, by)] for a one-character [c]. *)
Definition replace_char (c : N) (by_ : pystr) (s : pystr) : pystr :=
  flat_map (fun x => if N.eqb x c then by_ else [x]) s.

(** [str.isspace] on one character: the ASCII controls 9-13 and 28-31, the
    space, and the Unicode separators. *)
Definition is_space (c : N) : bool :=
  ((9 <=? c) && (c <=? 13) || (28 <=? c) && (c <=? 32)
   || (c =? 133) || (c =? 160) || (c =? 5760)
   || (8192 <=? c) && (c <=? 8202)
   || (c =? 8232) || (c =? 8233) || (c =? 8239) || (c =? 8287)
   || (c =? 12288))%N.

Fixpoint lstrip (s : pystr) : pystr :=
  match s with
  | c :: s' => if is_space c then lstrip s' else s
  | [] => []
  end.

(** [s.strip()] *)
Definition strip (s : pystr) : pystr := rev (lstrip (rev (lstrip s))).

(** [s[a:b]] for [0 <= a <= b]. *)
Definition slice (a b : nat) (s : pystr) : pystr := firstn (b - a) (skipn a s).

(** [range(a, b)] *)
Definition py_range (a b : Z) : list Z :=
  map (fun k => (a + Z.of_nat k)%Z) (seq 0 (Z.to_nat (b - a))).

(** One line of a template, with its newline. *)
Definition line (s : string) : pystr := lit s ++ [10%N].

(** The double quote. *)
Definition dq : pystr := [34%N].

(** [sep.join(parts)] *)
Fixpoint join (sep : pystr) (parts : list pystr) : pystr :=
  match parts with
  | [] => []
  | [x] => x
  | x :: rest => x ++ sep ++ join sep rest
  end.

(** [str(b).lower()] *)
Definition lower_bool (b : bool) : pystr :=
  if b then lit "true" else lit "false".

(** Reading [s] as the inside of a double-quoted Kotlin string: no raw
    newline, no quote outside an escape, and no backslash left dangling
    before the closing quote.  [escaped] tells that the previous character
    was an escaping backslash. *)
Fixpoint safe_in_literal (escaped : bool) (s : pystr) : bool :=
  match s with
  | [] => negb escaped
  | c :: s' =>
      if (c =? 10)%N then false
      else if escaped then safe_in_literal false s'
      else if (c =? 92)%N then safe_in_literal true s'
      else if (c =? 34)%N then false
      else safe_in_literal false s'
  end.

(** The option monad carries "an exception was raised" as [None]. *)
Declare Scope exc_scope.
Notation "x <- c1 ;; c2" :=
  (match c1 with Some x => c2 | None => None end)
  (at level 60, c1 at next level, right associativity) : exc_scope.
Open Scope exc_scope.

Fixpoint assoc (k : pystr) (kv : list (pystr * json)) : option json :=
  match kv with
  | [] => None
  | (k', v) :: rest => if pystr_eqb k k' then Some v else assoc k rest
  end.

(** [d[k] = v] on a dict: an existing key keeps its place, a new one goes last. *)
Fixpoint assoc_set (k : pystr) (v : json) (kv : list (pystr * json))
  : list (pystr * json) :=
  match kv with
  | [] => [(k, v)]
  | (k', v') :: rest =>
      if pystr_eqb k k' then (k', v) :: rest else (k', v') :: assoc_set k v rest
  end.

(** [v[k]] for a string key: [KeyError] on a missing key, [TypeError] on
    anything that is not a dict. *)
Definition getitem (v : json) (k : string) : option json :=
  match v with
  | JObj kv => assoc (lit k) kv
  | _ => None
  end.

(** [v[0]]: [IndexError] on an empty list or string, [KeyError] on a dict
    (the keys of a decoded object are strings), [TypeError] otherwise. *)
Definition getitem0 (v : json) : option json :=
  match v with
  | JArr (x :: _) => Some x
  | JStr (c :: _) => Some (JStr [c])
  | _ => None
  end.

(** [len(v)], a [TypeError] on values without a length. *)
Definition py_len (v : json) : option nat :=
  match v with
  | JArr l => Some (length l)
  | JStr s => Some (length s)
  | JObj kv => Some (length kv)
  | _ => None
  end.

(** Truth value of [v] in a condition. *)
Definition truthy (v : json) : bool :=
  match v with
  | JNull => false
  | JBool b => b
  | JInt z => negb (Z.eqb z 0)
  | JFloat f => negb (PrimFloat.eqb f 0%float)
  | JStr s => negb (Nat.eqb (length s) 0)
  | JArr l => negb (Nat.eqb (length l) 0)
  | JObj kv => negb (Nat.eqb (length kv) 0)
  end.

(** [v == s] for a string literal [s]. *)
Definition eq_str (v : json) (s : string) : bool :=
  match v with
  | JStr t => pystr_eqb t (lit s)
  | _ => false
  end.

(** [v != 0.0]: numbers and booleans compare by value, anything else differs. *)
Definition ne_zero (v : json) : bool :=
  match v with
  | JBool b => b
  | JInt z => negb (Z.eqb z 0)
  | JFloat f => negb (PrimFloat.eqb f 0%float)
  | _ => true
  end.

(** [(a, b) != (0.0, 0.0)] on tuples. *)
Definition ne_zero_pair (a b : json) : bool := ne_zero a || ne_zero b.

(** The outcome of one HTTP call decoded as JSON: [None] when [requests.get],
    [raise_for_status] or [response.json()] raised. *)
Definition http_result := option json.

(** The external search endpoint: the answer to the [n]-th call of a run,
    given the query text. *)
Definition endpoint := nat -> pystr -> http_result.

Lemma pystr_eqb_refl (a : pystr) : pystr_eqb a a = true.
Proof. unfold pystr_eqb. destruct (list_eq_dec N.eq_dec a a); congruence. Qed.

Lemma pystr_eqb_eq (a b : pystr) : pystr_eqb a b = true <-> a = b.
Proof.
  unfold pystr_eqb. destruct (list_eq_dec N.eq_dec a b); split; congruence.
Qed.

Lemma eq_str_true (v : json) (s : string) :
  eq_str v s = true <-> v = JStr (lit s).
Proof.
  destruct v; simpl; try (split; [discriminate | congruence]).
  rewrite pystr_eqb_eq. split; congruence.
Qed.

(** ** Python's json module, as the scripts call it

    [json.dump(data, f, indent=2, ensure_ascii=False)] writes the text that
    [dumps] below builds, and [json.load] reads a text the way [loads] does.
    The module belongs to the interpreter, not to the repository; what is
    embedded here is its encoder for [indent=2], [ensure_ascii=False] and its
    decoder with the default settings. *)

Module Json.

Definition is_digit (c : N) : bool := ((48 <=? c) && (c <=? 57))%N.

(** One lowercase hexadecimal digit. *)
Definition hex_digit (n : N) : N := (if n <? 10 then 48 + n else 87 + n)%N.

(** ['{0:04x}'.format(n)] for [n < 65536]. *)
Definition hex4 (n : N) : pystr :=
  [hex_digit (n / 4096 mod 16); hex_digit (n / 256 mod 16);
   hex_digit (n / 16 mod 16); hex_digit (n mod 16)]%N.

Definition hex_value (c : N) : option N :=
  (if is_digit c then Some (c - 48)
   else if (97 <=? c) && (c <=? 102) then Some (c - 87)
   else if (65 <=? c) && (c <=? 70) then Some (c - 55)
   else None)%N.

(** The value of four hexadecimal digits. *)
Definition hex4_value (a b c d : N) : option N :=
  x <- hex_value a ;; y <- hex_value b ;; z <- hex_value c ;; w <- hex_value d ;;
  Some (x * 4096 + y * 256 + z * 16 + w)%N.

(** *** The encoder *)

(** [ESCAPE_DCT]: the replacement of one character inside a string. *)
Definition escape_char (c : N) : pystr :=
  (if c =? 92 then [92; 92]
   else if c =? 34 then [92; 34]
   else if c =? 8 then [92; 98]
   else if c =? 12 then [92; 102]
   else if c =? 10 then [92; 110]
   else if c =? 13 then [92; 114]
   else if c =? 9 then [92; 116]
   else if c <? 32 then [92; 117] ++ hex4 c
   else [c])%N.

(** [encode_basestring(s)] *)
Definition encode_basestring (s : pystr) : pystr :=
  dq ++ flat_map escape_char s ++ dq.

(** ['\n' + ' ' * (2 * level)] *)
Definition newline_indent (level : nat) : pystr :=
  10%N :: repeat 32%N (2 * level).

Section Floats.

(** [float.__repr__] on a finite float and [float()] on the text of a JSON
    number: the interpreter's conversions between floats and decimal text. *)
Variable float_repr : float -> pystr.
Variable float_of_str : pystr -> float.

(** [floatstr(o)] *)
Definition floatstr (o : float) : pystr :=
  if negb (PrimFloat.eqb o o) then lit "NaN"
  else if PrimFloat.eqb o infinity then lit "Infinity"
  else if PrimFloat.eqb o neg_infinity then lit "-Infinity"
  else float_repr o.

(** [_iterencode(o, level)], the chunks joined. *)
Fixpoint encode (level : nat) (o : json) : pystr :=
  match o with
  | JNull => lit "null"
  | JBool true => lit "true"
  | JBool false => lit "false"
  | JInt z => str_int z
  | JFloat f => floatstr f
  | JStr s => encode_basestring s
  | JArr [] => lit "[]"
  | JArr lst =>
      lit "[" ++ newline_indent (S level)
      ++ join (lit "," ++ newline_indent (S level)) (map (encode (S level)) lst)
      ++ newline_indent level ++ lit "]"
  | JObj [] => lit "{}"
  | JObj dct =>
      lit "{" ++ newline_indent (S level)
      ++ join (lit "," ++ newline_indent (S level))
           (map (fun kv => encode_basestring (fst kv) ++ lit ": "
                           ++ encode (S level) (snd kv)) dct)
      ++ newline_indent level ++ lit "}"
  end.

(** [json.dumps(o, indent=2, ensure_ascii=False)] *)
Definition dumps (o : json) : pystr := encode 0 o.

(** *** The decoder *)

Definition is_ws (c : N) : bool :=
  ((c =? 32) || (c =? 9) || (c =? 10) || (c =? 13))%N.

(** [WHITESPACE.match(s, end).end()] *)
Fixpoint skip_ws (s : pystr) : pystr :=
  match s with
  | c :: s' => if is_ws c then skip_ws s' else s
  | [] => []
  end.

(** [BACKSLASH]: the character an escape letter stands for. *)
Definition unescape (e : N) : option N :=
  (if e =? 34 then Some 34
   else if e =? 92 then Some 92
   else if e =? 47 then Some 47
   else if e =? 98 then Some 8
   else if e =? 102 then Some 12
   else if e =? 110 then Some 10
   else if e =? 114 then Some 13
   else if e =? 116 then Some 9
   else None)%N.

Definition is_high_surrogate (u : N) : bool := ((55296 <=? u) && (u <=? 56319))%N.
Definition is_low_surrogate (u : N) : bool := ((56320 <=? u) && (u <=? 57343))%N.

(** [scanstring(s, end, strict=True)] from just after the opening quote:
    the string and the text after its closing quote. *)
Fixpoint scanstring (s : pystr) : option (pystr * pystr) :=
  match s with
  | [] => None
  | c :: s1 =>
      if (c =? 34)%N then Some ([], s1)
      else if (c =? 92)%N then
        match s1 with
        | [] => None
        | e :: s2 =>
            if (e =? 117)%N then
              match s2 with
              | a :: b :: c0 :: d :: s3 =>
                  match hex4_value a b c0 d with
                  | None => None
                  | Some uni =>
                      if is_high_surrogate uni then
                        match s3 with
                        | c1 :: c2 :: a2 :: b2 :: c3 :: d2 :: s4 =>
                            if ((c1 =? 92) && (c2 =? 117))%N then
                              match hex4_value a2 b2 c3 d2 with
                              | None => None
                              | Some uni2 =>
                                  if is_low_surrogate uni2 then
                                    match scanstring s4 with
                                    | Some (str, r) =>
                                        Some ((65536 + ((uni - 55296) * 1024
                                                        + (uni2 - 56320)))%N :: str, r)
                                    | None => None
                                    end
                                  else
                                    match scanstring s3 with
                                    | Some (str, r) => Some (uni :: str, r)
                                    | None => None
                                    end
                              end
                            else
                              match scanstring s3 with
                              | Some (str, r) => Some (uni :: str, r)
                              | None => None
                              end
                        | _ =>
                            match scanstring s3 with
                            | Some (str, r) => Some (uni :: str, r)
                            | None => None
                            end
                        end
                      else
                        match scanstring s3 with
                        | Some (str, r) => Some (uni :: str, r)
                        | None => None
                        end
                  end
              | _ => None
              end
            else
              match unescape e with
              | None => None
              | Some ch =>
                  match scanstring s2 with
                  | Some (str, r) => Some (ch :: str, r)
                  | None => None
                  end
              end
        end
      else if (c <? 32)%N then None
      else
        match scanstring s1 with
        | Some (str, r) => Some (c :: str, r)
        | None => None
        end
  end.

(** The longest run of digits at the start of [s], and what follows. *)
Fixpoint span_digits (s : pystr) : pystr * pystr :=
  match s with
  | c :: s' =>
      if is_digit c then let (d, r) := span_digits s' in (c :: d, r) else ([], s)
  | [] => ([], [])
  end.

(** The integer part of [NUMBER_RE]: an optional minus sign, then a single
    0 or a digit from 1 to 9 followed by digits. *)
Definition scan_integer (s : pystr) : option (pystr * pystr) :=
  let (sign, s1) := match s with
                    | c :: t => if (c =? 45)%N then ([c], t) else ([], s)
                    | [] => ([], s)
                    end in
  match s1 with
  | c :: t =>
      if (c =? 48)%N then Some (sign ++ [c], t)
      else if is_digit c then
        let (d, r) := span_digits t in Some (sign ++ c :: d, r)
      else None
  | [] => None
  end.

(** The optional fraction: a point followed by digits. *)
Definition scan_frac (s : pystr) : pystr * pystr :=
  match s with
  | c :: t =>
      if (c =? 46)%N then
        match span_digits t with
        | ([], _) => ([], s)
        | (d, r) => (c :: d, r)
        end
      else ([], s)
  | [] => ([], s)
  end.

(** The optional exponent: e or E, an optional sign, digits. *)
Definition scan_exp (s : pystr) : pystr * pystr :=
  match s with
  | e :: t =>
      if ((e =? 101) || (e =? 69))%N then
        let (sign, t1) := match t with
                          | c :: t' =>
                              if ((c =? 45) || (c =? 43))%N then ([c], t') else ([], t)
                          | [] => ([], t)
                          end in
        match span_digits t1 with
        | ([], _) => ([], s)
        | (d, r) => (e :: sign ++ d, r)
        end
      else ([], s)
  | [] => ([], s)
  end.

(** [NUMBER_RE.match]: the integer part, the fraction, the exponent and the
    rest of the text. *)
Definition scan_number (s : pystr) : option (pystr * pystr * pystr * pystr) :=
  match scan_integer s with
  | None => None
  | Some (integer, r1) =>
      let (frac, r2) := scan_frac r1 in
      let (exp, r3) := scan_exp r2 in
      Some (integer, frac, exp, r3)
  end.

(** The numeral a run of digits writes. *)
Fixpoint uint_of_digits (s : pystr) : Decimal.uint :=
  match s with
  | [] => Decimal.Nil
  | c :: s' =>
      let d := uint_of_digits s' in
      (if c =? 48 then Decimal.D0 d
       else if c =? 49 then Decimal.D1 d
       else if c =? 50 then Decimal.D2 d
       else if c =? 51 then Decimal.D3 d
       else if c =? 52 then Decimal.D4 d
       else if c =? 53 then Decimal.D5 d
       else if c =? 54 then Decimal.D6 d
       else if c =? 55 then Decimal.D7 d
       else if c =? 56 then Decimal.D8 d
       else Decimal.D9 d)%N
  end.

(** [int(text)] on a matched integer part. *)
Definition int_of_text (text : pystr) : Z :=
  match text with
  | c :: digits =>
      if (c =? 45)%N then Z.of_int (Decimal.Neg (uint_of_digits digits))
      else Z.of_int (Decimal.Pos (uint_of_digits text))
  | [] => Z.of_int (Decimal.Pos (uint_of_digits text))
  end.

(** [dict(pairs)]: a later pair with the same key replaces the value. *)
Definition dict_of_pairs (pairs : list (pystr * json)) : list (pystr * json) :=
  fold_left (fun d kv => assoc_set (fst kv) (snd kv) d) pairs [].

(** One step of [scan_once] for the literals and the numbers. *)
Definition scan_atom (s : pystr) : option (json * pystr) :=
  if starts_with (lit "null") s then Some (JNull, skipn 4 s)
  else if starts_with (lit "true") s then Some (JBool true, skipn 4 s)
  else if starts_with (lit "false") s then Some (JBool false, skipn 5 s)
  else
    match scan_number s with
    | Some (integer, frac, exp, r) =>
        match frac, exp with
        | [], [] => Some (JInt (int_of_text integer), r)
        | _, _ => Some (JFloat (float_of_str (integer ++ frac ++ exp)), r)
        end
    | None =>
        if starts_with (lit "NaN") s then Some (JFloat nan, skipn 3 s)
        else if starts_with (lit "Infinity") s
        then Some (JFloat infinity, skipn 8 s)
        else if starts_with (lit "-Infinity") s
        then Some (JFloat neg_infinity, skipn 9 s)
        else None
    end.

(** [scan_once], [JSONArray] and [JSONObject].  The recursion of the decoder
    is bounded by [fuel]; [loads] gives it the length of the text. *)
Fixpoint scan_once (fuel : nat) (s : pystr) {struct fuel} : option (json * pystr) :=
  match fuel with
  | 0 => None
  | S n =>
      match s with
      | [] => None
      | c :: t =>
          if (c =? 34)%N then
            match scanstring t with
            | Some (str, r) => Some (JStr str, r)
            | None => None
            end
          else if (c =? 123)%N then
            match skip_ws t with
            | c1 :: r =>
                if (c1 =? 125)%N then Some (JObj [], r)
                else if (c1 =? 34)%N then
                  match parse_pairs n r [] with
                  | Some (pairs, r') => Some (JObj (dict_of_pairs pairs), r')
                  | None => None
                  end
                else None
            | [] => None
            end
          else if (c =? 91)%N then
            match skip_ws t with
            | c1 :: r =>
                if (c1 =? 93)%N then Some (JArr [], r)
                else
                  match parse_items n (c1 :: r) [] with
                  | Some (values, r') => Some (JArr values, r')
                  | None => None
                  end
            | [] => None
            end
          else scan_atom s
      end
  end

with parse_items (fuel : nat) (s : pystr) (values : list json) {struct fuel}
  : option (list json * pystr) :=
  match fuel with
  | 0 => None
  | S n =>
      match scan_once n s with
      | None => None
      | Some (value, r) =>
          match skip_ws r with
          | c :: r1 =>
              if (c =? 93)%N then Some (values ++ [value], r1)
              else if (c =? 44)%N
              then parse_items n (skip_ws r1) (values ++ [value])
              else None
          | [] => None
          end
      end
  end

with parse_pairs (fuel : nat) (s : pystr) (pairs : list (pystr * json))
       {struct fuel} : option (list (pystr * json) * pystr) :=
  match fuel with
  | 0 => None
  | S n =>
      match scanstring s with
      | None => None
      | Some (key, r) =>
          match skip_ws r with
          | c :: r1 =>
              if (c =? 58)%N then
                match scan_once n (skip_ws r1) with
                | None => None
                | Some (value, r2) =>
                    match skip_ws r2 with
                    | c2 :: r3 =>
                        if (c2 =? 125)%N then Some (pairs ++ [(key, value)], r3)
                        else if (c2 =? 44)%N then
                          match skip_ws r3 with
                          | c3 :: r4 =>
                              if (c3 =? 34)%N
                              then parse_pairs n r4 (pairs ++ [(key, value)])
                              else None
                          | [] => None
                          end
                        else None
                    | [] => None
                    end
                end
              else None
          | [] => None
          end
      end
  end.

(** [json.loads(s)]: one value between optional whitespace, nothing after. *)
Definition loads (s : pystr) : option json :=
  match scan_once (length s) (skip_ws s) with
  | Some (obj, r) =>
      match skip_ws r with
      | [] => Some obj
      | _ => None
      end
  | None => None
  end.

End Floats.

End Json.

(** ** pharmacy_scraper.py *)

Module PharmacyScraper.

(** [PharmacyRaw] *)
Record PharmacyRaw := {
  raw_name : pystr;
  raw_address : pystr;
  raw_city : pystr;
  raw_phone : pystr;
  raw_page_number : Z;
  raw_source_url : pystr
}.

(** What BeautifulSoup finds in one [li.ag_listing_item]: the [href] of its
    first link that has one, and the text ([get_text(strip=True)]) of its
    name, locality and telephone elements, each [None] when the element is
    missing. *)
Record Listing := {
  link_href : option pystr;
  name_elem : option pystr;
  city_elem : option pystr;
  phone_elem : option pystr
}.

(** The directory: what fetching and parsing a URL gives, [None] when
    [session.get], [raise_for_status] or the parser raised. *)
Definition directory := pystr -> option (list Listing).

(** [self.base_url] *)
Definition base_url : pystr :=
  lit "https://www.annuaire-gratuit.ma/recherche/pharmacies-ville-k"
  ++ [233%N] ++ lit "nitra-pg".

(** The locality used when the listing names none: "Kenitra" with an acute
    accent on the first e. *)
Definition default_city : pystr := [75; 233; 110; 105; 116; 114; 97]%N.

Section Parser.

(** The decimal digits beyond ASCII that [\d] matches on a [str]: the
    Unicode category Nd, a table of the interpreter. *)
Variable unicode_decimal : N -> bool.

(** A character [\d] matches. *)
Definition is_decimal (c : N) : bool :=
  if (c <? 128)%N then (48 <=? c)%N && (c <=? 57)%N else unicode_decimal c.

(** The phone of a listing: [re.sub(r'[^\d]', '', phone_text)], regrouped
    when ten digits are left. *)
Definition phone_of (elem : option pystr) : pystr :=
  match elem with
  | None => []
  | Some phone_text =>
      let phone := filter is_decimal phone_text in
      if (length phone =? 10)%nat then
        slice 0 2 phone ++ [32%N] ++ slice 2 4 phone ++ [32%N]
        ++ slice 4 6 phone ++ [32%N] ++ slice 6 8 phone ++ [32%N]
        ++ slice 8 10 phone
      else phone
  end.

(** The body of the loop over the listings of a page: the record it appends,
    or [None] when it skips the listing. *)
Definition scrape_listing (page_number : Z) (url : pystr) (listing : Listing)
  : option PharmacyRaw :=
  match link_href listing with
  | None => None
  | Some href =>
      if negb (contains (lit "/pharmacies/") href) then None
      else
        match name_elem listing with
        | None => None
        | Some name =>
            let city :=
              match city_elem listing with
              | Some text => text
              | None => default_city
              end in
            let city := strip (replace_char 13 [] (replace_char 10 [] city)) in
            let phone := phone_of (phone_elem listing) in
            let address := name ++ lit ", " ++ city ++ lit ", Morocco" in
            Some {| raw_name := name;
                    raw_address := address;
                    raw_city := city;
                    raw_phone := phone;
                    raw_page_number := page_number;
                    raw_source_url := url |}
        end
  end.

(** [for listing in listings] *)
Fixpoint scrape_listings (page_number : Z) (url : pystr)
    (listings : list Listing) (pharmacies : list PharmacyRaw)
  : list PharmacyRaw :=
  match listings with
  | [] => pharmacies
  | listing :: rest =>
      match scrape_listing page_number url listing with
      | Some pharmacy => scrape_listings page_number url rest (pharmacies ++ [pharmacy])
      | None => scrape_listings page_number url rest pharmacies
      end
  end.

Variable web : directory.

(** [scrape_page(page_number)]: the outer [except] returns the empty list. *)
Definition scrape_page (page_number : Z) : list PharmacyRaw :=
  let url := base_url ++ str_int page_number in
  match web url with
  | Some listings => scrape_listings page_number url listings []
  | None => []
  end.

(** The loop of [scrape_all_pages] over the pages still to visit. *)
Fixpoint scrape_pages (pages : list Z) (all_pharmacies : list PharmacyRaw)
  : list PharmacyRaw :=
  match pages with
  | [] => all_pharmacies
  | page :: rest => scrape_pages rest (all_pharmacies ++ scrape_page page)
  end.

(** [scrape_all_pages(start_page, end_page)] *)
Definition scrape_all_pages (start_page end_page : Z) : list PharmacyRaw :=
  scrape_pages (py_range start_page (end_page + 1)) [].

End Parser.

(** The dict [geocode_address] returns; its values come from the response,
    so they are JSON values. *)
Record GeoResult := {
  geo_latitude : json;
  geo_longitude : json;
  geo_formatted_address : json;
  geo_status : json
}.

Definition geo_sentinel (address : pystr) (status : json) : GeoResult :=
  {| geo_latitude := JFloat 0%float;
     geo_longitude := JFloat 0%float;
     geo_formatted_address := JStr address;
     geo_status := status |}.

(** The body of the [try] of [geocode_address]; [None] is any exception. *)
Definition geocode_address_try (address : pystr) (resp : http_result)
  : option GeoResult :=
  data <- resp ;;
  st <- getitem data "status" ;;
  if eq_str st "OK" then
    results <- getitem data "results" ;;
    n <- py_len results ;;
    if (0 <? n)%nat then
      r0 <- getitem0 results ;;
      geometry <- getitem r0 "geometry" ;;
      location <- getitem geometry "location" ;;
      lat <- getitem location "lat" ;;
      lng <- getitem location "lng" ;;
      fa <- getitem r0 "formatted_address" ;;
      Some {| geo_latitude := lat;
              geo_longitude := lng;
              geo_formatted_address := fa;
              geo_status := JStr (lit "OK") |}
    else Some (geo_sentinel address st)
  else Some (geo_sentinel address st).

(** [geocode_address(address, city)], given the endpoint's answer. *)
Definition geocode_address (address : pystr) (resp : http_result) : GeoResult :=
  match geocode_address_try address resp with
  | Some r => r
  | None => geo_sentinel address (JStr (lit "ERROR"))
  end.

(** The query the call sends: [f"{address}, {city}, Morocco"]. *)
Definition geocode_query (address city : pystr) : pystr :=
  address ++ lit ", " ++ city ++ lit ", Morocco".

(** [Pharmacy] *)
Record Pharmacy := {
  id : pystr;
  name : pystr;
  name_ar : option pystr;
  address : pystr;
  address_ar : option pystr;
  city : pystr;
  latitude : json;
  longitude : json;
  phone_number : pystr;
  email : option pystr;
  website : option pystr;
  opening_hours : pystr;
  is_24_hours : bool;
  has_parking : bool;
  is_guard_pharmacy : bool;
  rating : json;
  review_count : Z;
  image_url : option pystr;
  services : list pystr;
  distance : option float;
  last_updated : pystr;
  geocoded : bool;
  geocode_status : json
}.

(** A text field that may be [None]. *)
Definition opt_str (o : option pystr) : json :=
  match o with
  | Some s => JStr s
  | None => JNull
  end.

(** [asdict(p)]: the fields in the order of their declaration. *)
Definition asdict (p : Pharmacy) : pydict :=
  [(lit "id", JStr (id p));
   (lit "name", JStr (name p));
   (lit "name_ar", opt_str (name_ar p));
   (lit "address", JStr (address p));
   (lit "address_ar", opt_str (address_ar p));
   (lit "city", JStr (city p));
   (lit "latitude", latitude p);
   (lit "longitude", longitude p);
   (lit "phone_number", JStr (phone_number p));
   (lit "email", opt_str (email p));
   (lit "website", opt_str (website p));
   (lit "opening_hours", JStr (opening_hours p));
   (lit "is_24_hours", JBool (is_24_hours p));
   (lit "has_parking", JBool (has_parking p));
   (lit "is_guard_pharmacy", JBool (is_guard_pharmacy p));
   (lit "rating", rating p);
   (lit "review_count", JInt (review_count p));
   (lit "image_url", opt_str (image_url p));
   (lit "services", JArr (map JStr (services p)));
   (lit "distance", match distance p with
                    | Some d => JFloat d
                    | None => JNull
                    end);
   (lit "last_updated", JStr (last_updated p));
   (lit "geocoded", JBool (geocoded p));
   (lit "geocode_status", geocode_status p)].

(** The [data] that [save_to_json] and [save_checkpoint] dump. *)
Definition json_data (pharmacies : list Pharmacy) : json :=
  JArr (map (fun p => JObj (asdict p)) pharmacies).

(** The text [save_to_json(pharmacies, filename)] writes to the file,
    [float_repr] being the interpreter's [repr] of a float. *)
Definition save_to_json (float_repr : float -> pystr)
    (pharmacies : list Pharmacy) : pystr :=
  Json.dumps float_repr (json_data pharmacies).

(** One checkpoint file: the running count in its name and its content. *)
Record Checkpoint := {
  cp_count : nat;
  cp_records : list Pharmacy
}.

(** The state of the loop of [geocode_pharmacies]. *)
Record Run := {
  run_geocoded : list Pharmacy;
  run_checkpoints : list Checkpoint
}.

Section Driver.

(** The geocoding endpoint, the clock read by [datetime.now().isoformat()]
    at each record, and the [batch_size] argument. *)
Variable api : endpoint.
Variable now : nat -> pystr.
Variable batch_size : Z.

(** [Pharmacy(...)] as built for the record at 0-based position [i]. *)
Definition make_pharmacy (i : nat) (raw : PharmacyRaw) (geo : GeoResult)
  : Pharmacy :=
  {| id := lit "pharmacy_kenitra_" ++ pad4 (S i);
     name := raw_name raw;
     name_ar := None;
     address := raw_address raw;
     address_ar := None;
     city := raw_city raw;
     latitude := geo_latitude geo;
     longitude := geo_longitude geo;
     phone_number := raw_phone raw;
     email := None;
     website := None;
     opening_hours := lit "Lun-Ven: 09:00-19:00 | Sam: 09:00-13:00";
     is_24_hours := false;
     has_parking := false;
     is_guard_pharmacy := false;
     rating := JFloat 0%float;
     review_count := 0;
     image_url := None;
     services := [];
     distance := None;
     last_updated := now i;
     geocoded := ne_zero (geo_latitude geo);
     geocode_status := geo_status geo |}.

(** The record the [i]-th iteration appends. *)
Definition geocode_one (i : nat) (raw : PharmacyRaw) : Pharmacy :=
  make_pharmacy i raw
    (geocode_address (raw_address raw)
       (api i (geocode_query (raw_address raw) (raw_city raw)))).

(** The [for i, raw_pharmacy in enumerate(pharmacies)] loop from position
    [i] on.  [(i + 1) % batch_size] raises [ZeroDivisionError] when
    [batch_size] is 0, which nothing catches. *)
Fixpoint geocode_loop (i : nat) (todo : list PharmacyRaw) (st : Run)
  : option Run :=
  match todo with
  | [] => Some st
  | raw :: todo' =>
      let geocoded := run_geocoded st ++ [geocode_one i raw] in
      if (batch_size =? 0)%Z then None
      else
        let cps :=
          if (Z.of_nat (i + 1) mod batch_size =? 0)%Z
          then run_checkpoints st
                 ++ [{| cp_count := i + 1; cp_records := geocoded |}]
          else run_checkpoints st in
        geocode_loop (S i) todo'
          {| run_geocoded := geocoded; run_checkpoints := cps |}
  end.

(** [geocode_pharmacies(pharmacies, batch_size)]: the returned list and the
    checkpoint files written on the way. *)
Definition geocode_pharmacies (pharmacies : list PharmacyRaw) : option Run :=
  geocode_loop 0 pharmacies {| run_geocoded := []; run_checkpoints := [] |}.

(** What the loop appends from position [i] on, as a plain recursion. *)
Fixpoint geocode_all (i : nat) (todo : list PharmacyRaw) : list Pharmacy :=
  match todo with
  | [] => []
  | raw :: todo' => geocode_one i raw :: geocode_all (S i) todo'
  end.

Lemma geocode_all_length (todo : list PharmacyRaw) (i : nat) :
  length (geocode_all i todo) = length todo.
Proof.
  revert i. induction todo as [|raw todo IH]; intro i; simpl; auto.
Qed.

Lemma geocode_all_nth (todo : list PharmacyRaw) (i k : nat) :
  nth_error (geocode_all i todo) k
  = option_map (geocode_one (i + k)) (nth_error todo k).
Proof.
  revert i k. induction todo as [|raw todo IH]; intros i k.
  - destruct k; reflexivity.
  - destruct k as [|k]; simpl.
    + now rewrite Nat.add_0_r.
    + rewrite IH. now rewrite Nat.add_succ_r.
Qed.

Lemma geocode_loop_geocoded (todo : list PharmacyRaw) (i : nat) (st st' : Run) :
  geocode_loop i todo st = Some st' ->
  run_geocoded st' = run_geocoded st ++ geocode_all i todo.
Proof.
  revert i st. induction todo as [|raw todo IH]; intros i st; simpl.
  - intros [= <-]. now rewrite app_nil_r.
  - destruct (batch_size =? 0)%Z; [discriminate|].
    intros H. apply IH in H. simpl in H. now rewrite <- app_assoc in H.
Qed.

Lemma geocode_loop_total (todo : list PharmacyRaw) (i : nat) (st : Run) :
  batch_size <> 0%Z -> exists st', geocode_loop i todo st = Some st'.
Proof.
  intros Hb. apply Z.eqb_neq in Hb.
  revert i st. induction todo as [|raw todo IH]; intros i st; simpl.
  - eauto.
  - rewrite Hb. apply IH.
Qed.

(** A checkpoint holds the first [cp_count] records of the list [l]. *)
Definition prefix_of (l : list Pharmacy) (c : Checkpoint) : Prop :=
  cp_count c <= length l /\ cp_records c = firstn (cp_count c) l.

Lemma prefix_of_app (l l' : list Pharmacy) (c : Checkpoint) :
  prefix_of l c -> prefix_of (l ++ l') c.
Proof.
  intros [Hle Heq]. split.
  - rewrite length_app. lia.
  - rewrite firstn_app.
    replace (cp_count c - length l) with 0 by lia.
    now rewrite firstn_O, app_nil_r.
Qed.

Lemma geocode_loop_checkpoints (todo : list PharmacyRaw) (i : nat) (st st' : Run) :
  length (run_geocoded st) = i ->
  Forall (prefix_of (run_geocoded st)) (run_checkpoints st) ->
  geocode_loop i todo st = Some st' ->
  Forall (prefix_of (run_geocoded st')) (run_checkpoints st').
Proof.
  revert i st. induction todo as [|raw todo IH]; intros i st Hlen Hcps; simpl.
  - now intros [= <-].
  - destruct (batch_size =? 0)%Z; [discriminate|].
    apply IH; simpl.
    + rewrite length_app. simpl. lia.
    + assert (Hold : Forall (prefix_of (run_geocoded st ++ [geocode_one i raw]))
                       (run_checkpoints st)).
      { eapply Forall_impl; [|exact Hcps]. intros c. apply prefix_of_app. }
      destruct (Z.of_nat (i + 1) mod batch_size =? 0)%Z; [|exact Hold].
      apply Forall_app. split; [exact Hold|].
      constructor; [|constructor]. split; simpl.
      * rewrite length_app. simpl. lia.
      * replace (i + 1) with (length (run_geocoded st ++ [geocode_one i raw])).
        -- now rewrite firstn_all.
        -- rewrite length_app. simpl. lia.
Qed.

End Driver.

Lemma geocode_address_geocoded (addr : pystr) (resp : http_result) :
  let geo := geocode_address addr resp in
  ne_zero (geo_latitude geo) = true -> geo_status geo = JStr (lit "OK").
Proof.
  unfold geocode_address, geocode_address_try.
  destruct resp as [data|]; simpl; [|discriminate].
  destruct (getitem data "status") as [st|]; simpl; [|discriminate].
  destruct (eq_str st "OK"); simpl; [|discriminate].
  destruct (getitem data "results") as [results|]; simpl; [|discriminate].
  destruct (py_len results) as [n|]; simpl; [|discriminate].
  destruct (0 <? n)%nat; simpl; [|discriminate].
  destruct (getitem0 results) as [r0|]; simpl; [|discriminate].
  destruct (getitem r0 "geometry") as [g|]; simpl; [|discriminate].
  destruct (getitem g "location") as [loc|]; simpl; [|discriminate].
  destruct (getitem loc "lat") as [lat|]; simpl; [|discriminate].
  destruct (getitem loc "lng") as [lng|]; simpl; [|discriminate].
  destruct (getitem r0 "formatted_address") as [fa|]; simpl; [|discriminate].
  reflexivity.
Qed.

(** *** The Kotlin emitter *)

(** [_escape_quotes(text)] *)
Definition _escape_quotes (text : pystr) : pystr :=
  strip (replace_char 10 (lit " ") (replace_char 34 [92; 34]%N text)).

Section Emitter.

(** Python's [str()] on the values of the numeric fields. *)
Variable py_str : json -> pystr.

(** One entry of [_generate_pharmacy_entries]. *)
Definition pharmacy_entry (pharmacy : Pharmacy) : pystr :=
  line "        Pharmacy("
  ++ lit "            id = " ++ dq ++ id pharmacy ++ dq ++ line ","
  ++ lit "            name = " ++ dq ++ _escape_quotes (name pharmacy) ++ dq ++ line ","
  ++ line "            nameAr = null,"
  ++ lit "            address = " ++ dq ++ _escape_quotes (address pharmacy) ++ dq ++ line ","
  ++ line "            addressAr = null,"
  ++ lit "            city = " ++ dq ++ city pharmacy ++ dq ++ line ","
  ++ lit "            latitude = " ++ py_str (latitude pharmacy) ++ line ","
  ++ lit "            longitude = " ++ py_str (longitude pharmacy) ++ line ","
  ++ lit "            phoneNumber = " ++ dq ++ phone_number pharmacy ++ dq ++ line ","
  ++ line "            email = null,"
  ++ line "            website = null,"
  ++ lit "            openingHours = " ++ dq ++ opening_hours pharmacy ++ dq ++ line ","
  ++ lit "            is24Hours = " ++ lower_bool (is_24_hours pharmacy) ++ line ","
  ++ lit "            hasParking = " ++ lower_bool (has_parking pharmacy) ++ line ","
  ++ lit "            isGuardPharmacy = " ++ lower_bool (is_guard_pharmacy pharmacy) ++ line ","
  ++ lit "            rating = " ++ py_str (rating pharmacy) ++ line ","
  ++ lit "            reviewCount = " ++ str_int (review_count pharmacy) ++ line ","
  ++ line "            imageUrl = null,"
  ++ line "            services = emptyList(),"
  ++ line "            distance = null,"
  ++ lit "            lastUpdated = dateFormat.parse(" ++ dq ++ last_updated pharmacy
  ++ dq ++ line ") ?: Date()"
  ++ lit "        )".

(** [_generate_pharmacy_entries(pharmacies)] *)
Definition _generate_pharmacy_entries (pharmacies : list Pharmacy) : pystr :=
  join (lit "," ++ [10%N]) (map pharmacy_entry pharmacies).

(** The template of [generate_kotlin_data] before [{pharmacy_list}]. *)
Definition kotlin_header (date : pystr) (count : nat) : pystr :=
  line "package com.pharmatech.morocco.features.pharmacy.domain.model"
  ++ line ""
  ++ line "import java.util.Date"
  ++ line "import java.text.SimpleDateFormat"
  ++ line ""
  ++ line "/**"
  ++ lit " * Auto-generated pharmacy data for K" ++ [233%N] ++ line "nitra"
  ++ lit " * Generated on: " ++ date ++ line ""
  ++ lit " * Total pharmacies: " ++ str_nat count ++ line ""
  ++ line " */"
  ++ line "object KenitraPharmacyData {"
  ++ line "    "
  ++ lit "    private val dateFormat = SimpleDateFormat(" ++ dq
  ++ lit "yyyy-MM-dd'T'HH:mm:ss" ++ dq ++ line ")"
  ++ line "    "
  ++ line "    val pharmacies = listOf(".

(** The template after [{pharmacy_list}]: the closing of the list and the
    helper functions. *)
Definition kotlin_helpers : pystr :=
  line ""
  ++ line "    )"
  ++ line "    "
  ++ line "    fun getAllPharmacies(): List<Pharmacy> = pharmacies"
  ++ line "    "
  ++ line "    fun getPharmacyById(id: String): Pharmacy? = pharmacies.find { it.id == id }"
  ++ line "    "
  ++ line "    fun searchPharmacies(query: String): List<Pharmacy> {"
  ++ line "        val lowerQuery = query.lowercase()"
  ++ line "        return pharmacies.filter {"
  ++ line "            it.name.lowercase().contains(lowerQuery) ||"
  ++ line "            it.address.lowercase().contains(lowerQuery) ||"
  ++ line "            it.phoneNumber.contains(query)"
  ++ line "        }"
  ++ line "    }"
  ++ line "}".

(** The text [generate_kotlin_data] writes, [date] being
    [datetime.now().isoformat()]. *)
Definition generate_kotlin_data (date : pystr) (pharmacies : list Pharmacy)
  : pystr :=
  kotlin_header date (length pharmacies)
  ++ _generate_pharmacy_entries pharmacies
  ++ kotlin_helpers.

End Emitter.

(** *** The parser and the pagination driver *)

Lemma is_decimal_space (unicode_decimal : N -> bool) :
  is_decimal unicode_decimal 32 = false.
Proof. reflexivity. Qed.

Lemma filter_all_true {A : Type} (f : A -> bool) (l : list A) :
  Forall (fun x => f x = true) (filter f l).
Proof.
  induction l as [|x l IH]; simpl; [constructor|].
  destruct (f x) eqn:E; [constructor; assumption|assumption].
Qed.

(** C5: the phone of a listing is its text with every character that is not
    a decimal digit removed; when exactly ten digits d0..d9 remain it is
    "d0d1 d2d3 d4d5 d6d7 d8d9" (fourteen characters, the ten digits and four
    single spaces), and only then does it hold a space; with any other number
    of digits it is the digit string itself; without a phone element it is
    empty. *)
Theorem phone_normalization (unicode_decimal : N -> bool) (phone_text : pystr) :
  let digits := filter (is_decimal unicode_decimal) phone_text in
  let phone := phone_of unicode_decimal (Some phone_text) in
  (length digits = 10 ->
   exists d0 d1 d2 d3 d4 d5 d6 d7 d8 d9,
     digits = [d0; d1; d2; d3; d4; d5; d6; d7; d8; d9]
     /\ phone = [d0; d1; 32; d2; d3; 32; d4; d5; 32; d6; d7; 32; d8; d9]%N
     /\ length phone = 14
     /\ filter (is_decimal unicode_decimal) phone = digits)
  /\ (length digits <> 10 -> phone = digits)
  /\ (In 32%N phone <-> length digits = 10)
  /\ phone_of unicode_decimal None = [].
Proof.
  intros digits phone.
  assert (Hdig : Forall (fun c => is_decimal unicode_decimal c = true) digits)
    by apply filter_all_true.
  assert (Hten : length digits = 10 ->
                 exists d0 d1 d2 d3 d4 d5 d6 d7 d8 d9,
                   digits = [d0; d1; d2; d3; d4; d5; d6; d7; d8; d9]
                   /\ phone = [d0; d1; 32; d2; d3; 32; d4; d5; 32; d6; d7; 32; d8; d9]%N
                   /\ length phone = 14
                   /\ filter (is_decimal unicode_decimal) phone = digits).
  { intros Hlen. unfold phone, phone_of. fold digits. rewrite Hlen.
    destruct digits as [|d0 [|d1 [|d2 [|d3 [|d4 [|d5 [|d6 [|d7 [|d8 [|d9 [|]]]]]]]]]]];
      try discriminate.
    exists d0, d1, d2, d3, d4, d5, d6, d7, d8, d9.
    split; [reflexivity|]. split; [reflexivity|]. split; [reflexivity|].
    repeat match goal with
           | H : Forall _ (_ :: _) |- _ => inversion H; clear H; subst
           end.
    cbn [Nat.eqb slice Nat.sub firstn skipn app filter].
    rewrite (is_decimal_space unicode_decimal).
    repeat match goal with
           | H : is_decimal _ _ = true |- _ => rewrite H; clear H
           end.
    reflexivity. }
  assert (Hother : length digits <> 10 -> phone = digits).
  { intros Hlen. unfold phone, phone_of. fold digits.
    apply Nat.eqb_neq in Hlen. now rewrite Hlen. }
  split; [exact Hten|]. split; [exact Hother|]. split; [|reflexivity].
  split.
  - intros Hin. destruct (Nat.eq_dec (length digits) 10) as [|Hne]; [assumption|].
    rewrite (Hother Hne) in Hin.
    rewrite Forall_forall in Hdig. apply Hdig in Hin.
    rewrite is_decimal_space in Hin. discriminate.
  - intros Hlen. destruct (Hten Hlen) as (d0 & d1 & ? & ? & ? & ? & ? & ? & ? & ? & _ & -> & _).
    simpl. auto.
Qed.

Lemma phone_normalization_witness :
  phone_of (fun _ => false) (Some (lit "0537-371234")) = lit "05 37 37 12 34".
Proof.
  destruct (proj1 (phone_normalization (fun _ => false) (lit "0537-371234")) eq_refl)
    as (d0 & d1 & d2 & d3 & d4 & d5 & d6 & d7 & d8 & d9 & Hd & Hp & _).
  injection Hd as <- <- <- <- <- <- <- <- <- <-. exact Hp.
Defined.

Lemma scrape_listings_app (ud : N -> bool) (page : Z) (url : pystr)
    (listings : list Listing) (acc : list PharmacyRaw) :
  scrape_listings ud page url listings acc
  = acc ++ scrape_listings ud page url listings [].
Proof.
  revert acc. induction listings as [|l ls IH]; intro acc; simpl.
  - now rewrite app_nil_r.
  - destruct (scrape_listing ud page url l) as [r|]; [|apply IH].
    rewrite IH. rewrite (IH [r]). now rewrite app_assoc.
Qed.

Lemma scrape_listings_none (ud : N -> bool) (page : Z) (url : pystr)
    (listings : list Listing) :
  Forall (fun l => scrape_listing ud page url l = None) listings ->
  scrape_listings ud page url listings [] = [].
Proof.
  induction 1 as [|l ls Hl _ IH]; simpl; [reflexivity|]. now rewrite Hl.
Qed.

Lemma scrape_pages_concat (ud : N -> bool) (web : directory)
    (pages : list Z) (acc : list PharmacyRaw) :
  scrape_pages ud web pages acc = acc ++ flat_map (scrape_page ud web) pages.
Proof.
  revert acc. induction pages as [|page rest IH]; intro acc; simpl.
  - now rewrite app_nil_r.
  - rewrite IH. now rewrite app_assoc.
Qed.

Lemma py_range_nth (a b : Z) (k : nat) :
  k < Z.to_nat (b - a) -> nth_error (py_range a b) k = Some (a + Z.of_nat k)%Z.
Proof.
  intros Hk. unfold py_range.
  rewrite nth_error_map, nth_error_nth' with (d := 0) by (rewrite length_seq; lia).
  rewrite seq_nth by lia. reflexivity.
Qed.

(** C8: a listing yields a record exactly when its link leads to a
    [/pharmacies/] path and it has a name element; the record takes that
    name, the fallback locality when the listing names none, and the empty
    phone when it has no telephone element. *)
Theorem listing_filter (unicode_decimal : N -> bool) (page_number : Z)
    (url : pystr) (listing : Listing) :
  (forall r,
      scrape_listing unicode_decimal page_number url listing = Some r ->
      (exists href, link_href listing = Some href
                    /\ contains (lit "/pharmacies/") href = true)
      /\ name_elem listing = Some (raw_name r)
      /\ (city_elem listing = None -> raw_city r = default_city)
      /\ (phone_elem listing = None -> raw_phone r = []))
  /\ (link_href listing = None
      \/ (exists href, link_href listing = Some href
                       /\ contains (lit "/pharmacies/") href = false)
      \/ name_elem listing = None ->
      scrape_listing unicode_decimal page_number url listing = None)
  /\ ((exists href, link_href listing = Some href
                    /\ contains (lit "/pharmacies/") href = true) ->
      name_elem listing <> None ->
      exists r, scrape_listing unicode_decimal page_number url listing = Some r).
Proof.
  unfold scrape_listing. split; [|split].
  - intros r.
    destruct (link_href listing) as [href|]; [|discriminate].
    destruct (contains (lit "/pharmacies/") href) eqn:Hc; [|discriminate].
    destruct (name_elem listing) as [name|]; [|discriminate].
    cbn [negb]. intros [= <-]. cbn [raw_name raw_city raw_phone].
    split; [eauto|]. split; [reflexivity|]. split.
    + intros ->. reflexivity.
    + intros ->. reflexivity.
  - intros [-> | [(href & -> & ->) | Hname]]; [reflexivity|reflexivity|].
    rewrite Hname. destruct (link_href listing) as [href|]; [|reflexivity].
    destruct (negb _); reflexivity.
  - intros (href & -> & ->) Hname.
    destruct (name_elem listing) as [name|]; [|congruence].
    cbn [negb]. eauto.
Qed.

(** A listing of a pharmacy and one of another kind of business. *)
Definition sample_listing : Listing :=
  {| link_href := Some (lit "/pharmacies/pharmacie-al-amal-k1.html");
     name_elem := Some (lit "Pharmacie Al Amal");
     city_elem := None;
     phone_elem := None |}.

Definition other_listing : Listing :=
  {| link_href := Some (lit "/medecins/cabinet-k2.html");
     name_elem := Some (lit "Cabinet");
     city_elem := Some (lit "Rabat");
     phone_elem := Some (lit "0537000000") |}.

Lemma listing_filter_witness :
  (exists r, scrape_listing (fun _ => false) 1 base_url sample_listing = Some r
             /\ raw_city r = default_city /\ raw_phone r = [])
  /\ scrape_listing (fun _ => false) 1 base_url other_listing = None.
Proof.
  split.
  - destruct (proj2 (proj2 (listing_filter (fun _ => false) 1 base_url sample_listing)))
      as [r Hr].
    + eexists. split; reflexivity.
    + discriminate.
    + exists r. split; [exact Hr|].
      destruct (proj1 (listing_filter (fun _ => false) 1 base_url sample_listing) r Hr)
        as (_ & _ & Hcity & Hphone).
      split; [apply Hcity|apply Hphone]; reflexivity.
  - apply (proj1 (proj2 (listing_filter (fun _ => false) 1 base_url other_listing))).
    right; left. eexists. split; reflexivity.
Defined.

(** C6: a page whose fetch or parse raised, or none of whose listings yields
    a record, contributes the empty list; [scrape_all_pages] always returns,
    and what it returns is the concatenation of the results of the pages
    [start_page], [start_page + 1], ..., [end_page] in that order, so the
    pages after a failed one are still scraped. *)
Theorem pagination_skips_failed_pages (unicode_decimal : N -> bool)
    (web : directory) (start_page end_page : Z) :
  (forall page,
      web (base_url ++ str_int page) = None ->
      scrape_page unicode_decimal web page = [])
  /\ (forall page listings,
         web (base_url ++ str_int page) = Some listings ->
         Forall (fun l => scrape_listing unicode_decimal page
                            (base_url ++ str_int page) l = None) listings ->
         scrape_page unicode_decimal web page = [])
  /\ scrape_all_pages unicode_decimal web start_page end_page
     = flat_map (scrape_page unicode_decimal web)
         (py_range start_page (end_page + 1))
  /\ length (py_range start_page (end_page + 1))
     = Z.to_nat (end_page + 1 - start_page)
  /\ (forall k, k < Z.to_nat (end_page + 1 - start_page) ->
        nth_error (py_range start_page (end_page + 1)) k
        = Some (start_page + Z.of_nat k)%Z)
  /\ (forall before page after,
         py_range start_page (end_page + 1) = before ++ page :: after ->
         scrape_page unicode_decimal web page = [] ->
         scrape_all_pages unicode_decimal web start_page end_page
         = flat_map (scrape_page unicode_decimal web) before
           ++ flat_map (scrape_page unicode_decimal web) after).
Proof.
  assert (Hall : scrape_all_pages unicode_decimal web start_page end_page
                 = flat_map (scrape_page unicode_decimal web)
                     (py_range start_page (end_page + 1))).
  { unfold scrape_all_pages. now rewrite scrape_pages_concat. }
  split; [|split; [|split; [|split; [|split]]]].
  - intros page Hweb. unfold scrape_page. now rewrite Hweb.
  - intros page listings Hweb Hnone. unfold scrape_page. rewrite Hweb.
    now apply scrape_listings_none.
  - exact Hall.
  - unfold py_range. now rewrite length_map, length_seq.
  - intros k Hk. now apply py_range_nth.
  - intros before page after Hsplit Hempty.
    rewrite Hall, Hsplit, flat_map_app. simpl. now rewrite Hempty.
Qed.

(** A directory of three pages: two listings, a failed fetch, one listing. *)
Definition sample_web : directory :=
  fun url =>
    if pystr_eqb url (base_url ++ lit "1") then Some [sample_listing; other_listing; sample_listing]
    else if pystr_eqb url (base_url ++ lit "3") then Some [sample_listing]
    else None.

Lemma pagination_skips_failed_pages_witness :
  scrape_page (fun _ => false) sample_web 2 = []
  /\ length (scrape_all_pages (fun _ => false) sample_web 1 3) = 3.
Proof.
  pose proof (pagination_skips_failed_pages (fun _ => false) sample_web 1 3)
    as (Hfail & _ & _ & _ & _ & Hskip).
  assert (H2 : scrape_page (fun _ => false) sample_web 2 = [])
    by (apply Hfail; reflexivity).
  split; [exact H2|].
  rewrite (Hskip [1%Z] 2%Z [3%Z] eq_refl H2). reflexivity.
Defined.

(** *** Sample data *)

Definition sample_raw : PharmacyRaw :=
  {| raw_name := lit "Pharmacie Al Amal";
     raw_address := lit "Pharmacie Al Amal, Kenitra, Morocco";
     raw_city := lit "Kenitra";
     raw_phone := lit "05 37 37 12 34";
     raw_page_number := 1;
     raw_source_url := lit "https://www.annuaire-gratuit.ma/recherche/pharmacies-ville-k-pg1" |}.

Definition sample_now : nat -> pystr := fun _ => lit "2024-01-01T00:00:00".

(** A decoded response with status [st] and the given [results]. *)
Definition response (st : string) (results : list json) : json :=
  JObj [(lit "results", JArr results); (lit "status", JStr (lit st))].

(** One element of [results] as the API lays it out. *)
Definition place (lat lng : json) (formatted : string) : json :=
  JObj [(lit "formatted_address", JStr (lit formatted));
        (lit "geometry", JObj [(lit "location",
                                JObj [(lit "lat", lat); (lit "lng", lng)])])].

(** An endpoint that finds every query at latitude 0.0, longitude 9.5. *)
Definition api_zero_latitude : endpoint :=
  fun _ _ => Some (response "OK" [place (JFloat 0%float) (JFloat 9.5%float) "N1, Gabon"]).

(** An endpoint that finds every query in Kenitra. *)
Definition api_kenitra : endpoint :=
  fun _ _ => Some (response "OK" [place (JFloat 34.25%float) (JFloat (-6.5)%float) "Kenitra"]).



(** C1, as the code has it: in the output of [geocode_pharmacies], [geocoded]
    is true exactly when the status is OK and the latitude differs from the
    sentinel latitude 0.0; a record with [geocoded] true therefore never has
    the sentinel pair (0.0, 0.0). *)
Theorem geocoded_iff_ok_and_latitude
    (api : endpoint) (now : nat -> pystr) (batch_size : Z)
    (pharmacies : list PharmacyRaw) (run : Run) (p : Pharmacy) :
  geocode_pharmacies api now batch_size pharmacies = Some run ->
  In p (run_geocoded run) ->
  (geocoded p = true <->
   eq_str (geocode_status p) "OK" = true /\ ne_zero (latitude p) = true)
  /\ (geocoded p = true ->
      ne_zero_pair (latitude p) (longitude p) = true).
Proof.
  intros Hrun Hin. apply geocode_loop_geocoded in Hrun. simpl in Hrun.
  rewrite Hrun in Hin. clear Hrun run.
  assert (Hone : exists i raw, p = geocode_one api now i raw).
  { generalize 0 Hin. clear Hin.
    induction pharmacies as [|raw todo IH]; intros i Hin; simpl in Hin.
    - contradiction.
    - destruct Hin as [<-|Hin]; eauto. }
  destruct Hone as (i & raw & ->). unfold geocode_one. simpl.
  set (geo := geocode_address _ _).
  pose proof (geocode_address_geocoded (raw_address raw)
                (api i (geocode_query (raw_address raw) (raw_city raw)))) as Hok.
  fold geo in Hok. simpl in Hok. unfold ne_zero_pair. split.
  - split.
    + intros H. split; [|exact H]. rewrite (Hok H). reflexivity.
    + intros [_ H]. exact H.
  - intros ->. reflexivity.
Qed.

Lemma geocoded_iff_ok_and_latitude_witness :
  exists run p,
    geocode_pharmacies api_kenitra sample_now 50 [sample_raw] = Some run
    /\ In p (run_geocoded run)
    /\ geocoded p = true
    /\ ne_zero_pair (latitude p) (longitude p) = true.
Proof.
  eexists. eexists.
  assert (Hrun : geocode_pharmacies api_kenitra sample_now 50 [sample_raw]
                 = Some {| run_geocoded := [geocode_one api_kenitra sample_now 0 sample_raw];
                           run_checkpoints := [] |}) by reflexivity.
  assert (Hin : In (geocode_one api_kenitra sample_now 0 sample_raw)
                  [geocode_one api_kenitra sample_now 0 sample_raw])
    by (left; reflexivity).
  split; [exact Hrun|]. split; [exact Hin|]. split; [reflexivity|].
  exact (proj2 (@geocoded_iff_ok_and_latitude _ _ _ _ _ _ Hrun Hin) eq_refl).
Defined.

(** C1 as stated fails: a result on latitude 0.0 with longitude 9.5 has
    status OK and coordinates other than (0.0, 0.0), and [geocoded] false. *)
Lemma geocoded_false_on_zero_latitude :
  exists p,
    geocode_pharmacies api_zero_latitude sample_now 50 [sample_raw]
    = Some {| run_geocoded := [p]; run_checkpoints := [] |}
    /\ eq_str (geocode_status p) "OK" = true
    /\ ne_zero_pair (latitude p) (longitude p) = true
    /\ geocoded p = false.
Proof.
  eexists. split; [reflexivity|]. repeat split.
Qed.

End PharmacyScraper.


(** ** Scripts that work on decoded dicts *)

Definition dict_get (d : pydict) (k : string) : option json := assoc (lit k) d.

Definition dict_set (k : string) (v : json) (d : pydict) : pydict :=
  assoc_set (lit k) v d.

(** The Kenitra centre the scripts fall back to. *)
Definition kenitra_lat : json := JFloat 34.261%float.
Definition kenitra_lng : json := JFloat (-6.587)%float.

(** The three assignments of a failed lookup. *)
Definition set_fallback (d : pydict) : pydict :=
  dict_set "geocoded" (JBool false)
    (dict_set "longitude" kenitra_lng (dict_set "latitude" kenitra_lat d)).

(** [data['results'][0]['geometry']['location']] *)
Definition first_location (data : json) : option json :=
  results <- getitem data "results" ;;
  r0 <- getitem0 results ;;
  geometry <- getitem r0 "geometry" ;;
  getitem geometry "location".

(** How a [try] body ended, with the record as its assignments left it. *)
Inductive outcome : Type :=
| Completed (d : pydict) (found : bool)
| Raised (d : pydict).

(** The three assignments of a successful lookup; [loc['lng']] is read after
    [latitude] has been assigned. *)
Definition assign_location (loc : json) (d : pydict) : outcome :=
  match getitem loc "lat" with
  | None => Raised d
  | Some lat =>
      let d1 := dict_set "latitude" lat d in
      match getitem loc "lng" with
      | None => Raised d1
      | Some lng =>
          Completed (dict_set "geocoded" (JBool true)
                       (dict_set "longitude" lng d1)) true
      end
  end.

Lemma assoc_set_same (k : pystr) (v w : json) (kv : list (pystr * json)) :
  assoc_set k w (assoc_set k v kv) = assoc_set k w kv.
Proof.
  induction kv as [|[k' v'] kv IH]; simpl.
  - now rewrite pystr_eqb_refl.
  - destruct (pystr_eqb k k') eqn:E; simpl; rewrite E; [reflexivity|].
    now rewrite IH.
Qed.

Lemma assoc_set_get (k : pystr) (v : json) (kv : list (pystr * json)) :
  assoc k (assoc_set k v kv) = Some v.
Proof.
  induction kv as [|[k' v'] kv IH]; simpl.
  - now rewrite pystr_eqb_refl.
  - destruct (pystr_eqb k k') eqn:E; simpl; rewrite E; auto.
Qed.

Lemma assoc_set_other (k k' : pystr) (v : json) (kv : list (pystr * json)) :
  k' <> k -> assoc k' (assoc_set k v kv) = assoc k' kv.
Proof.
  intros Hne. induction kv as [|[k0 v0] kv IH]; simpl.
  - destruct (pystr_eqb k' k) eqn:E; [|reflexivity].
    apply pystr_eqb_eq in E. contradiction.
  - destruct (pystr_eqb k k0) eqn:E; simpl.
    + apply pystr_eqb_eq in E. subst k0.
      destruct (pystr_eqb k' k) eqn:E'; [|reflexivity].
      apply pystr_eqb_eq in E'. contradiction.
    + now rewrite IH.
Qed.

(** The keys the geocoding loops assign. *)
Definition assigned (k : pystr) : Prop :=
  k = lit "latitude" \/ k = lit "longitude" \/ k = lit "geocoded".

(** [q] is [p] up to the assigned keys. *)
Definition same_elsewhere (p q : pydict) : Prop :=
  forall k, ~ assigned k -> assoc k q = assoc k p.

Lemma same_elsewhere_refl (p : pydict) : same_elsewhere p p.
Proof. intros k _. reflexivity. Qed.

Lemma same_elsewhere_trans (p q r : pydict) :
  same_elsewhere p q -> same_elsewhere q r -> same_elsewhere p r.
Proof. intros H1 H2 k Hk. rewrite (H2 k Hk). apply (H1 k Hk). Qed.

Lemma same_elsewhere_set (k : string) (v : json) (p : pydict) :
  assigned (lit k) -> same_elsewhere p (dict_set k v p).
Proof.
  intros Hk k' Hk'. unfold dict_set. apply assoc_set_other.
  intros ->. contradiction.
Qed.

Lemma assign_location_frame (loc : json) (p : pydict) :
  match assign_location loc p with
  | Completed p' _ | Raised p' => same_elsewhere p p'
  end.
Proof.
  unfold assign_location.
  destruct (getitem loc "lat") as [lat|]; [|apply same_elsewhere_refl].
  assert (H1 : same_elsewhere p (dict_set "latitude" lat p))
    by (apply same_elsewhere_set; left; reflexivity).
  destruct (getitem loc "lng") as [lng|]; [|exact H1].
  eapply same_elsewhere_trans; [exact H1|].
  eapply same_elsewhere_trans.
  - apply same_elsewhere_set. right; left; reflexivity.
  - apply same_elsewhere_set. right; right; reflexivity.
Qed.

Lemma set_fallback_frame (p : pydict) : same_elsewhere p (set_fallback p).
Proof.
  unfold set_fallback.
  eapply same_elsewhere_trans; [|apply same_elsewhere_set; right; right; reflexivity].
  eapply same_elsewhere_trans; [|apply same_elsewhere_set; right; left; reflexivity].
  apply same_elsewhere_set. left; reflexivity.
Qed.

(** ** quick_geocode.py *)

Module QuickGeocode.

(** The state of the loop: the [geocoded] list, the [success] counter and the
    checkpoint files written (running count, content). *)
Record Run := {
  geocoded : list pydict;
  success : nat;
  checkpoints : list (nat * list pydict)
}.

Section Loop.

(** The Places endpoint and Python's [str()], which formats the name into
    the query. *)
Variable api : endpoint.
Variable py_str : json -> pystr.

(** The [try] body up to [geocoded.append(pharm)]. *)
Definition lookup (pharm : pydict) (resp : http_result) : outcome :=
  match resp with
  | None => Raised pharm
  | Some data =>
      match getitem data "status" with
      | None => Raised pharm
      | Some st =>
          let cond :=
            if eq_str st "OK"
            then option_map truthy (getitem data "results")
            else Some false in
          match cond with
          | None => Raised pharm
          | Some true =>
              match first_location data with
              | None => Raised pharm
              | Some loc => assign_location loc pharm
              end
          | Some false => Completed (set_fallback pharm) false
          end
      end
  end.

(** One iteration for the record at 1-based position [i]; the name is read
    before the [try], so a record without one ends the run with [KeyError]. *)
Definition step (i : nat) (pharm : pydict) (st : Run) : option Run :=
  name <- dict_get pharm "name" ;;
  let query := py_str name ++ lit ", Kenitra, Morocco" in
  match lookup pharm (api i query) with
  | Completed pharm' found =>
      let geocoded' := geocoded st ++ [pharm'] in
      Some {| geocoded := geocoded';
              success := if found then S (success st) else success st;
              checkpoints :=
                if (i mod 50 =? 0)%nat
                then checkpoints st ++ [(i, geocoded')]
                else checkpoints st |}
  | Raised pharm' =>
      Some {| geocoded := geocoded st ++ [set_fallback pharm'];
              success := success st;
              checkpoints := checkpoints st |}
  end.

(** [for i, pharm in enumerate(raw_pharmacies, 1)] from position [i] on. *)
Fixpoint loop (i : nat) (todo : list pydict) (st : Run) : option Run :=
  match todo with
  | [] => Some st
  | pharm :: todo' => st' <- step i pharm st ;; loop (S i) todo' st'
  end.

(** The whole script: the list written to [pharmacies_quick.json]. *)
Definition quick_geocode (raw_pharmacies : list pydict) : option Run :=
  loop 1 raw_pharmacies {| geocoded := []; success := 0; checkpoints := [] |}.

(** The record iteration [i] appends. *)
Definition appended (i : nat) (pharm : pydict) : option pydict :=
  name <- dict_get pharm "name" ;;
  match lookup pharm (api i (py_str name ++ lit ", Kenitra, Morocco")) with
  | Completed pharm' _ => Some pharm'
  | Raised pharm' => Some (set_fallback pharm')
  end.

Lemma step_geocoded (i : nat) (pharm : pydict) (st st' : Run) :
  step i pharm st = Some st' ->
  exists out, appended i pharm = Some out /\ geocoded st' = geocoded st ++ [out].
Proof.
  unfold step, appended. destruct (dict_get pharm "name") as [name|]; [|discriminate].
  destruct (lookup pharm _) as [pharm' found|pharm']; intros [= <-]; simpl; eauto.
Qed.

Lemma step_checkpoints (i : nat) (pharm : pydict) (st st' : Run) :
  step i pharm st = Some st' ->
  checkpoints st' = checkpoints st
  \/ checkpoints st' = checkpoints st ++ [(i, geocoded st')].
Proof.
  unfold step. destruct (dict_get pharm "name") as [name|]; [|discriminate].
  destruct (lookup pharm _) as [pharm' found|pharm'];
    destruct (i mod 50 =? 0)%nat; intros [= <-]; simpl; auto.
Qed.

Lemma step_total (i : nat) (pharm : pydict) (st : Run) :
  dict_get pharm "name" <> None -> exists st', step i pharm st = Some st'.
Proof.
  unfold step. destruct (dict_get pharm "name") as [name|]; [|congruence].
  intros _. destruct (lookup pharm _); eauto.
Qed.

Lemma loop_total (todo : list pydict) (i : nat) (st : Run) :
  Forall (fun pharm => dict_get pharm "name" <> None) todo ->
  exists st', loop i todo st = Some st'.
Proof.
  revert i st. induction todo as [|pharm todo IH]; intros i st Hall; simpl.
  - eauto.
  - inversion Hall as [|? ? Hname Hrest]; subst.
    destruct (step_total i pharm st Hname) as [st1 ->]. now apply IH.
Qed.

(** Position by position, the final list holds what each iteration appended. *)
Lemma loop_nth (todo : list pydict) (i : nat) (st st' : Run) :
  loop i todo st = Some st' ->
  length (geocoded st') = length (geocoded st) + length todo
  /\ firstn (length (geocoded st)) (geocoded st') = geocoded st
  /\ forall k pharm, nth_error todo k = Some pharm ->
       exists out, appended (i + k) pharm = Some out
                   /\ nth_error (geocoded st') (length (geocoded st) + k) = Some out.
Proof.
  revert i st. induction todo as [|pharm todo IH]; intros i st; simpl.
  - intros [= <-]. split; [lia|]. split; [apply firstn_all|].
    intros [|k] ? [=].
  - destruct (step i pharm st) as [st1|] eqn:Hstep; [|discriminate].
    intros Hloop. destruct (step_geocoded _ _ _ _ Hstep) as (out & Hout & Hg).
    destruct (IH _ _ Hloop) as (Hlen & Hpre & Hnth).
    rewrite Hg, length_app in Hlen, Hpre, Hnth. simpl in Hlen, Hpre, Hnth.
    split; [lia|]. split.
    + replace (length (geocoded st))
        with (Nat.min (length (geocoded st)) (length (geocoded st) + 1)) at 1 by lia.
      rewrite <- firstn_firstn, Hpre, firstn_app, Nat.sub_diag, firstn_all.
      simpl. apply app_nil_r.
    + intros [|k] x Hx; simpl in Hx.
      * injection Hx as <-. exists out. rewrite Nat.add_0_r. split; [exact Hout|].
        rewrite Nat.add_0_r.
        rewrite <- (firstn_skipn (length (geocoded st) + 1) (geocoded st')).
        rewrite Hpre, nth_error_app1 by (rewrite length_app; simpl; lia).
        rewrite nth_error_app2 by lia. now rewrite Nat.sub_diag.
      * destruct (Hnth k x Hx) as (out' & Ha & Hn). exists out'.
        rewrite Nat.add_succ_r. split; [exact Ha|].
        rewrite <- Hn. f_equal. lia.
Qed.

(** Every checkpoint file holds as many records as its running count, and
    they are the first records of the list so far. *)
Definition snapshot_of (l : list pydict) (c : nat * list pydict) : Prop :=
  fst c <= length l /\ snd c = firstn (fst c) l.

Lemma loop_checkpoints (todo : list pydict) (i : nat) (st st' : Run) :
  S (length (geocoded st)) = i ->
  Forall (snapshot_of (geocoded st)) (checkpoints st) ->
  loop i todo st = Some st' ->
  Forall (snapshot_of (geocoded st')) (checkpoints st').
Proof.
  revert i st. induction todo as [|pharm todo IH]; intros i st Hi Hcps; simpl.
  - now intros [= <-].
  - destruct (step i pharm st) as [st1|] eqn:Hstep; [|discriminate].
    destruct (step_geocoded _ _ _ _ Hstep) as (out & _ & Hg).
    apply IH.
    + rewrite Hg, length_app. simpl. lia.
    + assert (Hold : Forall (snapshot_of (geocoded st1)) (checkpoints st)).
      { eapply Forall_impl; [|exact Hcps]. intros c [Hle Heq]. rewrite Hg.
        split; [rewrite length_app; lia|].
        rewrite firstn_app. replace (fst c - length (geocoded st)) with 0 by lia.
        now rewrite firstn_O, app_nil_r. }
      destruct (step_checkpoints _ _ _ _ Hstep) as [-> | ->]; [exact Hold|].
      apply Forall_app. split; [exact Hold|]. constructor; [|constructor].
      assert (Hlen : length (geocoded st1) = i)
        by (rewrite Hg, length_app; simpl; lia).
      split; simpl; [lia|]. rewrite <- Hlen. now rewrite firstn_all.
Qed.

Lemma appended_frame (i : nat) (pharm out : pydict) :
  appended i pharm = Some out -> same_elsewhere pharm out.
Proof.
  unfold appended, lookup.
  destruct (dict_get pharm "name") as [name|]; [|discriminate].
  destruct (api i _) as [data|];
    [|intros [= <-]; apply set_fallback_frame].
  destruct (getitem data "status") as [st|];
    [|intros [= <-]; apply set_fallback_frame].
  destruct (if eq_str st "OK" then _ else _) as [[|]|];
    try (intros [= <-]; apply set_fallback_frame).
  destruct (first_location data) as [loc|];
    [|intros [= <-]; apply set_fallback_frame].
  pose proof (assign_location_frame loc pharm) as Hf.
  destruct (assign_location loc pharm) as [p' found|p']; intros [= <-];
    [exact Hf|].
  eapply same_elsewhere_trans; [exact Hf|apply set_fallback_frame].
Qed.

End Loop.

(** The lookup of quick_geocode.py follows the policy of [geocode_address]
    on the coordinates, with the Kenitra centre as fallback and no status:
    a call that raised leaves the record untouched for the [except] branch
    to fill, a status other than OK or an empty result list gives the
    fallback, and a found place gives the coordinates of the first result. *)
Lemma lookup_contract (pharm : pydict) :
  lookup pharm None = Raised pharm
  /\ (forall data st,
        getitem data "status" = Some st ->
        eq_str st "OK" = false \/ getitem data "results" = Some (JArr []) ->
        lookup pharm (Some data) = Completed (set_fallback pharm) false)
  /\ (forall data r0 others geometry location lat lng,
        getitem data "status" = Some (JStr (lit "OK")) ->
        getitem data "results" = Some (JArr (r0 :: others)) ->
        getitem r0 "geometry" = Some geometry ->
        getitem geometry "location" = Some location ->
        getitem location "lat" = Some lat ->
        getitem location "lng" = Some lng ->
        lookup pharm (Some data)
        = Completed (dict_set "geocoded" (JBool true)
                       (dict_set "longitude" lng
                          (dict_set "latitude" lat pharm))) true).
Proof.
  split; [reflexivity|]. split.
  - intros data st Hst Hcase. unfold lookup. rewrite Hst.
    destruct (eq_str st "OK"); [|reflexivity].
    destruct Hcase as [Hno|Hempty]; [discriminate|]. now rewrite Hempty.
  - intros data r0 others geometry location lat lng Hst Hres Hg Hl Hlat Hlng.
    unfold lookup, first_location, assign_location.
    rewrite Hst. cbn [eq_str]. rewrite pystr_eqb_refl.
    rewrite Hres. cbn [option_map truthy length Nat.eqb negb getitem0].
    now rewrite Hg, Hl, Hlat, Hlng.
Qed.

(** A call that raises leaves the record with the fallback coordinates,
    [geocoded] false, and no other key touched. *)
Lemma appended_on_error (api : endpoint) (py_str : json -> pystr)
    (i : nat) (pharm : pydict) (name : json) :
  dict_get pharm "name" = Some name ->
  api i (py_str name ++ lit ", Kenitra, Morocco") = None ->
  appended api py_str i pharm = Some (set_fallback pharm).
Proof.
  intros Hname Hapi. unfold appended. now rewrite Hname, Hapi.
Qed.

End QuickGeocode.


(** ** test_places_api.py *)

Module TestPlacesApi.

(** [v.get(k, default)], an [AttributeError] unless [v] is a dict. *)
Definition get_or (v : json) (k : string) (default : json) : option json :=
  match v with
  | JObj kv =>
      match assoc (lit k) kv with
      | Some x => Some x
      | None => Some default
      end
  | _ => None
  end.

Section Loop.

(** The Places endpoint, Python's [str()] and the clock of [time.strftime]. *)
Variable api : endpoint.
Variable py_str : json -> pystr.
Variable now : nat -> pystr.

Definition default_hours : json :=
  JStr (lit "Lun-Ven: 09:00-19:00 | Sam: 09:00-13:00").

(** The [try] body for the record at 1-based position [i]: the dict it
    appends, or [None] when it raised before appending. *)
Definition lookup (i : nat) (pharmacy_raw : pydict) (name city : json)
    (resp : http_result) : option pydict :=
  data <- resp ;;
  st <- getitem data "status" ;;
  cond <- (if eq_str st "OK"
           then results <- getitem data "results" ;;
                n <- py_len results ;; Some (0 <? n)%nat
           else Some false) ;;
  let id := JStr (lit "pharmacy_kenitra_" ++ pad4 i) in
  if cond then
    results <- getitem data "results" ;;
    result <- getitem0 results ;;
    geometry <- getitem result "geometry" ;;
    location <- getitem geometry "location" ;;
    raw_address <- dict_get pharmacy_raw "address" ;;
    address <- get_or result "formatted_address" raw_address ;;
    lat <- getitem location "lat" ;;
    lng <- getitem location "lng" ;;
    phone <- dict_get pharmacy_raw "phone" ;;
    rating <- get_or result "rating" (JFloat 0%float) ;;
    review_count <- get_or result "user_ratings_total" (JInt 0) ;;
    place_id <- get_or result "place_id" (JStr []) ;;
    Some [(lit "id", id);
          (lit "name", name);
          (lit "name_ar", JNull);
          (lit "address", address);
          (lit "address_ar", JNull);
          (lit "city", city);
          (lit "latitude", lat);
          (lit "longitude", lng);
          (lit "phone_number", phone);
          (lit "email", JNull);
          (lit "website", JNull);
          (lit "opening_hours", default_hours);
          (lit "is_24_hours", JBool false);
          (lit "has_parking", JBool false);
          (lit "is_guard_pharmacy", JBool false);
          (lit "rating", rating);
          (lit "review_count", review_count);
          (lit "image_url", JNull);
          (lit "services", JArr []);
          (lit "distance", JNull);
          (lit "last_updated", JStr (now i));
          (lit "geocoded", JBool true);
          (lit "geocode_status", JStr (lit "OK"));
          (lit "place_id", place_id)]
  else
    raw_address <- dict_get pharmacy_raw "address" ;;
    phone <- dict_get pharmacy_raw "phone" ;;
    status <- getitem data "status" ;;
    Some [(lit "id", id);
          (lit "name", name);
          (lit "address", raw_address);
          (lit "city", city);
          (lit "latitude", JFloat 0%float);
          (lit "longitude", JFloat 0%float);
          (lit "phone_number", phone);
          (lit "geocoded", JBool false);
          (lit "geocode_status", status)].

(** One iteration: the [except] branch only prints, so a record whose
    lookup raised is not appended.  Name and city are read before the [try]. *)
Definition step (i : nat) (pharmacy_raw : pydict) (geocoded_pharmacies : list pydict)
  : option (list pydict) :=
  name <- dict_get pharmacy_raw "name" ;;
  city <- dict_get pharmacy_raw "city" ;;
  let query := py_str name ++ lit ", " ++ py_str city ++ lit ", Morocco" in
  match lookup i pharmacy_raw name city (api i query) with
  | Some pharmacy => Some (geocoded_pharmacies ++ [pharmacy])
  | None => Some geocoded_pharmacies
  end.

Fixpoint loop (i : nat) (todo : list pydict) (geocoded_pharmacies : list pydict)
  : option (list pydict) :=
  match todo with
  | [] => Some geocoded_pharmacies
  | pharmacy_raw :: todo' =>
      acc <- step i pharmacy_raw geocoded_pharmacies ;; loop (S i) todo' acc
  end.

(** The whole script: the list written to [test_places_api.json], from the
    first ten records of the input. *)
Definition test_places_api (raw_pharmacies : list pydict) : option (list pydict) :=
  loop 1 (firstn 10 raw_pharmacies) [].

End Loop.

End TestPlacesApi.

(** ** The in-place loops of geocode_rabat.py and resume_geocode.py

    Both scripts run the same loop body over the list [pharmacies] itself:
    they assign into the dict at the current position and dump the whole list
    at every checkpoint.  They differ in the locality of the query and in the
    position the loop starts from. *)

(** [l[i] = x] for a position inside the list. *)
Fixpoint update {A : Type} (l : list A) (i : nat) (x : A) : list A :=
  match l, i with
  | [], _ => []
  | _ :: t, 0 => x :: t
  | h :: t, S i' => h :: update t i' x
  end.

Lemma update_length {A : Type} (l : list A) (i : nat) (x : A) :
  length (update l i x) = length l.
Proof.
  revert i. induction l as [|h t IH]; intros [|i]; simpl; auto.
Qed.

Lemma update_nth_other {A : Type} (l : list A) (i j : nat) (x : A) :
  j <> i -> nth_error (update l i x) j = nth_error l j.
Proof.
  revert i j. induction l as [|h t IH]; intros [|i] [|j] Hne; simpl; auto;
    try contradiction.
Qed.

Lemma update_nth_same {A : Type} (l : list A) (i : nat) (x : A) :
  i < length l -> nth_error (update l i x) i = Some x.
Proof.
  revert i. induction l as [|h t IH]; intros [|i] Hlt; simpl in *; auto; try lia.
  apply IH. lia.
Qed.

Lemma update_firstn {A : Type} (l : list A) (i n : nat) (x : A) :
  n <= i -> firstn n (update l i x) = firstn n l.
Proof.
  revert i n. induction l as [|h t IH]; intros [|i] [|n] Hle; simpl; auto; try lia.
  f_equal. apply IH. lia.
Qed.

Module InPlace.

(** The state of the loop: the list being filled in, the [success] counter
    and the checkpoint files written (running count, content). *)
Record Run := {
  pharmacies : list pydict;
  success : nat;
  checkpoints : list (nat * list pydict)
}.

Section Loop.

Variable api : endpoint.
Variable py_str : json -> pystr.
(** The locality named in the query: Rabat or Kenitra. *)
Variable locality : string.

(** The [try] body up to the checkpoint test, for the record [p] at the
    0-based position [idx]. *)
Definition lookup (idx : nat) (p : pydict) : outcome :=
  match dict_get p "name" with
  | None => Raised p
  | Some name =>
      match api idx (py_str name ++ lit ", " ++ lit locality ++ lit ", Morocco") with
      | None => Raised p
      | Some data =>
          match getitem data "status" with
          | None => Raised p
          | Some st =>
              if eq_str st "OK" then
                match first_location data with
                | None => Raised p
                | Some loc => assign_location loc p
                end
              else Completed p false
          end
      end
  end.

(** One iteration at position [idx]; the bare [except: pass] keeps whatever
    was assigned before the exception and skips the checkpoint. *)
Definition step (idx : nat) (st : Run) : Run :=
  match nth_error (pharmacies st) idx with
  | None => st
  | Some p =>
      match lookup idx p with
      | Completed p' found =>
          let l' := update (pharmacies st) idx p' in
          {| pharmacies := l';
             success := if found then S (success st) else success st;
             checkpoints :=
               if ((idx + 1) mod 50 =? 0)%nat
               then checkpoints st ++ [(idx + 1, l')]
               else checkpoints st |}
      | Raised p' =>
          {| pharmacies := update (pharmacies st) idx p';
             success := success st;
             checkpoints := checkpoints st |}
      end
  end.

(** [n] iterations from position [idx] on. *)
Fixpoint iter (n idx : nat) (st : Run) : Run :=
  match n with
  | 0 => st
  | S n' => iter n' (S idx) (step idx st)
  end.

Lemma lookup_frame (idx : nat) (p : pydict) :
  match lookup idx p with
  | Completed p' _ | Raised p' => same_elsewhere p p'
  end.
Proof.
  unfold lookup.
  destruct (dict_get p "name"); [|apply same_elsewhere_refl].
  destruct (api idx _) as [data|]; [|apply same_elsewhere_refl].
  destruct (getitem data "status") as [st|]; [|apply same_elsewhere_refl].
  destruct (eq_str st "OK"); [|apply same_elsewhere_refl].
  destruct (first_location data) as [loc|]; [|apply same_elsewhere_refl].
  apply assign_location_frame.
Qed.

Lemma step_length (idx : nat) (st : Run) :
  length (pharmacies (step idx st)) = length (pharmacies st).
Proof.
  unfold step. destruct (nth_error (pharmacies st) idx) as [p|]; [|reflexivity].
  destruct (lookup idx p); simpl; apply update_length.
Qed.

Lemma step_nth_other (idx j : nat) (st : Run) :
  j <> idx -> nth_error (pharmacies (step idx st)) j = nth_error (pharmacies st) j.
Proof.
  intros Hne. unfold step.
  destruct (nth_error (pharmacies st) idx) as [p|]; [|reflexivity].
  destruct (lookup idx p); simpl; now apply update_nth_other.
Qed.

Lemma step_firstn (idx n : nat) (st : Run) :
  n <= idx -> firstn n (pharmacies (step idx st)) = firstn n (pharmacies st).
Proof.
  intros Hle. unfold step.
  destruct (nth_error (pharmacies st) idx) as [p|]; [|reflexivity].
  destruct (lookup idx p); simpl; now apply update_firstn.
Qed.

Lemma step_frame (idx j : nat) (st : Run) (p : pydict) :
  nth_error (pharmacies st) j = Some p ->
  exists q, nth_error (pharmacies (step idx st)) j = Some q /\ same_elsewhere p q.
Proof.
  intros Hj. destruct (Nat.eq_dec j idx) as [->|Hne].
  - unfold step. rewrite Hj.
    assert (Hlt : idx < length (pharmacies st))
      by (apply nth_error_Some; congruence).
    pose proof (lookup_frame idx p) as Hf.
    destruct (lookup idx p) as [p' found|p']; simpl;
      exists p'; (split; [now apply update_nth_same|exact Hf]).
  - exists p. rewrite step_nth_other by exact Hne.
    split; [exact Hj|apply same_elsewhere_refl].
Qed.

Lemma iter_length (n idx : nat) (st : Run) :
  length (pharmacies (iter n idx st)) = length (pharmacies st).
Proof.
  revert idx st. induction n as [|n IH]; intros idx st; simpl; [reflexivity|].
  rewrite IH. apply step_length.
Qed.

(** Positions before the one the loop starts from are never assigned. *)
Lemma iter_firstn (n idx k : nat) (st : Run) :
  k <= idx -> firstn k (pharmacies (iter n idx st)) = firstn k (pharmacies st).
Proof.
  revert idx st. induction n as [|n IH]; intros idx st Hle; simpl; [reflexivity|].
  rewrite IH by lia. now apply step_firstn.
Qed.

Lemma iter_nth_before (n idx j : nat) (st : Run) :
  j < idx -> nth_error (pharmacies (iter n idx st)) j = nth_error (pharmacies st) j.
Proof.
  revert idx st. induction n as [|n IH]; intros idx st Hlt; simpl; [reflexivity|].
  rewrite IH by lia. apply step_nth_other. lia.
Qed.

Lemma iter_frame (n idx j : nat) (st : Run) (p : pydict) :
  nth_error (pharmacies st) j = Some p ->
  exists q, nth_error (pharmacies (iter n idx st)) j = Some q /\ same_elsewhere p q.
Proof.
  revert idx st p. induction n as [|n IH]; intros idx st p Hj; simpl.
  - exists p. split; [exact Hj|apply same_elsewhere_refl].
  - destruct (step_frame idx j st p Hj) as (q & Hq & Hpq).
    destruct (IH (S idx) _ _ Hq) as (r & Hr & Hqr).
    exists r. split; [exact Hr|]. eapply same_elsewhere_trans; eauto.
Qed.

(** A checkpoint file holds the whole list; its first [fst c] records are
    those of [l]. *)
Definition dump_of (l : list pydict) (c : nat * list pydict) : Prop :=
  length (snd c) = length l /\ firstn (fst c) (snd c) = firstn (fst c) l.

Lemma step_dumps (idx : nat) (st : Run) :
  Forall (fun c => fst c <= idx /\ dump_of (pharmacies st) c) (checkpoints st) ->
  Forall (fun c => fst c <= S idx /\ dump_of (pharmacies (step idx st)) c)
    (checkpoints (step idx st)).
Proof.
  intros Hcps.
  assert (Hold : Forall (fun c => fst c <= S idx /\ dump_of (pharmacies (step idx st)) c)
                   (checkpoints st)).
  { eapply Forall_impl; [|exact Hcps]. intros c (Hle & Hlen & Hpre).
    split; [lia|]. split.
    - now rewrite step_length.
    - now rewrite step_firstn. }
  revert Hold. unfold step.
  destruct (nth_error (pharmacies st) idx) as [p|]; [|auto].
  destruct (lookup idx p) as [p' found|p']; cbn [pharmacies checkpoints]; [|auto].
  destruct ((idx + 1) mod 50 =? 0)%nat; [|auto].
  intros Hold. apply Forall_app. split; [exact Hold|].
  constructor; [|constructor]. cbn [fst snd]. split; [lia|]. split; reflexivity.
Qed.

Lemma iter_checkpoints (n idx : nat) (st : Run) :
  Forall (fun c => fst c <= idx /\ dump_of (pharmacies st) c) (checkpoints st) ->
  Forall (dump_of (pharmacies (iter n idx st))) (checkpoints (iter n idx st)).
Proof.
  revert idx st. induction n as [|n IH]; intros idx st Hcps; simpl.
  - eapply Forall_impl; [|exact Hcps]. now intros c [_ H].
  - apply IH. now apply step_dumps.
Qed.

End Loop.

End InPlace.

(** ** geocode_rabat.py *)

Module GeocodeRabat.

(** The whole script: the list written to [rabat_pharmacies.json] and the
    checkpoint files. *)
Definition geocode_rabat (api : endpoint) (py_str : json -> pystr)
    (pharmacies : list pydict) : InPlace.Run :=
  InPlace.iter api py_str "Rabat" (length pharmacies) 0
    {| InPlace.pharmacies := pharmacies;
       InPlace.success := 0;
       InPlace.checkpoints := [] |}.

End GeocodeRabat.

(** ** resume_geocode.py *)

Module ResumeGeocode.

(** [p.get('geocoded')] as a condition. *)
Definition is_geocoded (p : pydict) : bool :=
  match dict_get p "geocoded" with
  | Some v => truthy v
  | None => false
  end.

(** [completed + raw_pharmacies[400:]] *)
Definition merged (raw_pharmacies completed : list pydict) : list pydict :=
  completed ++ skipn 400 raw_pharmacies.

(** The whole script: the list written to [pharmacies_quick.json] and the
    checkpoint files. *)
Definition resume_geocode (api : endpoint) (py_str : json -> pystr)
    (raw_pharmacies completed : list pydict) : InPlace.Run :=
  let pharmacies := merged raw_pharmacies completed in
  InPlace.iter api py_str "Kenitra" (length pharmacies - 400) 400
    {| InPlace.pharmacies := pharmacies;
       InPlace.success := length (filter is_geocoded (firstn 400 pharmacies));
       InPlace.checkpoints := [] |}.

End ResumeGeocode.


(** ** scrape_rabat.py *)

Module ScrapeRabat.

Definition BASE_URL : pystr :=
  lit "https://www.annuaire-gratuit.ma/pharmacies/_rabat".

(** The URL of a page: the base for page 1, a [-pg] suffix for the others. *)
Definition page_url (page_num : Z) : pystr :=
  if (page_num =? 1)%Z then BASE_URL
  else BASE_URL ++ lit "-pg" ++ str_int page_num.

(** The dict a listing adds to [pharmacies], or [None] when it adds none. *)
Definition scrape_listing (listing : PharmacyScraper.Listing) : option pydict :=
  match PharmacyScraper.link_href listing with
  | None => None
  | Some href =>
      if contains (lit "/pharmacies/") href then
        match PharmacyScraper.name_elem listing with
        | None => None
        | Some name =>
            Some [(lit "name", JStr name);
                  (lit "phone",
                   JStr match PharmacyScraper.phone_elem listing with
                        | Some phone => phone
                        | None => []
                        end);
                  (lit "address", JStr (name ++ lit ", Rabat, Morocco"));
                  (lit "city", JStr (lit "Rabat"));
                  (lit "geocoded", JBool false);
                  (lit "latitude", JFloat 0%float);
                  (lit "longitude", JFloat 0%float)]
        end
      else None
  end.

Fixpoint scrape_listings (listings : list PharmacyScraper.Listing)
    (pharmacies : list pydict) : list pydict :=
  match listings with
  | [] => pharmacies
  | listing :: rest =>
      match scrape_listing listing with
      | Some d => scrape_listings rest (pharmacies ++ [d])
      | None => scrape_listings rest pharmacies
      end
  end.

Section Loop.

Variable web : PharmacyScraper.directory.

(** The body of the loop over the pages: a fetch that raises leaves
    [pharmacies] as it was. *)
Definition scrape_page (page_num : Z) (pharmacies : list pydict) : list pydict :=
  match web (page_url page_num) with
  | Some listings => scrape_listings listings pharmacies
  | None => pharmacies
  end.

Fixpoint scrape_pages (pages : list Z) (pharmacies : list pydict) : list pydict :=
  match pages with
  | [] => pharmacies
  | page_num :: rest => scrape_pages rest (scrape_page page_num pharmacies)
  end.

(** The whole script, for [TOTAL_PAGES] pages. *)
Definition scrape_rabat (TOTAL_PAGES : Z) : list pydict :=
  scrape_pages (py_range 1 (TOTAL_PAGES + 1)) [].

Lemma scrape_listings_acc (listings : list PharmacyScraper.Listing)
    (pharmacies : list pydict) :
  scrape_listings listings pharmacies
  = pharmacies ++ scrape_listings listings [].
Proof.
  revert pharmacies. induction listings as [|l ls IH]; intro acc; cbn [scrape_listings].
  - now rewrite app_nil_r.
  - destruct (scrape_listing l) as [d|]; [|apply IH].
    rewrite IH, (IH ([] ++ [d])). now rewrite app_assoc.
Qed.

(** scrape_rabat.py too returns the concatenation of what the pages give, a
    page whose fetch raised giving nothing. *)
Lemma scrape_rabat_concat (TOTAL_PAGES : Z) :
  scrape_rabat TOTAL_PAGES
  = flat_map (fun page_num => scrape_page page_num [])
      (py_range 1 (TOTAL_PAGES + 1))
  /\ forall page_num, web (page_url page_num) = None ->
       scrape_page page_num [] = [].
Proof.
  split.
  - unfold scrape_rabat. generalize (py_range 1 (TOTAL_PAGES + 1)) as pages.
    assert (H : forall pages acc,
               scrape_pages pages acc
               = acc ++ flat_map (fun page_num => scrape_page page_num []) pages).
    { induction pages as [|page rest IH]; intro acc; cbn [scrape_pages flat_map].
      - now rewrite app_nil_r.
      - rewrite IH. rewrite app_assoc. f_equal.
        unfold scrape_page. destruct (web (page_url page)); [|now rewrite app_nil_r].
        apply scrape_listings_acc. }
    intro pages. apply (H pages []).
  - intros page_num Hweb. unfold scrape_page. now rewrite Hweb.
Qed.

End Loop.

End ScrapeRabat.

(** ** final_integrate.py: what the emitter reads of a record *)

Module FinalIntegrate.

(** [p.get(k, default)] *)
Definition get (p : pydict) (k : string) (default : json) : json :=
  match dict_get p k with
  | Some v => v
  | None => default
  end.

(** [lat], [lon] and the value whose [str(...).lower()] is written as
    [geocoded], with the defaults of the script. *)
Definition lat (p : pydict) : json := get p "latitude" kenitra_lat.
Definition lon (p : pydict) : json := get p "longitude" kenitra_lng.
Definition geocoded (p : pydict) : json := get p "geocoded" (JBool true).

End FinalIntegrate.

(** ** The geocoding drivers side by side *)

(** [str()] on the values the samples use. *)
Definition sample_str (v : json) : pystr :=
  match v with
  | JStr s => s
  | _ => lit "None"
  end.

(** A record of [pharmacies_raw.json]: the dict of a [PharmacyRaw]. *)
Definition sample_dict : pydict :=
  [(lit "name", JStr (lit "Pharmacie Al Amal"));
   (lit "address", JStr (lit "Pharmacie Al Amal, Kenitra, Morocco"));
   (lit "city", JStr (lit "Kenitra"));
   (lit "phone", JStr (lit "05 37 37 12 34"));
   (lit "page_number", JInt 1);
   (lit "source_url",
    JStr (lit "https://www.annuaire-gratuit.ma/recherche/pharmacies-ville-k-pg1"))].

(** An endpoint whose every call raises (a timeout). *)
Definition api_down : endpoint := fun _ _ => None.

(** An endpoint that finds nothing. *)
Definition api_zero_results : endpoint :=
  fun _ _ => Some (PharmacyScraper.response "ZERO_RESULTS" []).

Lemma geocode_one_on_error (api : endpoint) (now : nat -> pystr) (i : nat)
    (raw : PharmacyScraper.PharmacyRaw) :
  api i (PharmacyScraper.geocode_query (PharmacyScraper.raw_address raw)
           (PharmacyScraper.raw_city raw)) = None ->
  let p := PharmacyScraper.geocode_one api now i raw in
  PharmacyScraper.latitude p = JFloat 0%float
  /\ PharmacyScraper.longitude p = JFloat 0%float
  /\ PharmacyScraper.geocode_status p = JStr (lit "ERROR")
  /\ PharmacyScraper.geocoded p = false.
Proof.
  intros Hapi. unfold PharmacyScraper.geocode_one. rewrite Hapi.
  repeat split.
Qed.

(** C2, as the code has it: [geocode_pharmacies] (for a non-zero batch size)
    and quick_geocode.py (for records that have a name) emit exactly one
    record per input record, the k-th output made from the k-th input.  When
    the call for a record raises, the record is still appended: by
    [geocode_pharmacies] with coordinates (0.0, 0.0) and status ERROR, by
    quick_geocode.py, which keeps no status, with the Kenitra centre and
    [geocoded] false. *)
Theorem one_record_per_input :
  (forall (api : endpoint) (now : nat -> pystr) (batch_size : Z)
          (raws : list PharmacyScraper.PharmacyRaw),
      batch_size <> 0%Z ->
      exists run,
        PharmacyScraper.geocode_pharmacies api now batch_size raws = Some run
        /\ length (PharmacyScraper.run_geocoded run) = length raws
        /\ forall k raw, nth_error raws k = Some raw ->
             exists p,
               nth_error (PharmacyScraper.run_geocoded run) k = Some p
               /\ p = PharmacyScraper.geocode_one api now k raw
               /\ PharmacyScraper.name p = PharmacyScraper.raw_name raw
               /\ PharmacyScraper.phone_number p = PharmacyScraper.raw_phone raw
               /\ (api k (PharmacyScraper.geocode_query
                            (PharmacyScraper.raw_address raw)
                            (PharmacyScraper.raw_city raw)) = None ->
                   PharmacyScraper.latitude p = JFloat 0%float
                   /\ PharmacyScraper.longitude p = JFloat 0%float
                   /\ PharmacyScraper.geocode_status p = JStr (lit "ERROR")))
  /\ (forall (api : endpoint) (py_str : json -> pystr) (raws : list pydict),
         Forall (fun pharm => dict_get pharm "name" <> None) raws ->
         exists run,
           QuickGeocode.quick_geocode api py_str raws = Some run
           /\ length (QuickGeocode.geocoded run) = length raws
           /\ forall k pharm, nth_error raws k = Some pharm ->
                exists out,
                  nth_error (QuickGeocode.geocoded run) k = Some out
                  /\ same_elsewhere pharm out
                  /\ (forall name,
                         dict_get pharm "name" = Some name ->
                         api (1 + k) (py_str name ++ lit ", Kenitra, Morocco") = None ->
                         out = set_fallback pharm)).
Proof.
  split.
  - intros api now batch_size raws Hb.
    destruct (PharmacyScraper.geocode_loop_total api now batch_size raws 0
                {| PharmacyScraper.run_geocoded := [];
                   PharmacyScraper.run_checkpoints := [] |} Hb) as [run Hrun].
    exists run. split; [exact Hrun|].
    apply PharmacyScraper.geocode_loop_geocoded in Hrun. simpl in Hrun.
    rewrite Hrun, PharmacyScraper.geocode_all_length. split; [reflexivity|].
    intros k raw Hk. exists (PharmacyScraper.geocode_one api now k raw).
    rewrite PharmacyScraper.geocode_all_nth, Hk. simpl.
    split; [reflexivity|]. split; [reflexivity|].
    split; [reflexivity|]. split; [reflexivity|].
    intros Hapi.
    destruct (geocode_one_on_error api now k raw Hapi) as (Hlat & Hlng & Hst & _).
    auto.
  - intros api py_str raws Hnames.
    destruct (QuickGeocode.loop_total api py_str raws 1
                {| QuickGeocode.geocoded := []; QuickGeocode.success := 0;
                   QuickGeocode.checkpoints := [] |} Hnames) as [run Hrun].
    exists run. split; [exact Hrun|].
    destruct (QuickGeocode.loop_nth api py_str raws 1 _ run Hrun)
      as (Hlen & _ & Hnth).
    simpl in Hlen. split; [exact Hlen|].
    intros k pharm Hk. destruct (Hnth k pharm Hk) as (out & Happ & Hout).
    simpl in Hout. exists out. split; [exact Hout|]. split.
    + exact (QuickGeocode.appended_frame api py_str _ _ _ Happ).
    + intros name Hname Hapi.
      rewrite (QuickGeocode.appended_on_error api py_str (1 + k) pharm name Hname Hapi)
        in Happ.
      congruence.
Qed.

Lemma one_record_per_input_witness :
  (exists run,
      PharmacyScraper.geocode_pharmacies api_down PharmacyScraper.sample_now 50
        [PharmacyScraper.sample_raw; PharmacyScraper.sample_raw] = Some run
      /\ length (PharmacyScraper.run_geocoded run) = 2)
  /\ (exists run,
         QuickGeocode.quick_geocode api_down sample_str [sample_dict; sample_dict]
         = Some run
         /\ length (QuickGeocode.geocoded run) = 2).
Proof.
  split.
  - destruct (proj1 one_record_per_input api_down PharmacyScraper.sample_now 50%Z
                [PharmacyScraper.sample_raw; PharmacyScraper.sample_raw])
      as (run & Hrun & Hlen & _); [discriminate|].
    exists run. split; [exact Hrun|exact Hlen].
  - destruct (proj2 one_record_per_input api_down sample_str
                [sample_dict; sample_dict])
      as (run & Hrun & Hlen & _).
    + repeat constructor; discriminate.
    + exists run. split; [exact Hrun|exact Hlen].
Defined.

(** C2 as stated fails on quick_geocode.py: the record of a call that raised
    is appended with the fallback coordinates, and carries no status. *)
Lemma quick_geocode_error_has_no_status :
  exists out,
    QuickGeocode.quick_geocode api_down sample_str [sample_dict]
    = Some {| QuickGeocode.geocoded := [out];
              QuickGeocode.success := 0;
              QuickGeocode.checkpoints := [] |}
    /\ dict_get out "latitude" = Some kenitra_lat
    /\ dict_get out "longitude" = Some kenitra_lng
    /\ dict_get out "geocode_status" = None
    /\ dict_get out "geocode_status" <> Some (JStr (lit "ERROR")).
Proof.
  eexists. split; [reflexivity|]. repeat split. discriminate.
Qed.

(** test_places_api.py does not keep the record of a call that raised: one
    input record, no output record. *)
Lemma test_places_api_drops_on_error :
  TestPlacesApi.test_places_api api_down sample_str PharmacyScraper.sample_now
    [sample_dict] = Some [].
Proof. reflexivity. Qed.

(** With an endpoint that answers, the same record is kept. *)
Lemma test_places_api_keeps_on_answer :
  exists out,
    TestPlacesApi.test_places_api api_zero_results sample_str
      PharmacyScraper.sample_now [sample_dict] = Some [out]
    /\ dict_get out "geocode_status" = Some (JStr (lit "ZERO_RESULTS")).
Proof. eexists. split; reflexivity. Qed.

(** C4, as the code has it: a checkpoint written at running count N by
    [geocode_pharmacies] or by quick_geocode.py holds exactly N records, the
    first N records of the final output in order.  geocode_rabat.py dumps the
    whole list it works on: its checkpoint at count N holds as many records as
    the input, and its first N records are the first N of the final output. *)
Theorem checkpoint_is_prefix :
  (forall (api : endpoint) (now : nat -> pystr) (batch_size : Z)
          (raws : list PharmacyScraper.PharmacyRaw) run,
      PharmacyScraper.geocode_pharmacies api now batch_size raws = Some run ->
      Forall (fun c =>
                length (PharmacyScraper.cp_records c) = PharmacyScraper.cp_count c
                /\ PharmacyScraper.cp_records c
                   = firstn (PharmacyScraper.cp_count c)
                       (PharmacyScraper.run_geocoded run))
        (PharmacyScraper.run_checkpoints run))
  /\ (forall (api : endpoint) (py_str : json -> pystr) (raws : list pydict) run,
         QuickGeocode.quick_geocode api py_str raws = Some run ->
         Forall (fun c =>
                   length (snd c) = fst c
                   /\ snd c = firstn (fst c) (QuickGeocode.geocoded run))
           (QuickGeocode.checkpoints run))
  /\ (forall (api : endpoint) (py_str : json -> pystr) (pharmacies : list pydict),
         let run := GeocodeRabat.geocode_rabat api py_str pharmacies in
         Forall (fun c =>
                   length (snd c) = length pharmacies
                   /\ firstn (fst c) (snd c)
                      = firstn (fst c) (InPlace.pharmacies run))
           (InPlace.checkpoints run)).
Proof.
  split; [|split].
  - intros api now batch_size raws run Hrun.
    apply PharmacyScraper.geocode_loop_checkpoints in Hrun;
      [|reflexivity|constructor].
    eapply Forall_impl; [|exact Hrun]. intros c [Hle Heq].
    split; [|exact Heq]. rewrite Heq. apply firstn_length_le. exact Hle.
  - intros api py_str raws run Hrun.
    apply QuickGeocode.loop_checkpoints in Hrun; [|reflexivity|constructor].
    eapply Forall_impl; [|exact Hrun]. intros c [Hle Heq].
    split; [|exact Heq]. rewrite Heq. apply firstn_length_le. exact Hle.
  - intros api py_str pharmacies run.
    pose proof (InPlace.iter_checkpoints api py_str "Rabat" (length pharmacies) 0
                  {| InPlace.pharmacies := pharmacies;
                     InPlace.success := 0;
                     InPlace.checkpoints := [] |}) as H.
    specialize (H (Forall_nil _)).
    eapply Forall_impl; [|exact H]. intros c [Hlen Hpre]. split; [|exact Hpre].
    rewrite Hlen. apply InPlace.iter_length.
Qed.

(** Fifty records the endpoint finds in Kenitra. *)
Definition fifty_raws : list PharmacyScraper.PharmacyRaw :=
  repeat PharmacyScraper.sample_raw 50.

Lemma checkpoint_is_prefix_witness :
  exists run c,
    PharmacyScraper.geocode_pharmacies PharmacyScraper.api_kenitra
      PharmacyScraper.sample_now 50 fifty_raws = Some run
    /\ PharmacyScraper.run_checkpoints run = [c]
    /\ PharmacyScraper.cp_count c = 50
    /\ length (PharmacyScraper.cp_records c) = 50.
Proof.
  destruct (PharmacyScraper.geocode_loop_total PharmacyScraper.api_kenitra
              PharmacyScraper.sample_now 50 fifty_raws 0
              {| PharmacyScraper.run_geocoded := [];
                 PharmacyScraper.run_checkpoints := [] |}) as [run Hrun];
    [discriminate|].
  pose proof (proj1 checkpoint_is_prefix PharmacyScraper.api_kenitra
                PharmacyScraper.sample_now 50%Z fifty_raws run Hrun) as Hall.
  assert (Hcps : exists c, PharmacyScraper.run_checkpoints run = [c]
                           /\ PharmacyScraper.cp_count c = 50).
  { vm_compute in Hrun. injection Hrun as <-. eexists. split; reflexivity. }
  destruct Hcps as (c & Hc & Hn). exists run, c.
  split; [exact Hrun|]. split; [exact Hc|]. split; [exact Hn|].
  rewrite Hc in Hall. inversion Hall as [|? ? [Hlen _] _]; subst.
  rewrite Hlen. exact Hn.
Defined.

(** C4 as stated fails on geocode_rabat.py: with 51 records the checkpoint
    written at count 50 holds all 51. *)
Lemma rabat_checkpoint_holds_whole_list :
  exists snap,
    InPlace.checkpoints
      (GeocodeRabat.geocode_rabat api_zero_results sample_str (repeat sample_dict 51))
    = [(50, snap)]
    /\ length snap = 51.
Proof.
  eexists. split; vm_compute; reflexivity.
Qed.

(** C10: in resume_geocode.py every record at a position below 400 is in the
    final list exactly as it was in [completed + raw_pharmacies[400:]], so
    exactly as loaded from the checkpoint file when that file holds 400
    records; at every position the final record differs from the loaded one
    at most in [latitude], [longitude] and [geocoded]. *)
Theorem resume_keeps_completed
    (api : endpoint) (py_str : json -> pystr)
    (raw_pharmacies completed : list pydict) :
  let final :=
    InPlace.pharmacies
      (ResumeGeocode.resume_geocode api py_str raw_pharmacies completed) in
  (forall i, i < 400 ->
     nth_error final i
     = nth_error (ResumeGeocode.merged raw_pharmacies completed) i)
  /\ (length completed = 400 -> firstn 400 final = completed)
  /\ length final = length (ResumeGeocode.merged raw_pharmacies completed)
  /\ (forall i p,
        nth_error (ResumeGeocode.merged raw_pharmacies completed) i = Some p ->
        exists q, nth_error final i = Some q /\ same_elsewhere p q).
Proof.
  unfold ResumeGeocode.resume_geocode. cbv zeta.
  split; [|split; [|split]].
  - intros i Hi. now rewrite InPlace.iter_nth_before.
  - intros Hlen. rewrite InPlace.iter_firstn by lia. cbn [InPlace.pharmacies].
    unfold ResumeGeocode.merged. rewrite <- Hlen.
    rewrite firstn_app, Nat.sub_diag, firstn_all. cbn [firstn]. apply app_nil_r.
  - now rewrite InPlace.iter_length.
  - intros i p Hp. now apply InPlace.iter_frame.
Qed.

(** A record that resume_geocode.py could not geocode keeps the keys it was
    loaded with, so a raw record stays without [geocoded] and [latitude];
    final_integrate.py then writes it with [geocoded] true and the Kenitra
    centre, its defaults. *)
Lemma final_integrate_defaults :
  exists p,
    nth_error
      (InPlace.pharmacies
         (ResumeGeocode.resume_geocode api_zero_results sample_str
            (repeat sample_dict 401) (repeat (set_fallback sample_dict) 400)))
      400 = Some p
    /\ dict_get p "geocoded" = None
    /\ FinalIntegrate.geocoded p = JBool true
    /\ FinalIntegrate.lat p = kenitra_lat
    /\ FinalIntegrate.lon p = kenitra_lng.
Proof. eexists. split; [vm_compute; reflexivity|]. repeat split. Qed.

Lemma resume_keeps_completed_witness :
  nth_error
    (InPlace.pharmacies
       (ResumeGeocode.resume_geocode PharmacyScraper.api_kenitra sample_str
          (repeat sample_dict 402) (repeat (set_fallback sample_dict) 400)))
    7
  = Some (set_fallback sample_dict).
Proof.
  rewrite (proj1 (resume_keeps_completed PharmacyScraper.api_kenitra sample_str
                    (repeat sample_dict 402)
                    (repeat (set_fallback sample_dict) 400)) 7) by lia.
  reflexivity.
Defined.


(** ** geocode_places_api.py: the Kotlin entries *)

Module GeocodePlacesApi.

(** [v.replace('"', '\\"')], an [AttributeError] unless [v] is a string. *)
Definition escape_quote (v : json) : option pystr :=
  match v with
  | JStr s => Some (replace_char 34 [92; 34]%N s)
  | _ => None
  end.

Section Emitter.

(** Python's [str()] and [str.lower()]. *)
Variable py_str : json -> pystr.
Variable py_lower : pystr -> pystr.

(** What one iteration of the loop over [geocoded_pharmacies] adds to
    [kotlin_code]; [None] when a key is missing or a text field is not a
    string, which ends the script.  [last] tells whether [p] is the last
    record. *)
Definition entry (p : pydict) (last : bool) : option pystr :=
  name <- dict_get p "name" ;;
  name_escaped <- escape_quote name ;;
  address <- dict_get p "address" ;;
  address_escaped <- escape_quote address ;;
  opening <- dict_get p "opening_hours" ;;
  opening_escaped <- escape_quote opening ;;
  let comma := if last then [] else lit "," in
  id <- dict_get p "id" ;;
  city <- dict_get p "city" ;;
  latitude <- dict_get p "latitude" ;;
  longitude <- dict_get p "longitude" ;;
  phone_number <- dict_get p "phone_number" ;;
  is_24_hours <- dict_get p "is_24_hours" ;;
  has_parking <- dict_get p "has_parking" ;;
  is_guard_pharmacy <- dict_get p "is_guard_pharmacy" ;;
  rating <- dict_get p "rating" ;;
  review_count <- dict_get p "review_count" ;;
  last_updated <- dict_get p "last_updated" ;;
  Some (line "        Pharmacy("
        ++ lit "            id = " ++ dq ++ py_str id ++ dq ++ line ","
        ++ lit "            name = " ++ dq ++ name_escaped ++ dq ++ line ","
        ++ line "            nameAr = null,"
        ++ lit "            address = " ++ dq ++ address_escaped ++ dq ++ line ","
        ++ line "            addressAr = null,"
        ++ lit "            city = " ++ dq ++ py_str city ++ dq ++ line ","
        ++ lit "            latitude = " ++ py_str latitude ++ line ","
        ++ lit "            longitude = " ++ py_str longitude ++ line ","
        ++ lit "            phoneNumber = " ++ dq ++ py_str phone_number ++ dq ++ line ","
        ++ line "            email = null,"
        ++ line "            website = null,"
        ++ lit "            openingHours = " ++ dq ++ opening_escaped ++ dq ++ line ","
        ++ lit "            is24Hours = " ++ py_lower (py_str is_24_hours) ++ line ","
        ++ lit "            hasParking = " ++ py_lower (py_str has_parking) ++ line ","
        ++ lit "            isGuardPharmacy = " ++ py_lower (py_str is_guard_pharmacy) ++ line ","
        ++ lit "            rating = " ++ py_str rating ++ line "f,"
        ++ lit "            reviewCount = " ++ py_str review_count ++ line ","
        ++ line "            imageUrl = null,"
        ++ line "            services = emptyList(),"
        ++ line "            distance = null,"
        ++ lit "            lastUpdated = dateFormat.parse(" ++ dq ++ py_str last_updated
        ++ dq ++ line ") ?: Date()"
        ++ lit "        )" ++ comma ++ [10%N]).

(** The loop: [kotlin_code] after the records still to emit. *)
Fixpoint entries (todo : list pydict) (kotlin_code : pystr) : option pystr :=
  match todo with
  | [] => Some kotlin_code
  | p :: rest =>
      e <- entry p (match rest with [] => true | _ => false end) ;;
      entries rest (kotlin_code ++ e)
  end.

End Emitter.

(** A record as the success branch of the driver builds it, with a name
    that runs over two lines. *)
Definition two_line_name : pydict :=
  [(lit "id", JStr (lit "pharmacy_kenitra_0001"));
   (lit "name", JStr (lit "Pharmacie" ++ [10%N] ++ lit "Centrale"));
   (lit "name_ar", JNull);
   (lit "address", JStr (lit "Avenue Mohamed V, Kenitra"));
   (lit "address_ar", JNull);
   (lit "city", JStr (lit "Kenitra"));
   (lit "latitude", JFloat 34.25%float);
   (lit "longitude", JFloat (-6.5)%float);
   (lit "phone_number", JStr (lit "05 37 37 12 34"));
   (lit "email", JNull);
   (lit "website", JNull);
   (lit "opening_hours", JStr (lit "Lun-Ven: 09:00-19:00 | Sam: 09:00-13:00"));
   (lit "is_24_hours", JBool false);
   (lit "has_parking", JBool false);
   (lit "is_guard_pharmacy", JBool false);
   (lit "rating", JFloat 0%float);
   (lit "review_count", JInt 0);
   (lit "image_url", JNull);
   (lit "services", JArr []);
   (lit "distance", JNull);
   (lit "last_updated", JStr (lit "2024-01-01T00:00:00"));
   (lit "geocoded", JBool true);
   (lit "geocode_status", JStr (lit "OK"));
   (lit "place_id", JStr (lit "abc"))].

End GeocodePlacesApi.


(** ** The emitted text fields *)

(** A listing whose locality is [Sidi "Yahia"], with the quotes. *)
Definition quoted_city_listing : PharmacyScraper.Listing :=
  {| PharmacyScraper.link_href := Some (lit "/pharmacies/pharmacie-al-amal-k1.html");
     PharmacyScraper.name_elem := Some (lit "Pharmacie Al Amal");
     PharmacyScraper.city_elem := Some (lit "Sidi " ++ dq ++ lit "Yahia" ++ dq);
     PharmacyScraper.phone_elem := Some (lit "0537371234") |}.

(** The records scraped from that listing, geocoded. *)
Definition quoted_city_run : option PharmacyScraper.Run :=
  PharmacyScraper.geocode_pharmacies PharmacyScraper.api_kenitra
    PharmacyScraper.sample_now 50
    (PharmacyScraper.scrape_listings (fun _ => false) 1
       (PharmacyScraper.base_url ++ lit "1") [quoted_city_listing] []).

Lemma lstrip_incl (s : pystr) (c : N) : In c (lstrip s) -> In c s.
Proof.
  induction s as [|x s IH]; simpl; [auto|].
  destruct (is_space x); simpl; auto.
Qed.

Lemma strip_incl (s : pystr) (c : N) : In c (strip s) -> In c s.
Proof.
  unfold strip. intros H. apply in_rev in H. apply lstrip_incl in H.
  apply in_rev in H. now apply lstrip_incl in H.
Qed.

(** What [_escape_quotes] does achieve: its result holds no newline. *)
Lemma escape_quotes_no_newline (text : pystr) :
  ~ In 10%N (PharmacyScraper._escape_quotes text).
Proof.
  unfold PharmacyScraper._escape_quotes. intros H. apply strip_incl in H.
  unfold replace_char in H. apply in_flat_map in H.
  destruct H as (x & _ & Hx). destruct (N.eqb x 10) eqn:E.
  - simpl in Hx. destruct Hx as [Hx|[]]. discriminate.
  - simpl in Hx. destruct Hx as [Hx|[]]. subst x. discriminate.
Qed.

(** The entries of [_generate_pharmacy_entries]: one per record. *)
Lemma one_entry_per_record (py_str : json -> pystr)
    (pharmacies : list PharmacyScraper.Pharmacy) :
  PharmacyScraper._generate_pharmacy_entries py_str pharmacies
  = join (lit "," ++ [10%N]) (map (PharmacyScraper.pharmacy_entry py_str) pharmacies)
  /\ length (map (PharmacyScraper.pharmacy_entry py_str) pharmacies)
     = length pharmacies.
Proof. split; [reflexivity|apply length_map]. Qed.

(** C7 fails on the code: [generate_kotlin_data] writes the city between
    quotes as it is, so the locality [Sidi "Yahia"] of a scraped listing
    reaches the Kotlin text with its quotes unescaped; and the entries of
    geocode_places_api.py escape quotes only, so a name that runs over two
    lines is written with its raw newline. *)
Theorem emitter_leaves_fields_unescaped :
  (forall py_str p,
      exists before after,
        PharmacyScraper.pharmacy_entry py_str p
        = before ++ lit "city = " ++ dq ++ PharmacyScraper.city p ++ dq ++ after)
  /\ (exists p,
         quoted_city_run
         = Some {| PharmacyScraper.run_geocoded := [p];
                   PharmacyScraper.run_checkpoints := [] |}
         /\ PharmacyScraper.city p = lit "Sidi " ++ dq ++ lit "Yahia" ++ dq
         /\ safe_in_literal false (PharmacyScraper.city p) = false
         /\ contains
              (lit "city = " ++ dq ++ lit "Sidi " ++ dq ++ lit "Yahia" ++ dq
               ++ dq ++ lit ",")
              (PharmacyScraper.generate_kotlin_data sample_str
                 (lit "2024-01-01T00:00:00") [p]) = true)
  /\ (exists text,
         GeocodePlacesApi.entries sample_str (fun s => s)
           [GeocodePlacesApi.two_line_name] [] = Some text
         /\ contains
              (lit "name = " ++ dq ++ lit "Pharmacie" ++ [10%N] ++ lit "Centrale"
               ++ dq ++ lit ",")
              text = true
         /\ safe_in_literal false (lit "Pharmacie" ++ [10%N] ++ lit "Centrale")
            = false).
Proof.
  split; [|split].
  - intros py_str p.
    exists (line "        Pharmacy("
            ++ lit "            id = " ++ dq ++ PharmacyScraper.id p ++ dq ++ line ","
            ++ lit "            name = " ++ dq
            ++ PharmacyScraper._escape_quotes (PharmacyScraper.name p) ++ dq ++ line ","
            ++ line "            nameAr = null,"
            ++ lit "            address = " ++ dq
            ++ PharmacyScraper._escape_quotes (PharmacyScraper.address p) ++ dq ++ line ","
            ++ line "            addressAr = null,"
            ++ lit "            ").
    eexists. unfold PharmacyScraper.pharmacy_entry.
    repeat rewrite <- app_assoc. do 14 f_equal. reflexivity.
  - eexists. split; [vm_compute; reflexivity|]. split; [reflexivity|].
    split; vm_compute; reflexivity.
  - eexists. split; [vm_compute; reflexivity|].
    split; vm_compute; reflexivity.
Qed.

(** ** The round trip of [Json.dumps] and [Json.loads] *)

Module JsonFacts.
Import Json.

(** *** Strings *)

Lemma hex4_value_hex4 (c : N) :
  (c < 32)%N -> hex4_value 48 48 (hex_digit (c / 16 mod 16)) (hex_digit (c mod 16)) = Some c.
Proof.
  intros Hc.
  assert (Hin : In c (map N.of_nat (seq 0 32))).
  { rewrite <- (N2Nat.id c). apply in_map. apply in_seq. lia. }
  simpl in Hin.
  repeat (destruct Hin as [<-|Hin]; [vm_compute; reflexivity|]).
  contradiction.
Qed.

Lemma hex4_low (c : N) :
  (c < 32)%N ->
  hex4 c = [48; 48; hex_digit (c / 16 mod 16); hex_digit (c mod 16)]%N.
Proof.
  intros Hc. unfold hex4.
  rewrite (N.div_small c 4096), (N.div_small c 256) by lia. reflexivity.
Qed.

Lemma scanstring_escape (c : N) (rest str r : pystr) :
  scanstring rest = Some (str, r) ->
  scanstring (escape_char c ++ rest) = Some (c :: str, r).
Proof.
  intros Hrest. unfold escape_char.
  destruct (N.eqb_spec c 92) as [->|H92]; [simpl; now rewrite Hrest|].
  destruct (N.eqb_spec c 34) as [->|H34]; [simpl; now rewrite Hrest|].
  destruct (N.eqb_spec c 8) as [->|H8]; [simpl; now rewrite Hrest|].
  destruct (N.eqb_spec c 12) as [->|H12]; [simpl; now rewrite Hrest|].
  destruct (N.eqb_spec c 10) as [->|H10]; [simpl; now rewrite Hrest|].
  destruct (N.eqb_spec c 13) as [->|H13]; [simpl; now rewrite Hrest|].
  destruct (N.eqb_spec c 9) as [->|H9]; [simpl; now rewrite Hrest|].
  destruct (N.ltb_spec c 32) as [Hlt|Hge].
  - rewrite hex4_low by exact Hlt.
    cbn [app scanstring N.eqb Pos.eqb].
    rewrite hex4_value_hex4 by exact Hlt.
    replace (is_high_surrogate c) with false
      by (unfold is_high_surrogate; symmetry; apply andb_false_intro1;
          apply N.leb_gt; lia).
    now rewrite Hrest.
  - cbn [app scanstring].
    rewrite (proj2 (N.eqb_neq c 34) H34), (proj2 (N.eqb_neq c 92) H92).
    rewrite (proj2 (N.ltb_ge c 32) Hge). now rewrite Hrest.
Qed.

(** Reading back an encoded string gives the string. *)
Lemma scanstring_encode (s rest : pystr) :
  scanstring (flat_map escape_char s ++ dq ++ rest) = Some (s, rest).
Proof.
  induction s as [|c s IH]; [reflexivity|].
  cbn [flat_map]. rewrite <- app_assoc. now apply scanstring_escape.
Qed.

(** *** Numbers *)

(** What may follow a number in the text [dumps] writes: nothing that could
    continue it. *)
Definition number_end (rest : pystr) : bool :=
  match rest with
  | [] => true
  | c :: _ =>
      negb (is_digit c || (c =? 46) || (c =? 101) || (c =? 69)
            || (c =? 43) || (c =? 45))%N
  end.

Lemma number_end_cons (c : N) (rest : pystr) :
  number_end (c :: rest) = true ->
  is_digit c = false /\ (c =? 46)%N = false /\ (c =? 101)%N = false
  /\ (c =? 69)%N = false /\ (c =? 43)%N = false /\ (c =? 45)%N = false.
Proof.
  unfold number_end. intros H. apply negb_true_iff in H.
  repeat (apply orb_false_iff in H; destruct H as [H ?]). auto 10.
Qed.

Lemma span_digits_app (s rest d r : pystr) :
  number_end rest = true ->
  span_digits s = (d, r) -> span_digits (s ++ rest) = (d, r ++ rest).
Proof.
  intros Hend. revert d r. induction s as [|c s IH]; intros d r.
  - cbn [span_digits app]. intros [= <- <-].
    destruct rest as [|c rest]; [reflexivity|].
    destruct (number_end_cons c rest Hend) as (Hd & _).
    cbn [span_digits app]. now rewrite Hd.
  - cbn [span_digits app]. destruct (is_digit c).
    + destruct (span_digits s) as [d' r'] eqn:E. intros [= <- <-].
      now rewrite (IH d' r' eq_refl).
    + now intros [= <- <-].
Qed.

Lemma scan_integer_app (s rest i r : pystr) :
  number_end rest = true ->
  scan_integer s = Some (i, r) -> scan_integer (s ++ rest) = Some (i, r ++ rest).
Proof.
  intros Hend. unfold scan_integer.
  assert (Hbody : forall sign s1,
             match s1 with
             | c :: t =>
                 if (c =? 48)%N then Some (sign ++ [c], t)
                 else if is_digit c then
                        let (d, r0) := span_digits t in Some (sign ++ c :: d, r0)
                      else None
             | [] => None
             end = Some (i, r) ->
             match s1 ++ rest with
             | c :: t =>
                 if (c =? 48)%N then Some (sign ++ [c], t)
                 else if is_digit c then
                        let (d, r0) := span_digits t in Some (sign ++ c :: d, r0)
                      else None
             | [] => None
             end = Some (i, r ++ rest)).
  { intros sign [|c t]; [discriminate|]. cbn [app].
    destruct (c =? 48)%N; [now intros [= <- <-]|].
    destruct (is_digit c); [|discriminate].
    destruct (span_digits t) as [d r0] eqn:E. intros [= <- <-].
    now rewrite (span_digits_app t rest d r0 Hend E). }
  destruct s as [|c s]; [discriminate|].
  cbn [app]. destruct (c =? 45)%N;
    [exact (Hbody [c] s)|exact (Hbody [] (c :: s))].
Qed.

Lemma scan_frac_app (s rest fr r : pystr) :
  number_end rest = true ->
  scan_frac s = (fr, r) -> scan_frac (s ++ rest) = (fr, r ++ rest).
Proof.
  intros Hend. unfold scan_frac. destruct s as [|c t].
  - intros [= <- <-]. destruct rest as [|c rest]; [reflexivity|].
    destruct (number_end_cons c rest Hend) as (_ & H46 & _).
    cbn [app]. now rewrite H46.
  - cbn [app]. destruct (c =? 46)%N; [|now intros [= <- <-]].
    destruct (span_digits t) as [d r0] eqn:E.
    rewrite (span_digits_app t rest d r0 Hend E).
    destruct d; now intros [= <- <-].
Qed.

Lemma scan_exp_app (s rest ex r : pystr) :
  number_end rest = true ->
  scan_exp s = (ex, r) -> scan_exp (s ++ rest) = (ex, r ++ rest).
Proof.
  intros Hend. unfold scan_exp. destruct s as [|e t].
  - intros [= <- <-]. destruct rest as [|c rest]; [reflexivity|].
    destruct (number_end_cons c rest Hend) as (_ & _ & H101 & H69 & _).
    cbn [app]. now rewrite H101, H69.
  - cbn [app]. destruct ((e =? 101) || (e =? 69))%N; [|now intros [= <- <-]].
    destruct t as [|c t'].
    + cbn [app span_digits]. intros [= <- <-].
      destruct rest as [|c rest]; [reflexivity|].
      destruct (number_end_cons c rest Hend) as (Hd & _ & _ & _ & H43 & H45).
      rewrite H43, H45. cbn [orb span_digits]. now rewrite Hd.
    + cbn [app]. destruct ((c =? 45) || (c =? 43))%N.
      * destruct (span_digits t') as [d r0] eqn:E.
        rewrite (span_digits_app t' rest d r0 Hend E).
        destruct d; now intros [= <- <-].
      * destruct (span_digits (c :: t')) as [d r0] eqn:E.
        change (c :: t' ++ rest) with ((c :: t') ++ rest).
        rewrite (span_digits_app (c :: t') rest d r0 Hend E).
        destruct d; now intros [= <- <-].
Qed.

Lemma scan_number_app (s rest i fr ex r : pystr) :
  number_end rest = true ->
  scan_number s = Some (i, fr, ex, r) ->
  scan_number (s ++ rest) = Some (i, fr, ex, r ++ rest).
Proof.
  intros Hend. unfold scan_number.
  destruct (scan_integer s) as [[i0 r1]|] eqn:Ei; [|discriminate].
  rewrite (scan_integer_app s rest i0 r1 Hend Ei).
  destruct (scan_frac r1) as [fr0 r2] eqn:Ef.
  rewrite (scan_frac_app r1 rest fr0 r2 Hend Ef).
  destruct (scan_exp r2) as [ex0 r3] eqn:Ee.
  rewrite (scan_exp_app r2 rest ex0 r3 Hend Ee).
  now intros [= <- <- <- <-].
Qed.

Lemma span_digits_uint_str (d : Decimal.uint) :
  span_digits (uint_str d) = (uint_str d, []).
Proof.
  induction d; cbn [uint_str span_digits]; try reflexivity;
    change (is_digit _) with true; cbv iota; now rewrite IHd.
Qed.

Lemma uint_of_digits_uint_str (d : Decimal.uint) :
  uint_of_digits (uint_str d) = d.
Proof.
  induction d; cbn [uint_str uint_of_digits]; try reflexivity;
    rewrite IHd; reflexivity.
Qed.

(** A numeral without leading zero: not empty and not starting with 0. *)
Definition leading (d : Decimal.uint) : Prop :=
  d <> Decimal.Nil /\ forall d', d <> Decimal.D0 d'.

Lemma to_int_canonical (z : Z) :
  match Z.to_int z with
  | Decimal.Pos d => d = Decimal.D0 Decimal.Nil \/ leading d
  | Decimal.Neg d => leading d
  end.
Proof.
  pose proof (DecimalZ.to_of (Z.to_int z)) as H.
  rewrite DecimalZ.of_to in H.
  destruct (Z.to_int z) as [d|d]; cbn [Decimal.norm] in H.
  - injection H as H. unfold Decimal.unorm in H.
    destruct (Decimal.nzhead d) eqn:E;
      try (left; exact H);
      right; (split; [rewrite H; discriminate|]);
      intros d' ->; rewrite <- E in H;
      exact (DecimalFacts.nzhead_nonzero _ _ (eq_sym H)).
  - destruct (Decimal.nzhead d) eqn:E; try discriminate;
      injection H as H;
      (split; [rewrite H; discriminate|]);
      intros d' ->; rewrite <- E in H;
      exact (DecimalFacts.nzhead_nonzero _ _ (eq_sym H)).
Qed.

Lemma scan_integer_leading (sign : pystr) (d : Decimal.uint) :
  leading d ->
  exists c t, uint_str d = c :: t /\ is_digit c = true /\ (c =? 48)%N = false
              /\ (c =? 45)%N = false
              /\ span_digits t = (t, []).
Proof.
  intros [Hnil Hzero].
  destruct d; try contradiction; try (exfalso; eapply Hzero; reflexivity);
    cbn [uint_str]; eexists _, _; (split; [reflexivity|]);
    repeat (split; [reflexivity|]); apply span_digits_uint_str.
Qed.

(** The text of an integer is read back whole, as the same integer. *)
Lemma scan_number_str_int (z : Z) :
  scan_number (str_int z) = Some (str_int z, [], [], [])
  /\ int_of_text (str_int z) = z
  /\ exists c t, str_int z = c :: t /\ (is_digit c = true \/ c = 45%N).
Proof.
  pose proof (to_int_canonical z) as Hcan.
  pose proof (DecimalZ.of_to z) as Hof.
  unfold str_int. destruct (Z.to_int z) as [d|d].
  - destruct Hcan as [->|Hlead].
    + split; [reflexivity|]. split; [exact Hof|].
      eexists _, _. split; [reflexivity|]. left; reflexivity.
    + destruct (scan_integer_leading [] d Hlead)
        as (c & t & Hd & Hdig & H48 & H45 & Hspan).
      split; [|split].
      * unfold scan_number, scan_integer. rewrite Hd, H45, H48, Hdig, Hspan.
        reflexivity.
      * unfold int_of_text. rewrite Hd, H45, <- Hd.
        now rewrite uint_of_digits_uint_str.
      * exists c, t. split; [exact Hd|]. now left.
  - destruct (scan_integer_leading [45%N] d Hcan)
      as (c & t & Hd & Hdig & H48 & H45 & Hspan).
    split; [|split].
    + unfold scan_number, scan_integer. cbn [N.eqb Pos.eqb].
      rewrite Hd, H48, Hdig, Hspan. reflexivity.
    + unfold int_of_text. cbn [N.eqb Pos.eqb].
      now rewrite uint_of_digits_uint_str.
    + eexists _, _. split; [reflexivity|]. now right.
Qed.

(** *** Floats that are not finite *)

Lemma float_eqb_self_false (f : float) :
  PrimFloat.eqb f f = false -> f = nan.
Proof.
  rewrite FloatAxioms.eqb_spec. intros H.
  apply FloatAxioms.Prim2SF_inj.
  destruct (Prim2SF f) as [s| s | |s m e]; try reflexivity; exfalso;
    revert H; unfold SFeqb, SFcompare.
  - discriminate.
  - destruct s; discriminate.
  - rewrite Z.compare_refl, Pos.compare_cont_refl. destruct s; discriminate.
Qed.

Lemma float_eqb_infinity (f : float) :
  PrimFloat.eqb f infinity = true -> f = infinity.
Proof.
  rewrite FloatAxioms.eqb_spec. intros H.
  apply FloatAxioms.Prim2SF_inj.
  change (Prim2SF infinity) with (S754_infinity false) in *.
  destruct (Prim2SF f) as [s| s | |s m e]; try discriminate;
    destruct s; try discriminate; reflexivity.
Qed.

Lemma float_eqb_neg_infinity (f : float) :
  PrimFloat.eqb f neg_infinity = true -> f = neg_infinity.
Proof.
  rewrite FloatAxioms.eqb_spec. intros H.
  apply FloatAxioms.Prim2SF_inj.
  change (Prim2SF neg_infinity) with (S754_infinity true) in *.
  destruct (Prim2SF f) as [s| s | |s m e]; try discriminate;
    destruct s; try discriminate; reflexivity.
Qed.

Section RoundTrip.

Variable float_repr : float -> pystr.
Variable float_of_str : pystr -> float.

(** [s] is a JSON number with a fraction or an exponent, and nothing else. *)
Definition float_literal (s : pystr) : bool :=
  match scan_number s with
  | Some (_, [], [], _) => false
  | Some (_, _, _, []) => true
  | _ => false
  end.

(** What the round trip needs of the interpreter's conversions at the float
    [f]: when [f] is finite, its [repr] is a JSON number with a fraction or
    an exponent, and reading that text gives [f] back. *)
Definition float_ok (f : float) : Prop :=
  PrimFloat.eqb f f = true ->
  PrimFloat.eqb f infinity = false ->
  PrimFloat.eqb f neg_infinity = false ->
  float_literal (float_repr f) = true /\ float_of_str (float_repr f) = f.

(** A character a value can start with in the text [dumps] writes. *)
Definition value_start (c : N) : Prop :=
  is_ws c = false /\ (c =? 93)%N = false /\ (c =? 125)%N = false.

Lemma scan_number_head (s i fr ex r : pystr) :
  scan_number s = Some (i, fr, ex, r) ->
  exists c t, s = c :: t /\ (is_digit c = true \/ c = 45%N).
Proof.
  unfold scan_number, scan_integer. destruct s as [|c t]; [discriminate|].
  intros H. exists c, t. split; [reflexivity|].
  destruct (N.eqb_spec c 45) as [->|_]; [now right|]. left.
  destruct (c =? 48)%N eqn:E48.
  - apply N.eqb_eq in E48. now subst c.
  - destruct (is_digit c); [reflexivity|discriminate].
Qed.

Lemma digit_or_minus_start (c : N) :
  is_digit c = true \/ c = 45%N ->
  value_start c /\ (c =? 34)%N = false /\ (c =? 123)%N = false
  /\ (c =? 91)%N = false /\ (c =? 110)%N = false /\ (c =? 116)%N = false
  /\ (c =? 102)%N = false.
Proof.
  intros [Hd| ->]; [|repeat split].
  unfold is_digit in Hd. apply andb_true_iff in Hd. destruct Hd as [H1 H2].
  apply N.leb_le in H1, H2.
  unfold value_start, is_ws.
  repeat match goal with
         | |- _ /\ _ => split
         | |- (_ || _)%bool = false => apply orb_false_iff; split
         | |- (_ =? _)%N = false => apply N.eqb_neq; lia
         end.
Qed.

(** The literals and the numbers are read back. *)
Lemma scan_atom_number (s rest : pystr) (i fr ex : pystr) :
  number_end rest = true ->
  scan_number s = Some (i, fr, ex, []) ->
  scan_atom float_of_str (s ++ rest)
  = match fr, ex with
    | [], [] => Some (JInt (int_of_text i), rest)
    | _, _ => Some (JFloat (float_of_str (i ++ fr ++ ex)), rest)
    end.
Proof.
  intros Hend Hscan.
  destruct (scan_number_head s i fr ex [] Hscan) as (c & t & -> & Hc).
  destruct (digit_or_minus_start c Hc) as (_ & _ & _ & _ & Hn & Ht & Hf).
  pose proof (scan_number_app (c :: t) rest i fr ex [] Hend Hscan) as Happ.
  unfold scan_atom. cbn [app lit list_ascii_of_string map starts_with].
  change (N_of_ascii "n") with 110%N. change (N_of_ascii "t") with 116%N.
  change (N_of_ascii "f") with 102%N.
  rewrite (N.eqb_sym 110 c), (N.eqb_sym 116 c), (N.eqb_sym 102 c), Hn, Ht, Hf.
  cbn [andb]. cbn [app] in Happ. rewrite Happ. reflexivity.
Qed.

(** The induction over JSON values, through their lists. *)
Lemma json_induction (P : json -> Prop) :
  P JNull ->
  (forall b, P (JBool b)) ->
  (forall z, P (JInt z)) ->
  (forall f, P (JFloat f)) ->
  (forall s, P (JStr s)) ->
  (forall l, Forall P l -> P (JArr l)) ->
  (forall kv, Forall (fun p => P (snd p)) kv -> P (JObj kv)) ->
  forall v, P v.
Proof.
  intros Hnull Hbool Hint Hfloat Hstr Harr Hobj.
  refine (fix F (v : json) : P v :=
            match v with
            | JNull => Hnull
            | JBool b => Hbool b
            | JInt z => Hint z
            | JFloat f => Hfloat f
            | JStr s => Hstr s
            | JArr l =>
                Harr l ((fix G (l : list json) : Forall P l :=
                           match l with
                           | [] => Forall_nil _
                           | x :: l' => Forall_cons x (F x) (G l')
                           end) l)
            | JObj kv =>
                Hobj kv ((fix G (kv : list (pystr * json))
                          : Forall (fun p => P (snd p)) kv :=
                            match kv with
                            | [] => Forall_nil _
                            | p :: kv' => Forall_cons p (F (snd p)) (G kv')
                            end) kv)
            end).
Qed.

(** The fuel the decoder needs for a value. *)
Fixpoint size (v : json) : nat :=
  match v with
  | JArr l => S (list_sum (map (fun x => S (size x)) l))
  | JObj kv => S (list_sum (map (fun p => S (size (snd p))) kv))
  | _ => 1
  end.

(** A value [json.load] or the scripts can have built: the keys of every
    dict differ, and every float converts as [float_ok] says. *)
Fixpoint wf (v : json) : Prop :=
  match v with
  | JFloat f => float_ok f
  | JArr l => fold_right (fun x acc => wf x /\ acc) True l
  | JObj kv =>
      NoDup (map fst kv)
      /\ fold_right (fun p acc => wf (snd p) /\ acc) True kv
  | _ => True
  end.

(** What follows a value in the text [dumps] writes: the end of the text, a
    comma or a new line. *)
Definition value_end (rest : pystr) : bool :=
  match rest with
  | [] => true
  | c :: _ => ((c =? 44) || (c =? 10))%N
  end.

Lemma value_end_number_end (rest : pystr) :
  value_end rest = true -> number_end rest = true.
Proof.
  destruct rest as [|c rest]; [reflexivity|]. cbn [value_end number_end].
  intros H. apply orb_true_iff in H.
  destruct H as [H|H]; apply N.eqb_eq in H; subst c; reflexivity.
Qed.

Lemma skip_ws_start (c : N) (t : pystr) :
  is_ws c = false -> skip_ws (c :: t) = c :: t.
Proof. intros H. cbn [skip_ws]. now rewrite H. Qed.

Lemma skip_ws_newline_indent (level : nat) (c : N) (t : pystr) :
  is_ws c = false -> skip_ws (newline_indent level ++ c :: t) = c :: t.
Proof.
  intros H. unfold newline_indent. cbn [app skip_ws].
  change (is_ws 10) with true. cbv iota.
  induction (2 * level) as [|k IH]; cbn [repeat app skip_ws].
  - now rewrite H.
  - change (is_ws 32) with true. cbv iota. exact IH.
Qed.

(** An encoded value starts with a character that is neither whitespace nor
    a closing bracket. *)
Lemma encode_head (v : json) (level : nat) :
  wf v ->
  exists c t, encode float_repr level v = c :: t /\ value_start c.
Proof.
  destruct v as [|b|z|f|s|l|kv]; intros Hwf.
  - eexists _, _. split; [reflexivity|repeat split].
  - destruct b; eexists _, _; (split; [reflexivity|repeat split]).
  - destruct (scan_number_str_int z) as (_ & _ & c & t & Hz & Hc).
    exists c, t. split; [exact Hz|]. now apply digit_or_minus_start.
  - cbn [encode]. unfold floatstr.
    destruct (PrimFloat.eqb f f) eqn:E1; cbn [negb];
      [|eexists _, _; split; [reflexivity|repeat split]].
    destruct (PrimFloat.eqb f infinity) eqn:E2;
      [eexists _, _; split; [reflexivity|repeat split]|].
    destruct (PrimFloat.eqb f neg_infinity) eqn:E3;
      [eexists _, _; split; [reflexivity|repeat split]|].
    destruct (Hwf E1 E2 E3) as [Hlit _]. unfold float_literal in Hlit.
    destruct (scan_number (float_repr f)) as [[[[i fr] ex] r]|] eqn:Es;
      [|discriminate].
    destruct (scan_number_head _ _ _ _ _ Es) as (c & t & Hf & Hc).
    exists c, t. split; [exact Hf|]. now apply digit_or_minus_start.
  - eexists _, _. split; [reflexivity|repeat split].
  - destruct l; eexists _, _; (split; [reflexivity|repeat split]).
  - destruct kv; eexists _, _; (split; [reflexivity|repeat split]).
Qed.

(** *** Dicts *)

Lemma assoc_set_fresh (k : pystr) (v : json) (kv : list (pystr * json)) :
  ~ In k (map fst kv) -> assoc_set k v kv = kv ++ [(k, v)].
Proof.
  induction kv as [|[k' v'] kv IH]; intros Hk; cbn [assoc_set app]; [reflexivity|].
  destruct (pystr_eqb k k') eqn:E.
  - apply pystr_eqb_eq in E. subst k'. exfalso. apply Hk. now left.
  - rewrite IH; [reflexivity|]. intros Hin. apply Hk. now right.
Qed.

Lemma fold_assoc_set_nodup (kv acc : list (pystr * json)) :
  NoDup (map fst (acc ++ kv)) ->
  fold_left (fun d p => assoc_set (fst p) (snd p) d) kv acc = acc ++ kv.
Proof.
  revert acc. induction kv as [|[k v] kv IH]; intros acc Hnd; cbn [fold_left].
  - now rewrite app_nil_r.
  - cbn [fst snd]. rewrite assoc_set_fresh.
    + rewrite IH; rewrite <- app_assoc; [reflexivity|exact Hnd].
    + rewrite map_app in Hnd. cbn [map fst] in Hnd.
      apply NoDup_remove_2 in Hnd. intros Hin. apply Hnd.
      apply in_or_app. now left.
Qed.

(** With keys that differ, [dict(pairs)] keeps the pairs as they are. *)
Lemma dict_of_pairs_nodup (kv : list (pystr * json)) :
  NoDup (map fst kv) -> dict_of_pairs kv = kv.
Proof. intros H. unfold dict_of_pairs. now rewrite fold_assoc_set_nodup. Qed.

(** *** Arrays and objects *)

(** The text of the items of an array from one item on. *)
Fixpoint items_text (level : nat) (l : list json) (rest : pystr) : pystr :=
  match l with
  | [] => []
  | x :: l' =>
      encode float_repr (S level) x
      ++ match l' with
         | [] => newline_indent level ++ lit "]" ++ rest
         | _ => lit "," ++ newline_indent (S level) ++ items_text level l' rest
         end
  end.

(** The text of the pairs of an object from just after the opening quote of
    a key on. *)
Fixpoint pairs_text (level : nat) (kv : list (pystr * json)) (rest : pystr)
  : pystr :=
  match kv with
  | [] => []
  | p :: kv' =>
      flat_map escape_char (fst p) ++ dq ++ lit ": "
      ++ encode float_repr (S level) (snd p)
      ++ match kv' with
         | [] => newline_indent level ++ lit "}" ++ rest
         | _ => lit "," ++ newline_indent (S level) ++ dq
                ++ pairs_text level kv' rest
         end
  end.

Lemma items_text_join (level : nat) (x : json) (l : list json) (rest : pystr) :
  join (lit "," ++ newline_indent (S level))
    (map (encode float_repr (S level)) (x :: l))
  ++ newline_indent level ++ lit "]" ++ rest
  = items_text level (x :: l) rest.
Proof.
  revert x. induction l as [|y l IH]; intro x; [reflexivity|].
  change (join (lit "," ++ newline_indent (S level))
            (map (encode float_repr (S level)) (x :: y :: l)))
    with (encode float_repr (S level) x
          ++ (lit "," ++ newline_indent (S level))
          ++ join (lit "," ++ newline_indent (S level))
               (map (encode float_repr (S level)) (y :: l))).
  change (items_text level (x :: y :: l) rest)
    with (encode float_repr (S level) x
          ++ lit "," ++ newline_indent (S level) ++ items_text level (y :: l) rest).
  rewrite <- IH. now rewrite <- !app_assoc.
Qed.

Lemma pairs_text_join (level : nat) (p : pystr * json)
    (kv : list (pystr * json)) (rest : pystr) :
  join (lit "," ++ newline_indent (S level))
    (map (fun q => encode_basestring (fst q) ++ lit ": "
                   ++ encode float_repr (S level) (snd q)) (p :: kv))
  ++ newline_indent level ++ lit "}" ++ rest
  = dq ++ pairs_text level (p :: kv) rest.
Proof.
  revert p. induction kv as [|q kv IH]; intro p.
  - cbn [map join pairs_text]. unfold encode_basestring.
    now rewrite <- !app_assoc.
  - change (join (lit "," ++ newline_indent (S level))
              (map (fun q => encode_basestring (fst q) ++ lit ": "
                             ++ encode float_repr (S level) (snd q))
                 (p :: q :: kv)))
      with ((encode_basestring (fst p) ++ lit ": "
             ++ encode float_repr (S level) (snd p))
            ++ (lit "," ++ newline_indent (S level))
            ++ join (lit "," ++ newline_indent (S level))
                 (map (fun q => encode_basestring (fst q) ++ lit ": "
                                ++ encode float_repr (S level) (snd q))
                    (q :: kv))).
    change (pairs_text level (p :: q :: kv) rest)
      with (flat_map escape_char (fst p) ++ dq ++ lit ": "
            ++ encode float_repr (S level) (snd p)
            ++ lit "," ++ newline_indent (S level) ++ dq
            ++ pairs_text level (q :: kv) rest).
    rewrite <- IH. unfold encode_basestring at 1. now rewrite <- !app_assoc.
Qed.

Lemma scan_once_S (n : nat) (s : pystr) :
  scan_once float_of_str (S n) s
  = match s with
    | [] => None
    | c :: t =>
        if (c =? 34)%N then
          match scanstring t with
          | Some (str, r) => Some (JStr str, r)
          | None => None
          end
        else if (c =? 123)%N then
          match skip_ws t with
          | c1 :: r =>
              if (c1 =? 125)%N then Some (JObj [], r)
              else if (c1 =? 34)%N then
                match parse_pairs float_of_str n r [] with
                | Some (pairs, r') => Some (JObj (dict_of_pairs pairs), r')
                | None => None
                end
              else None
          | [] => None
          end
        else if (c =? 91)%N then
          match skip_ws t with
          | c1 :: r =>
              if (c1 =? 93)%N then Some (JArr [], r)
              else
                match parse_items float_of_str n (c1 :: r) [] with
                | Some (values, r') => Some (JArr values, r')
                | None => None
                end
          | [] => None
          end
        else scan_atom float_of_str s
    end.
Proof. reflexivity. Qed.

Lemma parse_items_S (n : nat) (s : pystr) (values : list json) :
  parse_items float_of_str (S n) s values
  = match scan_once float_of_str n s with
    | None => None
    | Some (value, r) =>
        match skip_ws r with
        | c :: r1 =>
            if (c =? 93)%N then Some (values ++ [value], r1)
            else if (c =? 44)%N
            then parse_items float_of_str n (skip_ws r1) (values ++ [value])
            else None
        | [] => None
        end
    end.
Proof. reflexivity. Qed.

Lemma parse_pairs_S (n : nat) (s : pystr) (pairs : list (pystr * json)) :
  parse_pairs float_of_str (S n) s pairs
  = match scanstring s with
    | None => None
    | Some (key, r) =>
        match skip_ws r with
        | c :: r1 =>
            if (c =? 58)%N then
              match scan_once float_of_str n (skip_ws r1) with
              | None => None
              | Some (value, r2) =>
                  match skip_ws r2 with
                  | c2 :: r3 =>
                      if (c2 =? 125)%N then Some (pairs ++ [(key, value)], r3)
                      else if (c2 =? 44)%N then
                        match skip_ws r3 with
                        | c3 :: r4 =>
                            if (c3 =? 34)%N
                            then parse_pairs float_of_str n r4
                                   (pairs ++ [(key, value)])
                            else None
                        | [] => None
                        end
                      else None
                  | [] => None
                  end
              end
            else None
        | [] => None
        end
    end.
Proof. reflexivity. Qed.

(** What the induction proves of a value: the decoder reads its text back,
    whatever the level of indentation and the text after it. *)
Definition reads_back (v : json) : Prop :=
  forall level rest fuel,
    value_end rest = true -> size v <= fuel ->
    scan_once float_of_str fuel (encode float_repr level v ++ rest)
    = Some (v, rest).

Lemma parse_items_text (level : nat) (l : list json) :
  l <> [] ->
  Forall (fun x => wf x /\ reads_back x) l ->
  forall values rest fuel,
    list_sum (map (fun x => S (size x)) l) <= fuel ->
    parse_items float_of_str fuel (items_text level l rest) values
    = Some (values ++ l, rest).
Proof.
  induction l as [|x l IH]; [contradiction|]. intros _ Hall values rest fuel Hfuel.
  inversion Hall as [|? ? [Hwf Hx] Hrest]; subst.
  change (list_sum (map (fun x => S (size x)) (x :: l)))
    with (S (size x) + list_sum (map (fun x => S (size x)) l)) in Hfuel.
  destruct fuel as [|n]; [lia|]. rewrite parse_items_S.
  assert (Hn : size x <= n) by lia.
  assert (Hn' : list_sum (map (fun x => S (size x)) l) <= n) by lia.
  destruct l as [|y l'].
  - cbn [items_text].
    rewrite (Hx (S level) (newline_indent level ++ lit "]" ++ rest) n eq_refl Hn).
    change (lit "]" ++ rest) with (93%N :: rest).
    rewrite (skip_ws_newline_indent level 93 rest eq_refl).
    reflexivity.
  - change (items_text level (x :: y :: l') rest)
      with (encode float_repr (S level) x
            ++ lit "," ++ newline_indent (S level)
            ++ items_text level (y :: l') rest).
    rewrite (Hx (S level)
               (lit "," ++ newline_indent (S level)
                ++ items_text level (y :: l') rest) n eq_refl Hn).
    cbn [lit list_ascii_of_string map app]. change (N_of_ascii ",") with 44%N.
    rewrite skip_ws_start by reflexivity. cbn [N.eqb Pos.eqb].
    inversion Hrest as [|? ? [Hwfy _] _]; subst.
    destruct (encode_head y (S level) Hwfy) as (c & t & Hy & Hc & _).
    change (items_text level (y :: l') rest)
      with (encode float_repr (S level) y
            ++ match l' with
               | [] => newline_indent level ++ lit "]" ++ rest
               | _ => lit "," ++ newline_indent (S level) ++ items_text level l' rest
               end).
    rewrite Hy. cbn [app]. rewrite (skip_ws_newline_indent (S level) c _ Hc).
    change (c :: t ++ ?tail) with ((c :: t) ++ tail). rewrite <- Hy.
    change (encode float_repr (S level) y
            ++ match l' with
               | [] => newline_indent level ++ lit "]" ++ rest
               | _ => lit "," ++ newline_indent (S level) ++ items_text level l' rest
               end)
      with (items_text level (y :: l') rest).
    rewrite IH; [|discriminate|exact Hrest|exact Hn'].
    now rewrite <- app_assoc.
Qed.

Lemma parse_pairs_text (level : nat) (kv : list (pystr * json)) :
  kv <> [] ->
  Forall (fun p => wf (snd p) /\ reads_back (snd p)) kv ->
  forall pairs rest fuel,
    list_sum (map (fun p => S (size (snd p))) kv) <= fuel ->
    parse_pairs float_of_str fuel (pairs_text level kv rest) pairs
    = Some (pairs ++ kv, rest).
Proof.
  induction kv as [|[k v] kv IH]; [contradiction|].
  intros _ Hall pairs rest fuel Hfuel.
  inversion Hall as [|? ? [Hwf Hv] Hrest]; subst. cbn [snd] in Hwf, Hv.
  change (list_sum (map (fun p => S (size (snd p))) ((k, v) :: kv)))
    with (S (size v) + list_sum (map (fun p => S (size (snd p))) kv)) in Hfuel.
  destruct fuel as [|n]; [lia|]. rewrite parse_pairs_S.
  assert (Hn : size v <= n) by lia.
  assert (Hn' : list_sum (map (fun p => S (size (snd p))) kv) <= n) by lia.
  destruct (encode_head v (S level) Hwf) as (c & t & Hc & Hstart & _).
  set (tail := match kv with
               | [] => newline_indent level ++ lit "}" ++ rest
               | _ => lit "," ++ newline_indent (S level) ++ dq
                      ++ pairs_text level kv rest
               end).
  change (pairs_text level ((k, v) :: kv) rest)
    with (flat_map escape_char k ++ dq ++ lit ": "
          ++ encode float_repr (S level) v ++ tail).
  rewrite scanstring_encode.
  change (lit ": " ++ encode float_repr (S level) v ++ tail)
    with (58%N :: 32%N :: encode float_repr (S level) v ++ tail).
  rewrite skip_ws_start by reflexivity. cbn [N.eqb Pos.eqb].
  assert (Hskip : skip_ws (32%N :: encode float_repr (S level) v ++ tail)
                  = encode float_repr (S level) v ++ tail).
  { cbn [skip_ws]. change (is_ws 32) with true. cbv iota.
    rewrite Hc. cbn [app]. now apply skip_ws_start. }
  rewrite Hskip.
  assert (Hend : value_end tail = true) by (unfold tail; destruct kv; reflexivity).
  rewrite (Hv (S level) tail n Hend Hn).
  unfold tail. destruct kv as [|q kv'].
  - change (lit "}" ++ rest) with (125%N :: rest).
    rewrite (skip_ws_newline_indent level 125 rest eq_refl). reflexivity.
  - change (lit "," ++ newline_indent (S level) ++ dq ++ pairs_text level (q :: kv') rest)
      with (44%N :: newline_indent (S level) ++ 34%N :: pairs_text level (q :: kv') rest).
    rewrite skip_ws_start by reflexivity. cbn [N.eqb Pos.eqb].
    rewrite (skip_ws_newline_indent (S level) 34 _ eq_refl). cbn [N.eqb Pos.eqb].
    rewrite IH; [|discriminate|exact Hrest|exact Hn'].
    now rewrite <- app_assoc.
Qed.

(** *** The parts of a number *)

Lemma span_digits_concat (s d r : pystr) :
  span_digits s = (d, r) -> s = d ++ r.
Proof.
  revert d r. induction s as [|c s IH]; intros d r; cbn [span_digits].
  - now intros [= <- <-].
  - destruct (is_digit c); [|now intros [= <- <-]].
    destruct (span_digits s) as [d' r'] eqn:E. intros [= <- <-].
    cbn [app]. f_equal. now apply IH.
Qed.

Lemma scan_number_concat (s i fr ex r : pystr) :
  scan_number s = Some (i, fr, ex, r) -> s = i ++ fr ++ ex ++ r.
Proof.
  unfold scan_number.
  destruct (scan_integer s) as [[i0 r1]|] eqn:Ei; [|discriminate].
  destruct (scan_frac r1) as [fr0 r2] eqn:Ef.
  destruct (scan_exp r2) as [ex0 r3] eqn:Ee.
  intros [= <- <- <- <-].
  assert (H3 : r2 = ex0 ++ r3).
  { revert Ee. unfold scan_exp. destruct r2 as [|e t]; [now intros [= <- <-]|].
    destruct ((e =? 101) || (e =? 69))%N; [|now intros [= <- <-]].
    destruct t as [|c t'].
    - cbn [span_digits]. now intros [= <- <-].
    - destruct ((c =? 45) || (c =? 43))%N.
      + destruct (span_digits t') as [d r0] eqn:E.
        apply span_digits_concat in E. subst t'.
        destruct d; intros [= <- <-]; reflexivity.
      + destruct (span_digits (c :: t')) as [d r0] eqn:E.
        apply span_digits_concat in E. rewrite E.
        destruct d; intros [= <- <-]; reflexivity. }
  assert (H2 : r1 = fr0 ++ r2).
  { revert Ef. unfold scan_frac. destruct r1 as [|c t]; [now intros [= <- <-]|].
    destruct (c =? 46)%N; [|now intros [= <- <-]].
    destruct (span_digits t) as [d r0] eqn:E.
    apply span_digits_concat in E. subst t.
    destruct d; intros [= <- <-]; reflexivity. }
  assert (H1 : s = i0 ++ r1).
  { revert Ei. unfold scan_integer.
    assert (Hbody : forall sign s1,
               match s1 with
               | c :: t =>
                   if (c =? 48)%N then Some (sign ++ [c], t)
                   else if is_digit c then
                          let (d, r0) := span_digits t in Some (sign ++ c :: d, r0)
                        else None
               | [] => None
               end = Some (i0, r1) -> sign ++ s1 = i0 ++ r1).
    { intros sign [|c t]; [discriminate|].
      destruct (c =? 48)%N; [intros [= <- <-]; now rewrite <- app_assoc|].
      destruct (is_digit c); [|discriminate].
      destruct (span_digits t) as [d r0] eqn:E. intros [= <- <-].
      apply span_digits_concat in E. subst t. now rewrite <- app_assoc. }
    destruct s as [|c s']; [discriminate|].
    destruct (c =? 45)%N; intros H.
    - exact (Hbody [c] s' H).
    - exact (Hbody [] (c :: s') H). }
  rewrite H1, H2, H3. reflexivity.
Qed.

(** *** Every value *)

Lemma wf_items (l : list json) :
  fold_right (fun x acc => wf x /\ acc) True l -> Forall wf l.
Proof.
  induction l as [|x l IH]; cbn [fold_right]; [constructor|].
  intros [Hx Hl]. constructor; auto.
Qed.

Lemma wf_pairs (kv : list (pystr * json)) :
  fold_right (fun p acc => wf (snd p) /\ acc) True kv ->
  Forall (fun p => wf (snd p)) kv.
Proof.
  induction kv as [|p kv IH]; cbn [fold_right]; [constructor|].
  intros [Hx Hl]. constructor; auto.
Qed.

Lemma Forall_both {A : Type} (P Q : A -> Prop) (l : list A) :
  Forall P l -> Forall (fun x => P x -> Q x) l ->
  Forall (fun x => P x /\ Q x) l.
Proof.
  induction 1 as [|x l Hx Hl IH]; intros HQ; [constructor|].
  inversion HQ; subst. constructor; auto.
Qed.

(** The decoder reads back the text of every well-formed value. *)
Lemma scan_once_encode (v : json) : wf v -> reads_back v.
Proof.
  induction v as [|b|z|f|s|l IH|kv IH] using json_induction;
    intros Hwf level rest fuel Hend Hfuel;
    (destruct fuel as [|n]; [cbn [size] in Hfuel; lia|]).
  - reflexivity.
  - destruct b; reflexivity.
  - destruct (scan_number_str_int z) as (Hscan & Hval & c & t & Hz & Hc).
    destruct (digit_or_minus_start c Hc) as (_ & H34 & H123 & H91 & _).
    rewrite scan_once_S. cbn [encode]. rewrite Hz at 1. cbn [app].
    rewrite H34, H123, H91.
    rewrite (scan_atom_number (str_int z) rest (str_int z) [] []
               (value_end_number_end rest Hend) Hscan).
    now rewrite Hval.
  - cbn [encode]. unfold floatstr.
    destruct (PrimFloat.eqb f f) eqn:E1; cbn [negb];
      [|rewrite (float_eqb_self_false f E1); reflexivity].
    destruct (PrimFloat.eqb f infinity) eqn:E2;
      [rewrite (float_eqb_infinity f E2); reflexivity|].
    destruct (PrimFloat.eqb f neg_infinity) eqn:E3;
      [rewrite (float_eqb_neg_infinity f E3); reflexivity|].
    destruct (Hwf E1 E2 E3) as [Hlit Hval]. unfold float_literal in Hlit.
    destruct (scan_number (float_repr f)) as [[[[i fr] ex] r]|] eqn:Es;
      [|discriminate].
    assert (Hr : r = [] /\ (fr <> [] \/ ex <> [])).
    { destruct fr; destruct ex; try discriminate; destruct r; try discriminate;
        (split; [reflexivity|]); (left; discriminate) || (right; discriminate). }
    destruct Hr as [-> Hparts].
    destruct (scan_number_head _ _ _ _ _ Es) as (c & t & Hf & Hc).
    destruct (digit_or_minus_start c Hc) as (_ & H34 & H123 & H91 & _).
    pose proof (scan_number_concat _ _ _ _ _ Es) as Hcat.
    rewrite app_nil_r in Hcat.
    rewrite scan_once_S. rewrite Hf at 1. cbn [app].
    rewrite H34, H123, H91.
    rewrite (scan_atom_number (float_repr f) rest i fr ex
               (value_end_number_end rest Hend) Es).
    rewrite <- Hcat, Hval.
    destruct fr; destruct ex; try reflexivity.
    destruct Hparts as [H|H]; contradiction.
  - rewrite scan_once_S. cbn [encode]. unfold encode_basestring.
    change ((dq ++ flat_map escape_char s ++ dq) ++ rest)
      with (34%N :: (flat_map escape_char s ++ dq) ++ rest).
    cbn [N.eqb Pos.eqb]. rewrite <- app_assoc.
    now rewrite scanstring_encode.
  - destruct l as [|x l]; [reflexivity|].
    cbn [wf] in Hwf. apply wf_items in Hwf.
    pose proof (Forall_both _ _ _ Hwf IH) as Hall.
    inversion Hwf as [|? ? Hwfx _]; subst.
    destruct (encode_head x (S level) Hwfx) as (c & t & Hx & Hc & H93 & _).
    change (encode float_repr level (JArr (x :: l)) ++ rest)
      with (91%N :: (newline_indent (S level)
                     ++ join (lit "," ++ newline_indent (S level))
                          (map (encode float_repr (S level)) (x :: l))
                     ++ newline_indent level ++ lit "]") ++ rest).
    rewrite scan_once_S. cbn [N.eqb Pos.eqb].
    rewrite <- !app_assoc. rewrite items_text_join.
    assert (Htext : items_text level (x :: l) rest
                    = c :: t ++ match l with
                                | [] => newline_indent level ++ lit "]" ++ rest
                                | _ => lit "," ++ newline_indent (S level)
                                       ++ items_text level l rest
                                end).
    { cbn [items_text]. now rewrite Hx. }
    rewrite Htext at 1. rewrite (skip_ws_newline_indent (S level) c _ Hc).
    rewrite H93. rewrite <- Htext.
    cbn [size] in Hfuel.
    rewrite (parse_items_text level (x :: l)); [reflexivity|discriminate|exact Hall|lia].
  - destruct kv as [|p kv]; [reflexivity|].
    cbn [wf] in Hwf. destruct Hwf as [Hnd Hwf]. apply wf_pairs in Hwf.
    pose proof (Forall_both _ _ _ Hwf IH) as Hall.
    change (encode float_repr level (JObj (p :: kv)) ++ rest)
      with (123%N :: (newline_indent (S level)
                      ++ join (lit "," ++ newline_indent (S level))
                           (map (fun q => encode_basestring (fst q) ++ lit ": "
                                          ++ encode float_repr (S level) (snd q))
                              (p :: kv))
                      ++ newline_indent level ++ lit "}") ++ rest).
    rewrite scan_once_S. cbn [N.eqb Pos.eqb].
    rewrite <- !app_assoc. rewrite pairs_text_join.
    change (dq ++ pairs_text level (p :: kv) rest)
      with (34%N :: pairs_text level (p :: kv) rest).
    rewrite (skip_ws_newline_indent (S level) 34 _ eq_refl).
    cbn [N.eqb Pos.eqb]. cbn [size] in Hfuel.
    rewrite (parse_pairs_text level (p :: kv)); [|discriminate|exact Hall|lia].
    cbn [app]. now rewrite dict_of_pairs_nodup.
Qed.

(** *** The fuel [loads] gives is enough *)

Lemma join_size {A : Type} (sep : pystr) (f : A -> pystr) (g : A -> nat)
    (l : list A) :
  1 <= length sep ->
  Forall (fun x => g x <= length (f x)) l ->
  list_sum (map (fun x => S (g x)) l) <= length (join sep (map f l)) + 1.
Proof.
  intros Hsep. induction l as [|x l IH]; intros Hall; [cbn; lia|].
  inversion Hall as [|? ? Hx Hl]; subst. specialize (IH Hl).
  change (list_sum (map (fun x => S (g x)) (x :: l)))
    with (S (g x) + list_sum (map (fun x => S (g x)) l)).
  destruct l as [|y l'].
  - cbn [map join list_sum fold_right]. lia.
  - change (join sep (map f (x :: y :: l')))
      with (f x ++ sep ++ join sep (map f (y :: l'))).
    rewrite !length_app. lia.
Qed.

Lemma size_le_length (v : json) (level : nat) :
  wf v -> size v <= length (encode float_repr level v).
Proof.
  revert level.
  induction v as [|b|z|f|s|l IH|kv IH] using json_induction; intros level Hwf;
    try (destruct (encode_head _ level Hwf) as (c & t & -> & _);
         cbn [size length]; lia).
  - destruct l as [|x l]; [cbn; lia|].
    cbn [wf] in Hwf. apply wf_items in Hwf.
    assert (Hall : Forall (fun x => size x <= length (encode float_repr (S level) x))
                     (x :: l)).
    { pose proof (Forall_both _ _ _ Hwf
                    (Forall_impl _ (fun x (H : forall level, wf x -> _) Hx =>
                                      H (S level) Hx) IH)) as H.
      eapply Forall_impl; [|exact H]. now intros y [_ Hy]. }
    pose proof (join_size (lit "," ++ newline_indent (S level))
                  (encode float_repr (S level)) size (x :: l)
                  ltac:(cbn; lia) Hall) as Hjoin.
    change (encode float_repr level (JArr (x :: l)))
      with (lit "[" ++ newline_indent (S level)
            ++ join (lit "," ++ newline_indent (S level))
                 (map (encode float_repr (S level)) (x :: l))
            ++ newline_indent level ++ lit "]").
    rewrite !length_app. cbn [size].
    change (length (lit "[")) with 1. change (length (lit "]")) with 1.
    unfold newline_indent at 1 3. cbn [length]. unfold pystr in *. lia.
  - destruct kv as [|p kv]; [cbn; lia|].
    cbn [wf] in Hwf. destruct Hwf as [_ Hwf]. apply wf_pairs in Hwf.
    assert (Hall : Forall (fun q => size (snd q)
                                    <= length (encode_basestring (fst q) ++ lit ": "
                                               ++ encode float_repr (S level) (snd q)))
                     (p :: kv)).
    { pose proof (Forall_both _ _ _ Hwf
                    (Forall_impl _ (fun q (H : forall level, wf (snd q) -> _) Hq =>
                                      H (S level) Hq) IH)) as H.
      eapply Forall_impl; [|exact H]. intros q [_ Hq].
      rewrite !length_app. cbn beta in Hq. lia. }
    pose proof (join_size (lit "," ++ newline_indent (S level))
                  (fun q => encode_basestring (fst q) ++ lit ": "
                            ++ encode float_repr (S level) (snd q))
                  (fun q => size (snd q)) (p :: kv)
                  ltac:(cbn; lia) Hall) as Hjoin.
    cbn beta in Hjoin.
    change (encode float_repr level (JObj (p :: kv)))
      with (lit "{" ++ newline_indent (S level)
            ++ join (lit "," ++ newline_indent (S level))
                 (map (fun q => encode_basestring (fst q) ++ lit ": "
                                ++ encode float_repr (S level) (snd q)) (p :: kv))
            ++ newline_indent level ++ lit "}").
    rewrite !length_app. cbn [size].
    change (length (lit "{")) with 1. change (length (lit "}")) with 1.
    unfold newline_indent at 1 3. cbn [length]. unfold pystr in *. lia.
Qed.

(** Reading the text [dumps] writes for a well-formed value gives that
    value. *)
Lemma loads_dumps (v : json) :
  wf v -> loads float_of_str (dumps float_repr v) = Some v.
Proof.
  intros Hwf. unfold loads, dumps.
  destruct (encode_head v 0 Hwf) as (c & t & Hv & Hc & _).
  rewrite Hv at 2. rewrite (skip_ws_start c t Hc). rewrite <- Hv.
  rewrite <- (app_nil_r (encode float_repr 0 v)) at 2.
  rewrite (scan_once_encode v Hwf 0 [] _ eq_refl (size_le_length v 0 Hwf)).
  reflexivity.
Qed.

End RoundTrip.

End JsonFacts.


(** ** The JSON file of pharmacy_scraper.py *)

(** The model of the encoder and of the decoder on texts CPython's [json]
    was run on: the expected values are the interpreter's. *)
Example dumps_nested :
  Json.dumps (fun _ => lit "0.0")
    (JObj [(lit "name", JStr (lit "Pharmacie " ++ dq ++ lit "X" ++ dq ++ [10%N]));
           (lit "tags", JArr []);
           (lit "n", JArr [JInt 1; JInt (-2)]);
           (lit "x", JNull)])
  = line "{"
    ++ lit "  " ++ dq ++ lit "name" ++ dq ++ lit ": " ++ dq ++ lit "Pharmacie "
    ++ [92; 34]%N ++ lit "X" ++ [92; 34; 92; 110]%N ++ dq ++ line ","
    ++ lit "  " ++ dq ++ lit "tags" ++ dq ++ line ": [],"
    ++ lit "  " ++ dq ++ lit "n" ++ dq ++ line ": ["
    ++ line "    1,"
    ++ line "    -2"
    ++ line "  ],"
    ++ lit "  " ++ dq ++ lit "x" ++ dq ++ line ": null"
    ++ lit "}".
Proof. vm_compute. reflexivity. Qed.

Example dumps_control_characters :
  Json.dumps (fun _ => lit "0.0") (JStr [1; 31; 9; 47; 233]%N)
  = dq ++ lit "\u0001\u001f\t/" ++ [233%N] ++ dq.
Proof. vm_compute. reflexivity. Qed.

Example loads_compact :
  Json.loads (fun _ => 0%float)
    (lit "[ " ++ dq ++ lit "\u00e9\ud83d\ude00" ++ dq ++ lit " , -12 , {"
     ++ dq ++ lit "a" ++ dq ++ lit ":null," ++ dq ++ lit "a" ++ dq ++ lit ":true} ]")
  = Some (JArr [JStr [233; 128512]%N; JInt (-12); JObj [(lit "a", JBool true)]]).
Proof. vm_compute. reflexivity. Qed.

Example loads_rejects :
  Json.loads (fun _ => 0%float) (lit "[1,]") = None
  /\ Json.loads (fun _ => 0%float) (lit "01") = None
  /\ Json.loads (fun _ => 0%float) (dq ++ lit "a" ++ [10%N] ++ lit "b" ++ dq) = None.
Proof. repeat split; vm_compute; reflexivity. Qed.

(** The keys of a list differ pairwise. *)
Fixpoint distinct (l : list pystr) : bool :=
  match l with
  | [] => true
  | k :: l' => negb (existsb (pystr_eqb k) l') && distinct l'
  end.

Lemma distinct_NoDup (l : list pystr) : distinct l = true -> NoDup l.
Proof.
  induction l as [|k l IH]; cbn [distinct]; [constructor|].
  intros H. apply andb_true_iff in H. destruct H as [Hk Hl].
  constructor; [|now apply IH].
  intros Hin. apply negb_true_iff in Hk.
  assert (Hex : existsb (pystr_eqb k) l = true).
  { apply existsb_exists. exists k. split; [exact Hin|apply pystr_eqb_refl]. }
  congruence.
Qed.

Lemma asdict_keys (p : PharmacyScraper.Pharmacy) :
  NoDup (map fst (PharmacyScraper.asdict p)).
Proof. apply distinct_NoDup. reflexivity. Qed.

Section SavedFile.

Variable float_repr : float -> pystr.
Variable float_of_str : pystr -> float.

(** The values a record took from the geocoding response are well formed:
    dicts with keys that differ, floats the interpreter converts back. *)
Definition wf_pharmacy (p : PharmacyScraper.Pharmacy) : Prop :=
  JsonFacts.wf float_repr float_of_str (PharmacyScraper.latitude p)
  /\ JsonFacts.wf float_repr float_of_str (PharmacyScraper.longitude p)
  /\ JsonFacts.wf float_repr float_of_str (PharmacyScraper.rating p)
  /\ JsonFacts.wf float_repr float_of_str (PharmacyScraper.geocode_status p)
  /\ match PharmacyScraper.distance p with
     | Some d => JsonFacts.float_ok float_repr float_of_str d
     | None => True
     end.

Lemma wf_strings (l : list pystr) :
  JsonFacts.wf float_repr float_of_str (JArr (map JStr l)).
Proof.
  cbn [JsonFacts.wf]. induction l as [|s l IH]; cbn [map fold_right];
    [exact I|split; [exact I|exact IH]].
Qed.

Lemma wf_asdict (p : PharmacyScraper.Pharmacy) :
  wf_pharmacy p ->
  JsonFacts.wf float_repr float_of_str (JObj (PharmacyScraper.asdict p)).
Proof.
  intros (Hlat & Hlng & Hrating & Hstatus & Hdist).
  cbn [JsonFacts.wf]. split; [apply asdict_keys|].
  unfold PharmacyScraper.asdict, PharmacyScraper.opt_str.
  cbn [fold_right snd].
  repeat match goal with
         | |- _ /\ _ => split
         | |- True => exact I
         | |- JsonFacts.wf _ _ (JArr (map JStr _)) => apply wf_strings
         | |- JsonFacts.wf _ _ (match ?o with Some _ => _ | None => _ end) =>
             destruct o; cbn [JsonFacts.wf]
         | |- JsonFacts.wf _ _ (JStr _) => exact I
         | |- JsonFacts.wf _ _ (JBool _) => exact I
         | |- JsonFacts.wf _ _ (JInt _) => exact I
         | |- JsonFacts.wf _ _ JNull => exact I
         | |- _ => assumption
         end.
Qed.

Lemma wf_json_data (pharmacies : list PharmacyScraper.Pharmacy) :
  Forall wf_pharmacy pharmacies ->
  JsonFacts.wf float_repr float_of_str (PharmacyScraper.json_data pharmacies).
Proof.
  unfold PharmacyScraper.json_data. cbn [JsonFacts.wf].
  induction 1 as [|p ps Hp _ IH]; cbn [map fold_right]; [exact I|].
  split; [now apply wf_asdict|exact IH].
Qed.

End SavedFile.

Lemma opt_str_injective (a b : option pystr) :
  PharmacyScraper.opt_str a = PharmacyScraper.opt_str b -> a = b.
Proof. destruct a, b; cbn; congruence. Qed.

Lemma map_JStr_injective (l l' : list pystr) :
  map JStr l = map JStr l' -> l = l'.
Proof.
  revert l'. induction l as [|s l IH]; intros [|s' l']; cbn [map];
    try discriminate; [reflexivity|].
  intros [= -> H]. f_equal. now apply IH.
Qed.

(** A record is determined by its dict: [asdict] loses no field. *)
Lemma asdict_injective (p q : PharmacyScraper.Pharmacy) :
  PharmacyScraper.asdict p = PharmacyScraper.asdict q -> p = q.
Proof.
  intros H.
  assert (Hn : forall n,
             nth n (map snd (PharmacyScraper.asdict p)) JNull
             = nth n (map snd (PharmacyScraper.asdict q)) JNull)
    by (intro n; now rewrite H).
  clear H. destruct p, q.
  pose proof (Hn 0) as H0; pose proof (Hn 1) as H1; pose proof (Hn 2) as H2;
    pose proof (Hn 3) as H3; pose proof (Hn 4) as H4; pose proof (Hn 5) as H5;
    pose proof (Hn 6) as H6; pose proof (Hn 7) as H7; pose proof (Hn 8) as H8;
    pose proof (Hn 9) as H9; pose proof (Hn 10) as H10; pose proof (Hn 11) as H11;
    pose proof (Hn 12) as H12; pose proof (Hn 13) as H13; pose proof (Hn 14) as H14;
    pose proof (Hn 15) as H15; pose proof (Hn 16) as H16; pose proof (Hn 17) as H17;
    pose proof (Hn 18) as H18; pose proof (Hn 19) as H19; pose proof (Hn 20) as H20;
    pose proof (Hn 21) as H21; pose proof (Hn 22) as H22.
  clear Hn.
  cbn [PharmacyScraper.asdict map snd nth
         PharmacyScraper.id PharmacyScraper.name PharmacyScraper.name_ar
         PharmacyScraper.address PharmacyScraper.address_ar PharmacyScraper.city
         PharmacyScraper.latitude PharmacyScraper.longitude
         PharmacyScraper.phone_number PharmacyScraper.email
         PharmacyScraper.website PharmacyScraper.opening_hours
         PharmacyScraper.is_24_hours PharmacyScraper.has_parking
         PharmacyScraper.is_guard_pharmacy PharmacyScraper.rating
         PharmacyScraper.review_count PharmacyScraper.image_url
         PharmacyScraper.services PharmacyScraper.distance
         PharmacyScraper.last_updated PharmacyScraper.geocoded
         PharmacyScraper.geocode_status] in *.
  apply opt_str_injective in H2, H4, H9, H10, H17.
  injection H18 as H18. apply map_JStr_injective in H18.
  assert (H19' : distance = distance0)
    by (destruct distance, distance0; congruence).
  injection H0 as ->; injection H1 as ->; injection H3 as ->;
    injection H5 as ->; injection H8 as ->; injection H11 as ->;
    injection H12 as ->; injection H13 as ->; injection H14 as ->;
    injection H16 as ->; injection H20 as ->; injection H21 as ->.
  subst. reflexivity.
Qed.


(** [repr] and [float] on the floats of the samples. *)
Definition sample_repr (f : float) : pystr :=
  if PrimFloat.eqb f 34.25%float then lit "34.25"
  else if PrimFloat.eqb f (-6.5)%float then lit "-6.5"
  else lit "0.0".

Definition sample_float (s : pystr) : float :=
  if pystr_eqb s (lit "34.25") then 34.25%float
  else if pystr_eqb s (lit "-6.5") then (-6.5)%float
  else 0%float.



(** ** More of pharmacy_scraper.py: identifiers, checkpoints, scraped records *)

(** The number a zero-padded numeral writes. *)
Lemma uint_of_digits_zeros (k : nat) (s : pystr) :
  Nat.of_uint (Json.uint_of_digits (repeat 48%N k ++ s))
  = Nat.of_uint (Json.uint_of_digits s).
Proof.
  induction k as [|k IH]; [reflexivity|].
  cbn [repeat app Json.uint_of_digits]. change (48 =? 48)%N with true. cbv iota.
  exact IH.
Qed.

Lemma pad4_value (n : nat) : Nat.of_uint (Json.uint_of_digits (pad4 n)) = n.
Proof.
  unfold pad4, str_nat. rewrite uint_of_digits_zeros.
  rewrite JsonFacts.uint_of_digits_uint_str. apply DecimalNat.Unsigned.of_to.
Qed.

Lemma pad4_injective (a b : nat) : pad4 a = pad4 b -> a = b.
Proof.
  intros H. rewrite <- (pad4_value a), <- (pad4_value b). now rewrite H.
Qed.

(** X1: the identifier of the record at position [i] of the output of
    [geocode_pharmacies] is [pharmacy_kenitra_] followed by [i + 1] written
    with at least four digits, and no two positions share an identifier. *)
Theorem pharmacy_ids_differ (api : endpoint) (now : nat -> pystr)
    (batch_size : Z) (raws : list PharmacyScraper.PharmacyRaw)
    (run : PharmacyScraper.Run) (i j : nat) (p q : PharmacyScraper.Pharmacy) :
  PharmacyScraper.geocode_pharmacies api now batch_size raws = Some run ->
  nth_error (PharmacyScraper.run_geocoded run) i = Some p ->
  nth_error (PharmacyScraper.run_geocoded run) j = Some q ->
  PharmacyScraper.id p = lit "pharmacy_kenitra_" ++ pad4 (i + 1)
  /\ 21 <= length (PharmacyScraper.id p)
  /\ (PharmacyScraper.id p = PharmacyScraper.id q -> i = j).
Proof.
  intros Hrun Hi Hj.
  apply PharmacyScraper.geocode_loop_geocoded in Hrun. cbn [PharmacyScraper.run_geocoded app] in Hrun.
  rewrite Hrun, PharmacyScraper.geocode_all_nth in Hi, Hj.
  destruct (nth_error raws i) as [ri|]; [|discriminate].
  destruct (nth_error raws j) as [rj|]; [|discriminate].
  cbn [option_map] in Hi, Hj. injection Hi as <-. injection Hj as <-.
  cbn [PharmacyScraper.geocode_one PharmacyScraper.make_pharmacy PharmacyScraper.id Nat.add].
  replace (i + 1) with (S i) by lia.
  split; [reflexivity|]. split.
  - rewrite length_app. unfold pad4. rewrite length_app, repeat_length.
    change (length (lit "pharmacy_kenitra_")) with 17. lia.
  - intros H. apply app_inv_head in H. apply pad4_injective in H. lia.
Qed.

Lemma pharmacy_ids_differ_witness :
  exists p q,
    nth_error
      [PharmacyScraper.geocode_one api_down PharmacyScraper.sample_now 0 PharmacyScraper.sample_raw;
       PharmacyScraper.geocode_one api_down PharmacyScraper.sample_now 1 PharmacyScraper.sample_raw] 0
    = Some p
    /\ nth_error
         [PharmacyScraper.geocode_one api_down PharmacyScraper.sample_now 0 PharmacyScraper.sample_raw;
          PharmacyScraper.geocode_one api_down PharmacyScraper.sample_now 1 PharmacyScraper.sample_raw] 1
       = Some q
    /\ PharmacyScraper.id p = lit "pharmacy_kenitra_0001"
    /\ (PharmacyScraper.id p = PharmacyScraper.id q -> 0 = 1).
Proof.
  eexists. eexists. split; [reflexivity|]. split; [reflexivity|].
  pose proof (pharmacy_ids_differ api_down PharmacyScraper.sample_now 50
                [PharmacyScraper.sample_raw; PharmacyScraper.sample_raw]
                _ 0 1 _ _ eq_refl eq_refl eq_refl) as (Hid & _ & Hne).
  split; [exact Hid|exact Hne].
Defined.


(** X2: [geocode_pharmacies] raises exactly when [batch_size] is 0 and there is
    a record to process: [(i + 1) % batch_size] is evaluated for the first
    record, after its geocoding call, and nothing catches the
    [ZeroDivisionError]; an empty list is returned as it is whatever the
    batch size. *)
Theorem geocode_pharmacies_raises_iff (api : endpoint) (now : nat -> pystr)
    (batch_size : Z) (raws : list PharmacyScraper.PharmacyRaw) :
  PharmacyScraper.geocode_pharmacies api now batch_size raws = None
  <-> batch_size = 0%Z /\ raws <> [].
Proof.
  split.
  - intros Hnone. destruct (Z.eq_dec batch_size 0) as [Hb|Hb].
    + split; [exact Hb|]. intros ->. discriminate.
    + destruct (PharmacyScraper.geocode_loop_total api now batch_size raws 0
                  {| PharmacyScraper.run_geocoded := [];
                     PharmacyScraper.run_checkpoints := [] |} Hb) as [run Hrun].
      unfold PharmacyScraper.geocode_pharmacies in Hnone. congruence.
  - intros [-> Hne]. destruct raws as [|raw raws]; [congruence|]. reflexivity.
Qed.

Lemma geocode_pharmacies_raises_iff_witness :
  PharmacyScraper.geocode_pharmacies api_down PharmacyScraper.sample_now 0
    [PharmacyScraper.sample_raw] = None.
Proof.
  apply (proj2 (geocode_pharmacies_raises_iff api_down PharmacyScraper.sample_now
                  0 [PharmacyScraper.sample_raw])).
  split; [reflexivity|discriminate].
Defined.

(** The running counts of the checkpoints the loop writes from position [i]
    on. *)
Lemma geocode_loop_counts (api : endpoint) (now : nat -> pystr) (batch_size : Z)
    (todo : list PharmacyScraper.PharmacyRaw) (i : nat)
    (st st' : PharmacyScraper.Run) :
  PharmacyScraper.geocode_loop api now batch_size i todo st = Some st' ->
  map PharmacyScraper.cp_count (PharmacyScraper.run_checkpoints st')
  = map PharmacyScraper.cp_count (PharmacyScraper.run_checkpoints st)
    ++ filter (fun n => (Z.of_nat n mod batch_size =? 0)%Z)
         (seq (i + 1) (length todo)).
Proof.
  revert i st. induction todo as [|raw todo IH]; intros i st;
    cbn [PharmacyScraper.geocode_loop length seq filter].
  - intros [= <-]. now rewrite app_nil_r.
  - destruct (batch_size =? 0)%Z; [discriminate|].
    intros H. apply IH in H. rewrite H. clear H.
    cbn [PharmacyScraper.run_checkpoints].
    replace (S i + 1) with (S (i + 1)) by lia.
    destruct (Z.of_nat (i + 1) mod batch_size =? 0)%Z.
    + rewrite map_app. cbn [map PharmacyScraper.cp_count].
      now rewrite <- app_assoc.
    + reflexivity.
Qed.

(** X3: [geocode_pharmacies] writes a checkpoint at exactly the running counts
    between 1 and the number of records that are multiples of [batch_size],
    in increasing order; the records after the last multiple are in no
    checkpoint. *)
Theorem checkpoints_at_multiples (api : endpoint) (now : nat -> pystr)
    (batch_size : Z) (raws : list PharmacyScraper.PharmacyRaw)
    (run : PharmacyScraper.Run) :
  PharmacyScraper.geocode_pharmacies api now batch_size raws = Some run ->
  map PharmacyScraper.cp_count (PharmacyScraper.run_checkpoints run)
  = filter (fun n => (Z.of_nat n mod batch_size =? 0)%Z) (seq 1 (length raws))
  /\ (Z.of_nat (length raws) < batch_size ->
      PharmacyScraper.run_checkpoints run = [])%Z.
Proof.
  intros Hrun. apply geocode_loop_counts in Hrun.
  cbn [PharmacyScraper.run_checkpoints map app Nat.add] in Hrun.
  split; [exact Hrun|].
  intros Hlt. apply map_eq_nil with (f := PharmacyScraper.cp_count).
  rewrite Hrun. clear Hrun.
  assert (H : forall n, In n (seq 1 (length raws)) ->
                        (Z.of_nat n mod batch_size =? 0)%Z = false).
  { intros n Hn. apply in_seq in Hn. apply Z.eqb_neq.
    rewrite Z.mod_small by lia. lia. }
  induction (seq 1 (length raws)) as [|n l IH]; [reflexivity|].
  cbn [filter]. rewrite (H n) by (left; reflexivity).
  apply IH. intros m Hm. apply H. now right.
Qed.

Lemma checkpoints_at_multiples_witness :
  exists run,
    PharmacyScraper.geocode_pharmacies api_down PharmacyScraper.sample_now 2
      (repeat PharmacyScraper.sample_raw 5) = Some run
    /\ map PharmacyScraper.cp_count (PharmacyScraper.run_checkpoints run) = [2; 4].
Proof.
  eexists. split; [reflexivity|].
  exact (proj1 (checkpoints_at_multiples api_down PharmacyScraper.sample_now 2
                  (repeat PharmacyScraper.sample_raw 5) _ eq_refl)).
Defined.


(** *** What [strip] leaves *)

(** [lstrip] removes a run of white space at the front. *)
Lemma lstrip_split (s : pystr) :
  exists sp, s = sp ++ lstrip s /\ Forall (fun c => is_space c = true) sp.
Proof.
  induction s as [|c s IH]; cbn [lstrip].
  - exists []. split; [reflexivity|constructor].
  - destruct (is_space c) eqn:E.
    + destruct IH as (sp & Hs & Hsp). exists (c :: sp). split.
      * cbn [app]. now rewrite <- Hs.
      * now constructor.
    + exists []. split; [reflexivity|constructor].
Qed.

Lemma lstrip_head (s : pystr) (c : N) (t : pystr) :
  lstrip s = c :: t -> is_space c = false.
Proof.
  induction s as [|x s IH]; cbn [lstrip]; [discriminate|].
  destruct (is_space x) eqn:E; [exact IH|]. now intros [= <- _].
Qed.

Lemma lstrip_fixed (c : N) (t : pystr) :
  is_space c = false -> lstrip (c :: t) = c :: t.
Proof. intros H. cbn [lstrip]. now rewrite H. Qed.

Lemma lstrip_spaces (sp : pystr) (s : pystr) :
  Forall (fun c => is_space c = true) sp -> lstrip (sp ++ s) = lstrip s.
Proof.
  induction 1 as [|c sp Hc _ IH]; [reflexivity|].
  cbn [app lstrip]. now rewrite Hc.
Qed.

(** [strip] removes a run of white space at each end, and what it leaves
    neither starts nor ends with white space. *)
Lemma strip_split (s : pystr) :
  exists front back,
    s = front ++ strip s ++ back
    /\ Forall (fun c => is_space c = true) front
    /\ Forall (fun c => is_space c = true) back.
Proof.
  unfold strip. destruct (lstrip_split s) as (front & Hs & Hfront).
  destruct (lstrip_split (rev (lstrip s))) as (sp & Hr & Hsp).
  exists front, (rev sp). split; [|split].
  - rewrite Hs at 1. f_equal. rewrite <- rev_app_distr, <- Hr.
    now rewrite rev_involutive.
  - exact Hfront.
  - apply Forall_rev. exact Hsp.
Qed.

Lemma strip_ends (s : pystr) :
  match strip s with
  | [] => True
  | c :: _ => is_space c = false /\ is_space (last (strip s) c) = false
  end.
Proof.
  unfold strip.
  destruct (lstrip_split (rev (lstrip s))) as (sp & Hr & _).
  destruct (lstrip (rev (lstrip s))) as [|x b] eqn:Hb; [exact I|].
  assert (Hx : is_space x = false) by (eapply lstrip_head; exact Hb).
  assert (Hl : lstrip s = rev (x :: b) ++ rev sp).
  { rewrite <- rev_app_distr, <- Hr. now rewrite rev_involutive. }
  destruct (rev (x :: b)) as [|c t] eqn:Hrev.
  - apply (f_equal (@length N)) in Hrev. rewrite length_rev in Hrev. discriminate.
  - split.
    + cbn [app] in Hl. eapply lstrip_head. exact Hl.
    + rewrite <- Hrev. cbn [rev]. now rewrite last_last.
Qed.

(** [strip] changes nothing in a text it has already stripped. *)
Lemma strip_idempotent (s : pystr) : strip (strip s) = strip s.
Proof.
  pose proof (strip_ends s) as He.
  destruct (strip s) as [|c t] eqn:Hs; [reflexivity|].
  destruct He as [Hc Hlast].
  unfold strip at 1. rewrite (lstrip_fixed c t Hc).
  destruct (rev (c :: t)) as [|x b] eqn:Hrev.
  - apply (f_equal (@length N)) in Hrev. rewrite length_rev in Hrev. discriminate.
  - assert (Hx : x = last (c :: t) c).
    { rewrite <- (rev_involutive (c :: t)), Hrev. cbn [rev]. now rewrite last_last. }
    rewrite (lstrip_fixed x b) by (now rewrite Hx).
    rewrite <- Hrev. apply rev_involutive.
Qed.

Lemma strip_spaces (s : pystr) :
  Forall (fun c => is_space c = true) s -> strip s = [].
Proof.
  intros H. unfold strip.
  rewrite <- (app_nil_r s), (lstrip_spaces s [] H). reflexivity.
Qed.

(** *** The records [scrape_all_pages] returns *)

Lemma scrape_listings_In (ud : N -> bool) (page : Z) (url : pystr)
    (listings : list PharmacyScraper.Listing) (r : PharmacyScraper.PharmacyRaw) :
  In r (PharmacyScraper.scrape_listings ud page url listings []) ->
  exists listing,
    In listing listings
    /\ PharmacyScraper.scrape_listing ud page url listing = Some r.
Proof.
  induction listings as [|l ls IH]; cbn [PharmacyScraper.scrape_listings].
  - intros [].
  - destruct (PharmacyScraper.scrape_listing ud page url l) as [x|] eqn:Hl.
    + rewrite PharmacyScraper.scrape_listings_app. cbn [app].
      intros [<-|Hin].
      * exists l. split; [now left|exact Hl].
      * destruct (IH Hin) as (l' & Hl' & Hr). exists l'. split; [now right|exact Hr].
    + intros Hin. destruct (IH Hin) as (l' & Hl' & Hr).
      exists l'. split; [now right|exact Hr].
Qed.

(** Every record of [scrape_all_pages] was made from a listing of one of the
    pages asked for. *)
Lemma scrape_all_pages_In (ud : N -> bool) (web : PharmacyScraper.directory)
    (start_page end_page : Z) (r : PharmacyScraper.PharmacyRaw) :
  In r (PharmacyScraper.scrape_all_pages ud web start_page end_page) ->
  exists page listings listing,
    (start_page <= page <= end_page)%Z
    /\ web (PharmacyScraper.base_url ++ str_int page) = Some listings
    /\ In listing listings
    /\ PharmacyScraper.scrape_listing ud page
         (PharmacyScraper.base_url ++ str_int page) listing = Some r.
Proof.
  unfold PharmacyScraper.scrape_all_pages.
  rewrite PharmacyScraper.scrape_pages_concat. cbn [app].
  intros Hin. apply in_flat_map in Hin. destruct Hin as (page & Hpage & Hr).
  unfold py_range in Hpage. apply in_map_iff in Hpage.
  destruct Hpage as (k & <- & Hk). apply in_seq in Hk.
  unfold PharmacyScraper.scrape_page in Hr.
  destruct (web _) as [listings|] eqn:Hweb; [|destruct Hr].
  apply scrape_listings_In in Hr. destruct Hr as (listing & Hl & Hr).
  exists (start_page + Z.of_nat k)%Z, listings, listing.
  split; [lia|]. split; [exact Hweb|]. split; [exact Hl|exact Hr].
Qed.

(** X4: every record [scrape_all_pages] returns carries the number of a page in
    the range asked for and the URL of that page, which the directory
    answered; its name is the name of a listing of that page whose link
    leads to a pharmacy; and its address is the name, the locality and
    [Morocco] joined by commas. *)
Theorem scraped_record_provenance (unicode_decimal : N -> bool)
    (web : PharmacyScraper.directory) (start_page end_page : Z)
    (r : PharmacyScraper.PharmacyRaw) :
  In r (PharmacyScraper.scrape_all_pages unicode_decimal web start_page end_page) ->
  (start_page <= PharmacyScraper.raw_page_number r <= end_page)%Z
  /\ PharmacyScraper.raw_source_url r
     = PharmacyScraper.base_url ++ str_int (PharmacyScraper.raw_page_number r)
  /\ (exists listings listing href,
         web (PharmacyScraper.raw_source_url r) = Some listings
         /\ In listing listings
         /\ PharmacyScraper.link_href listing = Some href
         /\ contains (lit "/pharmacies/") href = true
         /\ PharmacyScraper.name_elem listing = Some (PharmacyScraper.raw_name r))
  /\ PharmacyScraper.raw_address r
     = PharmacyScraper.raw_name r ++ lit ", " ++ PharmacyScraper.raw_city r
       ++ lit ", Morocco".
Proof.
  intros Hin. apply scrape_all_pages_In in Hin.
  destruct Hin as (page & listings & listing & Hpage & Hweb & Hl & Hr).
  unfold PharmacyScraper.scrape_listing in Hr.
  destruct (PharmacyScraper.link_href listing) as [href|] eqn:Hhref; [|discriminate].
  destruct (contains (lit "/pharmacies/") href) eqn:Hc; [|discriminate].
  destruct (PharmacyScraper.name_elem listing) as [name|] eqn:Hname; [|discriminate].
  cbn [negb] in Hr. injection Hr as <-.
  cbn [PharmacyScraper.raw_page_number PharmacyScraper.raw_source_url
         PharmacyScraper.raw_name PharmacyScraper.raw_address
         PharmacyScraper.raw_city].
  split; [exact Hpage|]. split; [reflexivity|]. split; [|reflexivity].
  exists listings, listing, href. auto.
Qed.

Lemma scraped_record_provenance_witness :
  exists r,
    In r (PharmacyScraper.scrape_all_pages (fun _ => false)
            PharmacyScraper.sample_web 1 3)
    /\ (1 <= PharmacyScraper.raw_page_number r <= 3)%Z
    /\ PharmacyScraper.raw_address r
       = PharmacyScraper.raw_name r ++ lit ", " ++ PharmacyScraper.raw_city r
         ++ lit ", Morocco".
Proof.
  eexists. 
  assert (Hin : In (PharmacyScraper.Build_PharmacyRaw
                      (lit "Pharmacie Al Amal")
                      (lit "Pharmacie Al Amal, " ++ PharmacyScraper.default_city
                       ++ lit ", Morocco")
                      PharmacyScraper.default_city [] 3
                      (PharmacyScraper.base_url ++ lit "3"))
                 (PharmacyScraper.scrape_all_pages (fun _ => false)
                    PharmacyScraper.sample_web 1 3)).
  { vm_compute. right; right; left. reflexivity. }
  split; [exact Hin|].
  destruct (scraped_record_provenance (fun _ => false) PharmacyScraper.sample_web
              1 3 _ Hin) as (Hp & _ & _ & Ha).
  split; [exact Hp|exact Ha].
Defined.

Lemma replace_char_removes (c : N) (s : pystr) : ~ In c (replace_char c [] s).
Proof.
  unfold replace_char. intros H. apply in_flat_map in H.
  destruct H as (x & _ & Hx). destruct (N.eqb x c) eqn:E; [destruct Hx|].
  destruct Hx as [Hx|[]]. subst x. rewrite N.eqb_refl in E. discriminate.
Qed.

Lemma replace_char_incl (c : N) (s : pystr) (x : N) :
  In x (replace_char c [] s) -> In x s.
Proof.
  unfold replace_char. intros H. apply in_flat_map in H.
  destruct H as (y & Hy & Hx). destruct (N.eqb y c); [destruct Hx|].
  destruct Hx as [<-|[]]. exact Hy.
Qed.

(** X5: the locality of a scraped record holds no line feed and no carriage
    return and has no white space at either end (stripping it again changes
    nothing); a locality element whose text is empty or white space gives
    the empty locality, not the fallback, which is used only when the
    element is missing. *)
Theorem scraped_city_is_clean (unicode_decimal : N -> bool)
    (web : PharmacyScraper.directory) (start_page end_page : Z)
    (r : PharmacyScraper.PharmacyRaw) :
  In r (PharmacyScraper.scrape_all_pages unicode_decimal web start_page end_page) ->
  ~ In 10%N (PharmacyScraper.raw_city r)
  /\ ~ In 13%N (PharmacyScraper.raw_city r)
  /\ strip (PharmacyScraper.raw_city r) = PharmacyScraper.raw_city r
  /\ exists page listing,
       PharmacyScraper.scrape_listing unicode_decimal page
         (PharmacyScraper.base_url ++ str_int page) listing = Some r
       /\ (PharmacyScraper.city_elem listing = None ->
           PharmacyScraper.raw_city r = PharmacyScraper.default_city)
       /\ (forall text,
              PharmacyScraper.city_elem listing = Some text ->
              Forall (fun c => is_space c = true) text ->
              PharmacyScraper.raw_city r = []).
Proof.
  intros Hin. apply scrape_all_pages_In in Hin.
  destruct Hin as (page & listings & listing & _ & _ & _ & Hr).
  pose proof Hr as Hr'. unfold PharmacyScraper.scrape_listing in Hr.
  destruct (PharmacyScraper.link_href listing) as [href|]; [|discriminate].
  destruct (negb _); [discriminate|].
  destruct (PharmacyScraper.name_elem listing) as [name|]; [|discriminate].
  injection Hr as <-. cbn [PharmacyScraper.raw_city].
  split; [|split; [|split]].
  - intros H. apply strip_incl, replace_char_incl in H.
    now apply replace_char_removes in H.
  - intros H. apply strip_incl in H. now apply replace_char_removes in H.
  - apply strip_idempotent.
  - exists page, listing. split; [exact Hr'|]. split.
    + intros ->. reflexivity.
    + intros text -> Hsp. apply strip_spaces.
      apply Forall_forall. intros x Hx.
      apply replace_char_incl, replace_char_incl in Hx.
      rewrite Forall_forall in Hsp. now apply Hsp.
Qed.

Lemma scraped_city_is_clean_witness :
  exists r,
    In r (PharmacyScraper.scrape_all_pages (fun _ => false)
            PharmacyScraper.sample_web 1 3)
    /\ strip (PharmacyScraper.raw_city r) = PharmacyScraper.raw_city r.
Proof.
  eexists.
  assert (Hin : In (PharmacyScraper.Build_PharmacyRaw
                      (lit "Pharmacie Al Amal")
                      (lit "Pharmacie Al Amal, " ++ PharmacyScraper.default_city
                       ++ lit ", Morocco")
                      PharmacyScraper.default_city [] 3
                      (PharmacyScraper.base_url ++ lit "3"))
                 (PharmacyScraper.scrape_all_pages (fun _ => false)
                    PharmacyScraper.sample_web 1 3)).
  { vm_compute. right; right; left. reflexivity. }
  split; [exact Hin|].
  exact (proj1 (proj2 (proj2 (scraped_city_is_clean (fun _ => false)
                                PharmacyScraper.sample_web 1 3 _ Hin)))).
Defined.


(** *** What [_escape_quotes] guarantees *)

(** A text made of escaped quotes and of characters that are neither a
    quote, a backslash nor a line feed. *)
Inductive escaped_text : pystr -> Prop :=
| escaped_nil : escaped_text []
| escaped_quote (s : pystr) : escaped_text s -> escaped_text (92 :: 34 :: s)%N
| escaped_plain (c : N) (s : pystr) :
    c <> 10%N -> c <> 34%N -> c <> 92%N -> escaped_text s -> escaped_text (c :: s).

Lemma escaped_text_safe (s : pystr) :
  escaped_text s -> safe_in_literal false s = true.
Proof.
  induction 1 as [|s _ IH|c s H10 H34 H92 _ IH]; [reflexivity|exact IH|].
  cbn [safe_in_literal].
  apply N.eqb_neq in H10, H34, H92. now rewrite H10, H34, H92.
Qed.

Lemma escaped_text_replace (text : pystr) :
  ~ In 92%N text ->
  escaped_text (replace_char 10 (lit " ") (replace_char 34 [92; 34]%N text)).
Proof.
  unfold replace_char. induction text as [|c text IH]; intros Hno; [constructor|].
  assert (Hc : c <> 92%N) by (intros ->; apply Hno; now left).
  assert (Hrest : ~ In 92%N text) by (intros H; apply Hno; now right).
  specialize (IH Hrest). cbn [flat_map].
  destruct (N.eqb c 34) eqn:E34.
  - cbn [app flat_map N.eqb Pos.eqb]. constructor. exact IH.
  - cbn [app flat_map]. destruct (N.eqb c 10) eqn:E10.
    + cbn [app lit map list_ascii_of_string N_of_ascii]. constructor;
        try discriminate. exact IH.
    + cbn [app]. apply N.eqb_neq in E34, E10. now constructor.
Qed.

Lemma escaped_text_drop_front (sp s : pystr) :
  Forall (fun c => is_space c = true) sp ->
  escaped_text (sp ++ s) -> escaped_text s.
Proof.
  induction 1 as [|c sp Hc _ IH]; [auto|].
  cbn [app]. intros H. inversion H; subst.
  - discriminate.
  - now apply IH.
Qed.

Lemma escaped_text_drop_back (s sp : pystr) :
  Forall (fun c => is_space c = true) sp ->
  escaped_text (s ++ sp) -> escaped_text s.
Proof.
  intros Hsp H. remember (s ++ sp) as t eqn:Ht. revert s Ht.
  induction H as [|t _ IH|c t H10 H34 H92 _ IH]; intros s Ht.
  - symmetry in Ht. apply app_eq_nil in Ht. destruct Ht as [-> _]. constructor.
  - destruct s as [|a [|b s]]; cbn [app] in Ht.
    + constructor.
    + injection Ht as <- Ht. rewrite <- Ht in Hsp.
      inversion Hsp; subst. discriminate.
    + injection Ht as <- <- Ht. constructor. now apply IH.
  - destruct s as [|a s]; cbn [app] in Ht; [constructor|].
    injection Ht as <- Ht. constructor; auto.
Qed.

(** X6: on a text without backslash, [_escape_quotes] returns a text in which
    every double quote is escaped by a backslash of its own, with no line
    feed and no backslash left before the closing quote of the literal.  A
    backslash of the input is copied as it is, so the text of a single
    backslash comes out as a dangling one. *)
Theorem escape_quotes_safe_without_backslash :
  (forall text,
      ~ In 92%N text ->
      safe_in_literal false (PharmacyScraper._escape_quotes text) = true)
  /\ safe_in_literal false (PharmacyScraper._escape_quotes [92%N]) = false.
Proof.
  split; [|reflexivity].
  intros text Hno. apply escaped_text_safe.
  unfold PharmacyScraper._escape_quotes.
  pose proof (escaped_text_replace text Hno) as H.
  destruct (strip_split (replace_char 10 (lit " ")
                           (replace_char 34 [92; 34]%N text)))
    as (front & back & Hs & Hfront & Hback).
  rewrite Hs in H. apply escaped_text_drop_front in H; [|exact Hfront].
  apply escaped_text_drop_back in H; [exact H|exact Hback].
Qed.

Lemma escape_quotes_safe_without_backslash_witness :
  safe_in_literal false
    (PharmacyScraper._escape_quotes
       (lit " Pharmacie " ++ dq ++ lit "Al Amal" ++ dq ++ [10%N])) = true.
Proof.
  apply (proj1 escape_quotes_safe_without_backslash).
  intros H. vm_compute in H.
  repeat (destruct H as [H|H]; [discriminate H|]). exact H.
Defined.


(** ** The scripts run one after the other *)

(** The dicts a loop over a decoded file visits when its first action on an
    element is a lookup by key: a list of dicts gives them; an element that
    is not a dict, or a file whose value cannot be iterated in that way,
    ends the script with an exception. *)
Fixpoint dicts (l : list json) : option (list pydict) :=
  match l with
  | [] => Some []
  | JObj d :: l' => option_map (cons d) (dicts l')
  | _ :: _ => None
  end.

Definition records_of (v : json) : option (list pydict) :=
  match v with
  | JArr l => dicts l
  | JObj [] => Some []
  | JStr [] => Some []
  | _ => None
  end.

Lemma dicts_map (l : list pydict) : dicts (map JObj l) = Some l.
Proof.
  induction l as [|d l IH]; cbn [map dicts]; [reflexivity|]. now rewrite IH.
Qed.

Module PharmacyScraperMain.

(** [asdict(p)] for a [PharmacyRaw]. *)
Definition asdict_raw (r : PharmacyScraper.PharmacyRaw) : pydict :=
  [(lit "name", JStr (PharmacyScraper.raw_name r));
   (lit "address", JStr (PharmacyScraper.raw_address r));
   (lit "city", JStr (PharmacyScraper.raw_city r));
   (lit "phone", JStr (PharmacyScraper.raw_phone r));
   (lit "page_number", JInt (PharmacyScraper.raw_page_number r));
   (lit "source_url", JStr (PharmacyScraper.raw_source_url r))].

(** What a run of [main] leaves: the files it writes and the two counts it
    prints in its summary. *)
Record Files := {
  pharmacies_raw_json : pystr;
  checkpoint_files : list PharmacyScraper.Checkpoint;
  pharmacies_kenitra_json : pystr;
  KenitraPharmacyData_kt : pystr;
  successful : nat;
  failed : nat
}.

Section Main.

(** The digit table of the interpreter, the directory, the geocoding
    endpoint, the clock at each record and when the Kotlin file is written,
    and the interpreter's [repr] and [str]. *)
Variable unicode_decimal : N -> bool.
Variable web : PharmacyScraper.directory.
Variable api : endpoint.
Variable now : nat -> pystr.
Variable date : pystr.
Variable float_repr : float -> pystr.
Variable py_str : json -> pystr.

(** [main()] *)
Definition main : option Files :=
  let raw_pharmacies :=
    PharmacyScraper.scrape_all_pages unicode_decimal web 1 33 in
  let raw_data := JArr (map (fun p => JObj (asdict_raw p)) raw_pharmacies) in
  run <- PharmacyScraper.geocode_pharmacies api now 50 raw_pharmacies ;;
  let geocoded_pharmacies := PharmacyScraper.run_geocoded run in
  let successful :=
    length (filter PharmacyScraper.geocoded geocoded_pharmacies) in
  Some {| pharmacies_raw_json := Json.dumps float_repr raw_data;
          checkpoint_files := PharmacyScraper.run_checkpoints run;
          pharmacies_kenitra_json :=
            PharmacyScraper.save_to_json float_repr geocoded_pharmacies;
          KenitraPharmacyData_kt :=
            PharmacyScraper.generate_kotlin_data py_str date geocoded_pharmacies;
          successful := successful;
          failed := length geocoded_pharmacies - successful |}.

End Main.

End PharmacyScraperMain.

(** quick_geocode.py from the file it loads: [json.load], then the loop. *)
Definition quick_geocode_script (float_of_str : pystr -> float)
    (api : endpoint) (py_str : json -> pystr) (pharmacies_raw_json : pystr)
  : option QuickGeocode.Run :=
  v <- Json.loads float_of_str pharmacies_raw_json ;;
  raw_pharmacies <- records_of v ;;
  QuickGeocode.quick_geocode api py_str raw_pharmacies.

Lemma wf_asdict_raw (float_repr : float -> pystr) (float_of_str : pystr -> float)
    (raws : list PharmacyScraper.PharmacyRaw) :
  JsonFacts.wf float_repr float_of_str
    (JArr (map (fun p => JObj (PharmacyScraperMain.asdict_raw p)) raws)).
Proof.
  cbn [JsonFacts.wf]. induction raws as [|r raws IH]; cbn [map fold_right];
    [exact I|].
  split; [|exact IH]. cbn [JsonFacts.wf]. split.
  - apply distinct_NoDup. reflexivity.
  - cbn. tauto.
Qed.

(** [main] completes, its raw file reads back as the dicts of the scraped
    records, and the loop of quick_geocode.py runs over them to its end. *)
Lemma raw_file_run
    (unicode_decimal : N -> bool) (web : PharmacyScraper.directory)
    (api : endpoint) (now : nat -> pystr) (date : pystr)
    (float_repr : float -> pystr) (float_of_str : pystr -> float)
    (py_str : json -> pystr) (places : endpoint) :
  let scraped := PharmacyScraper.scrape_all_pages unicode_decimal web 1 33 in
  exists files run,
    PharmacyScraperMain.main unicode_decimal web api now date float_repr py_str
    = Some files
    /\ PharmacyScraperMain.successful files + PharmacyScraperMain.failed files
       = length scraped
    /\ Json.loads float_of_str (PharmacyScraperMain.pharmacies_raw_json files)
       = Some (JArr (map (fun p => JObj (PharmacyScraperMain.asdict_raw p)) scraped))
    /\ quick_geocode_script float_of_str places py_str
         (PharmacyScraperMain.pharmacies_raw_json files) = Some run
    /\ QuickGeocode.loop places py_str 1
         (map PharmacyScraperMain.asdict_raw scraped)
         {| QuickGeocode.geocoded := []; QuickGeocode.success := 0;
            QuickGeocode.checkpoints := [] |} = Some run.
Proof.
  intros scraped. unfold PharmacyScraperMain.main. fold scraped.
  destruct (PharmacyScraper.geocode_loop_total api now 50 scraped 0
              {| PharmacyScraper.run_geocoded := [];
                 PharmacyScraper.run_checkpoints := [] |}) as [grun Hgrun];
    [discriminate|].
  unfold PharmacyScraper.geocode_pharmacies. rewrite Hgrun.
  assert (Hglen : length (PharmacyScraper.run_geocoded grun) = length scraped).
  { apply PharmacyScraper.geocode_loop_geocoded in Hgrun.
    cbn [PharmacyScraper.run_geocoded app] in Hgrun.
    rewrite Hgrun. apply PharmacyScraper.geocode_all_length. }
  set (records := map PharmacyScraperMain.asdict_raw scraped).
  assert (Hnames : Forall (fun pharm => dict_get pharm "name" <> None) records).
  { unfold records. apply Forall_forall. intros d Hd. apply in_map_iff in Hd.
    destruct Hd as (r & <- & _). discriminate. }
  destruct (QuickGeocode.loop_total places py_str records 1
              {| QuickGeocode.geocoded := []; QuickGeocode.success := 0;
                 QuickGeocode.checkpoints := [] |} Hnames) as [run Hrun].
  eexists. exists run. split; [reflexivity|].
  cbn [PharmacyScraperMain.successful PharmacyScraperMain.failed
         PharmacyScraperMain.pharmacies_raw_json].
  assert (Hload : Json.loads float_of_str
                    (Json.dumps float_repr
                       (JArr (map (fun p => JObj (PharmacyScraperMain.asdict_raw p))
                                scraped)))
                  = Some (JArr (map (fun p => JObj (PharmacyScraperMain.asdict_raw p))
                                  scraped))).
  { apply JsonFacts.loads_dumps. apply wf_asdict_raw. }
  split; [|split; [exact Hload|split; [|exact Hrun]]].
  - pose proof (filter_length_le PharmacyScraper.geocoded
                  (PharmacyScraper.run_geocoded grun)). lia.
  - unfold quick_geocode_script. rewrite Hload. cbn [records_of].
    rewrite <- (map_map PharmacyScraperMain.asdict_raw JObj), dicts_map.
    exact Hrun.
Qed.



(** ** More of quick_geocode.py: flags, counter and checkpoints *)

Ltac lit_neq :=
  let H := fresh in intro H; vm_compute in H; discriminate H.

Lemma dict_get_set (k : string) (v : json) (d : pydict) :
  dict_get (dict_set k v d) k = Some v.
Proof. apply assoc_set_get. Qed.

Lemma dict_get_set_other (k k' : string) (v : json) (d : pydict) :
  lit k' <> lit k -> dict_get (dict_set k v d) k' = dict_get d k'.
Proof. intros H. unfold dict_get, dict_set. now apply assoc_set_other. Qed.

(** The record carries [geocoded = True]. *)
Definition flagged (p : pydict) : bool :=
  match dict_get p "geocoded" with
  | Some (JBool true) => true
  | _ => false
  end.

(** A record as a found place leaves it, and as the fallback leaves it. *)
Definition located (out : pydict) : Prop :=
  dict_get out "geocoded" = Some (JBool true)
  /\ exists lat lng,
       dict_get out "latitude" = Some lat /\ dict_get out "longitude" = Some lng.

Definition fallen_back (out : pydict) : Prop :=
  dict_get out "geocoded" = Some (JBool false)
  /\ dict_get out "latitude" = Some kenitra_lat
  /\ dict_get out "longitude" = Some kenitra_lng.

Lemma set_fallback_fallen_back (p : pydict) : fallen_back (set_fallback p).
Proof.
  unfold fallen_back, set_fallback. split; [apply dict_get_set|]. split.
  - rewrite dict_get_set_other by lit_neq. rewrite dict_get_set_other by lit_neq.
    apply dict_get_set.
  - rewrite dict_get_set_other by lit_neq. apply dict_get_set.
Qed.

Lemma assign_location_located (loc : json) (p p' : pydict) (found : bool) :
  assign_location loc p = Completed p' found -> found = true /\ located p'.
Proof.
  unfold assign_location.
  destruct (getitem loc "lat") as [lat|]; [|discriminate].
  destruct (getitem loc "lng") as [lng|]; [|discriminate].
  intros [= <- <-]. split; [reflexivity|]. split; [apply dict_get_set|].
  exists lat, lng. split.
  - rewrite dict_get_set_other by lit_neq. rewrite dict_get_set_other by lit_neq.
    apply dict_get_set.
  - rewrite dict_get_set_other by lit_neq. apply dict_get_set.
Qed.

Lemma fallen_back_not_flagged (out : pydict) : fallen_back out -> flagged out = false.
Proof. intros (H & _). unfold flagged. now rewrite H. Qed.

Lemma located_flagged (out : pydict) : located out -> flagged out = true.
Proof. intros (H & _). unfold flagged. now rewrite H. Qed.

(** What the [try] body of quick_geocode.py leaves when it completes. *)
Lemma quick_lookup_completed (pharm : pydict) (resp : http_result)
    (p' : pydict) (found : bool) :
  QuickGeocode.lookup pharm resp = Completed p' found ->
  (found = true /\ located p') \/ (found = false /\ fallen_back p').
Proof.
  unfold QuickGeocode.lookup.
  destruct resp as [data|]; [|discriminate].
  destruct (getitem data "status") as [st|]; [|discriminate].
  destruct (if eq_str st "OK" then _ else _) as [[|]|]; [| |discriminate].
  - destruct (first_location data) as [loc|]; [|discriminate].
    intros H. left. eapply assign_location_located. exact H.
  - intros [= <- <-]. right. split; [reflexivity|apply set_fallback_fallen_back].
Qed.

Lemma quick_appended_flag (api : endpoint) (py_str : json -> pystr) (i : nat)
    (pharm out : pydict) :
  QuickGeocode.appended api py_str i pharm = Some out ->
  located out \/ fallen_back out.
Proof.
  unfold QuickGeocode.appended.
  destruct (dict_get pharm "name") as [name|]; [|discriminate].
  destruct (QuickGeocode.lookup pharm _) as [p' found|p'] eqn:Hl; intros [= <-].
  - destruct (quick_lookup_completed _ _ _ _ Hl) as [[_ H]|[_ H]]; auto.
  - right. apply set_fallback_fallen_back.
Qed.

Lemma quick_step_flags (api : endpoint) (py_str : json -> pystr) (i : nat)
    (pharm : pydict) (st st' : QuickGeocode.Run) :
  QuickGeocode.step api py_str i pharm st = Some st' ->
  exists out,
    QuickGeocode.geocoded st' = QuickGeocode.geocoded st ++ [out]
    /\ (located out \/ fallen_back out)
    /\ QuickGeocode.success st'
       = QuickGeocode.success st + (if flagged out then 1 else 0).
Proof.
  unfold QuickGeocode.step.
  destruct (dict_get pharm "name") as [name|]; [|discriminate].
  destruct (QuickGeocode.lookup pharm _) as [p' found|p'] eqn:Hl;
    intros [= <-]; cbn [QuickGeocode.geocoded QuickGeocode.success].
  - exists p'. split; [reflexivity|].
    destruct (quick_lookup_completed _ _ _ _ Hl) as [[-> Hp]|[-> Hp]].
    + split; [now left|]. rewrite (located_flagged _ Hp). lia.
    + split; [now right|]. rewrite (fallen_back_not_flagged _ Hp). lia.
  - exists (set_fallback p'). split; [reflexivity|].
    pose proof (set_fallback_fallen_back p') as Hp.
    split; [now right|]. rewrite (fallen_back_not_flagged _ Hp). lia.
Qed.

Lemma quick_loop_flags (api : endpoint) (py_str : json -> pystr)
    (todo : list pydict) (i : nat) (st st' : QuickGeocode.Run) :
  Forall (fun out => located out \/ fallen_back out) (QuickGeocode.geocoded st) ->
  QuickGeocode.success st = length (filter flagged (QuickGeocode.geocoded st)) ->
  QuickGeocode.loop api py_str i todo st = Some st' ->
  Forall (fun out => located out \/ fallen_back out) (QuickGeocode.geocoded st')
  /\ QuickGeocode.success st' = length (filter flagged (QuickGeocode.geocoded st')).
Proof.
  revert i st. induction todo as [|pharm todo IH]; intros i st Hall Hs;
    cbn [QuickGeocode.loop].
  - intros [= <-]. auto.
  - destruct (QuickGeocode.step api py_str i pharm st) as [st1|] eqn:Hstep;
      [|discriminate].
    destruct (quick_step_flags _ _ _ _ _ _ Hstep) as (out & Hg & Hout & Hsucc).
    apply IH.
    + rewrite Hg. apply Forall_app. split; [exact Hall|]. now constructor.
    + rewrite Hsucc, Hg, filter_app, length_app, Hs. cbn [filter].
      destruct (flagged out); reflexivity.
Qed.



Section QuickCheckpoints.

Variable api : endpoint.
Variable py_str : json -> pystr.

(** The [try] body for the record [pharm] at 1-based position [i] ran to
    its end. *)
Definition quick_completes (i : nat) (pharm : pydict) : bool :=
  match dict_get pharm "name" with
  | Some name =>
      match QuickGeocode.lookup pharm
              (api i (py_str name ++ lit ", Kenitra, Morocco")) with
      | Completed _ _ => true
      | Raised _ => false
      end
  | None => false
  end.

(** The running counts at which the loop writes a checkpoint, from
    position [i] on. *)
Fixpoint quick_counts (i : nat) (todo : list pydict) : list nat :=
  match todo with
  | [] => []
  | pharm :: todo' =>
      (if quick_completes i pharm && (i mod 50 =? 0)%nat then [i] else [])
      ++ quick_counts (S i) todo'
  end.

Lemma quick_loop_counts (todo : list pydict) (i : nat) (st st' : QuickGeocode.Run) :
  QuickGeocode.loop api py_str i todo st = Some st' ->
  map fst (QuickGeocode.checkpoints st')
  = map fst (QuickGeocode.checkpoints st) ++ quick_counts i todo.
Proof.
  revert i st. induction todo as [|pharm todo IH]; intros i st;
    cbn [QuickGeocode.loop quick_counts].
  - intros [= <-]. now rewrite app_nil_r.
  - destruct (QuickGeocode.step api py_str i pharm st) as [st1|] eqn:Hstep;
      [|discriminate].
    intros Hloop. rewrite (IH _ _ Hloop). rewrite app_assoc. f_equal.
    unfold QuickGeocode.step in Hstep. unfold quick_completes.
    destruct (dict_get pharm "name") as [name|]; [|discriminate].
    destruct (QuickGeocode.lookup pharm _) as [p' found|p'];
      destruct (i mod 50 =? 0)%nat; injection Hstep as <-;
      cbn [QuickGeocode.checkpoints andb]; rewrite ?app_nil_r;
      try reflexivity.
    now rewrite map_app.
Qed.

Lemma quick_counts_In (todo : list pydict) (i c : nat) :
  In c (quick_counts i todo)
  <-> exists k pharm,
        nth_error todo k = Some pharm /\ c = i + k
        /\ c mod 50 = 0 /\ quick_completes c pharm = true.
Proof.
  revert i. induction todo as [|pharm todo IH]; intro i; cbn [quick_counts].
  - split; [intros []|]. intros ([|k] & ? & H & _); discriminate H.
  - rewrite in_app_iff, IH. split.
    + intros [H|(k & x & Hk & -> & Hm & Hc)].
      * destruct (quick_completes i pharm) eqn:Hc; [|destruct H].
        destruct (i mod 50 =? 0)%nat eqn:Hm; [|destruct H].
        destruct H as [<-|[]]. exists 0, pharm.
        apply Nat.eqb_eq in Hm. rewrite Nat.add_0_r. auto.
      * exists (S k), x. rewrite Nat.add_succ_r. auto.
    + intros ([|k] & x & Hk & -> & Hm & Hc).
      * left. injection Hk as <-. rewrite Nat.add_0_r in Hm, Hc |- *.
        rewrite Hc. apply Nat.eqb_eq in Hm. rewrite Hm. now left.
      * right. exists k, x. rewrite Nat.add_succ_r in Hm, Hc |- *. auto.
Qed.

End QuickCheckpoints.

(** X9: quick_geocode.py writes the checkpoint of running count [c] exactly
    when [c] is a multiple of 50 within the input and the [try] body of
    record [c] ran to its end: a record whose call or response raised is
    appended by the [except] branch, which writes no checkpoint, so a
    failure at a multiple of 50 leaves that checkpoint out. *)
Theorem quick_geocode_checkpoint_counts (api : endpoint) (py_str : json -> pystr)
    (raw_pharmacies : list pydict) (run : QuickGeocode.Run) :
  QuickGeocode.quick_geocode api py_str raw_pharmacies = Some run ->
  (forall c,
      In c (map fst (QuickGeocode.checkpoints run))
      <-> exists pharm,
            1 <= c /\ nth_error raw_pharmacies (c - 1) = Some pharm
            /\ c mod 50 = 0 /\ quick_completes api py_str c pharm = true)
  /\ (forall k pharm name,
         nth_error raw_pharmacies k = Some pharm ->
         dict_get pharm "name" = Some name ->
         api (k + 1) (py_str name ++ lit ", Kenitra, Morocco") = None ->
         ~ In (k + 1) (map fst (QuickGeocode.checkpoints run))).
Proof.
  intros Hrun. apply quick_loop_counts in Hrun.
  cbn [QuickGeocode.checkpoints map app] in Hrun.
  assert (Hiff : forall c,
             In c (map fst (QuickGeocode.checkpoints run))
             <-> exists pharm,
                   1 <= c /\ nth_error raw_pharmacies (c - 1) = Some pharm
                   /\ c mod 50 = 0 /\ quick_completes api py_str c pharm = true).
  { intros c. rewrite Hrun, quick_counts_In. split.
    - intros (k & pharm & Hk & -> & Hm & Hc). exists pharm.
      split; [lia|]. replace (1 + k - 1) with k by lia. auto.
    - intros (pharm & Hc1 & Hk & Hm & Hc). exists (c - 1), pharm.
      split; [exact Hk|]. split; [lia|]. auto. }
  split; [exact Hiff|].
  intros k pharm name Hk Hname Hapi Hin. apply Hiff in Hin.
  destruct Hin as (pharm' & _ & Hk' & _ & Hc).
  replace (k + 1 - 1) with k in Hk' by lia.
  rewrite Hk in Hk'. injection Hk' as <-.
  unfold quick_completes in Hc. rewrite Hname, Hapi in Hc. discriminate.
Qed.

Lemma quick_geocode_checkpoint_counts_witness :
  exists run,
    QuickGeocode.quick_geocode api_down sample_str (repeat sample_dict 50)
    = Some run
    /\ ~ In 50 (map fst (QuickGeocode.checkpoints run)).
Proof.
  destruct (QuickGeocode.loop_total api_down sample_str (repeat sample_dict 50) 1
              {| QuickGeocode.geocoded := []; QuickGeocode.success := 0;
                 QuickGeocode.checkpoints := [] |}) as [run Hrun].
  { apply Forall_forall. intros d Hd. apply repeat_spec in Hd. subst d.
    discriminate. }
  exists run. split; [exact Hrun|].
  apply (proj2 (quick_geocode_checkpoint_counts api_down sample_str
                  (repeat sample_dict 50) run Hrun)
           49 sample_dict (JStr (lit "Pharmacie Al Amal")));
    reflexivity.
Defined.


(** ** More of the in-place loops: what each record ends as *)

Section InPlaceOutcomes.

Variable api : endpoint.
Variable py_str : json -> pystr.
Variable locality : string.

(** The record the iteration at position [idx] leaves in the list. *)
Definition left_by (idx : nat) (p : pydict) : pydict :=
  match InPlace.lookup api py_str locality idx p with
  | Completed p' _ => p'
  | Raised p' => p'
  end.

(** The iteration at position [idx] of the list [l] counted a success, and
    it ran to the checkpoint test. *)
Definition found_at (l : list pydict) (idx : nat) : bool :=
  match nth_error l idx with
  | Some p =>
      match InPlace.lookup api py_str locality idx p with
      | Completed _ found => found
      | Raised _ => false
      end
  | None => false
  end.

Definition completes_at (l : list pydict) (idx : nat) : bool :=
  match nth_error l idx with
  | Some p =>
      match InPlace.lookup api py_str locality idx p with
      | Completed _ _ => true
      | Raised _ => false
      end
  | None => false
  end.

Lemma inplace_step_nth_same (idx : nat) (st : InPlace.Run) (p : pydict) :
  nth_error (InPlace.pharmacies st) idx = Some p ->
  nth_error (InPlace.pharmacies (InPlace.step api py_str locality idx st)) idx
  = Some (left_by idx p).
Proof.
  intros Hp. unfold InPlace.step, left_by. rewrite Hp.
  assert (Hlt : idx < length (InPlace.pharmacies st))
    by (apply nth_error_Some; congruence).
  destruct (InPlace.lookup api py_str locality idx p);
    cbn [InPlace.pharmacies]; now apply update_nth_same.
Qed.

Lemma inplace_iter_nth (n idx j : nat) (st : InPlace.Run) (p : pydict) :
  nth_error (InPlace.pharmacies st) j = Some p ->
  idx <= j < idx + n ->
  nth_error (InPlace.pharmacies (InPlace.iter api py_str locality n idx st)) j
  = Some (left_by j p).
Proof.
  revert idx st. induction n as [|n IH]; intros idx st Hp Hj; [lia|].
  cbn [InPlace.iter]. destruct (Nat.eq_dec j idx) as [->|Hne].
  - rewrite InPlace.iter_nth_before by lia. now apply inplace_step_nth_same.
  - apply IH; [|lia]. rewrite InPlace.step_nth_other by exact Hne. exact Hp.
Qed.

Lemma found_at_step (idx j : nat) (st : InPlace.Run) :
  j <> idx ->
  found_at (InPlace.pharmacies (InPlace.step api py_str locality idx st)) j
  = found_at (InPlace.pharmacies st) j.
Proof.
  intros Hne. unfold found_at. now rewrite InPlace.step_nth_other.
Qed.

Lemma completes_at_step (idx j : nat) (st : InPlace.Run) :
  j <> idx ->
  completes_at (InPlace.pharmacies (InPlace.step api py_str locality idx st)) j
  = completes_at (InPlace.pharmacies st) j.
Proof.
  intros Hne. unfold completes_at. now rewrite InPlace.step_nth_other.
Qed.

Lemma inplace_iter_success (n idx : nat) (st : InPlace.Run) :
  InPlace.success (InPlace.iter api py_str locality n idx st)
  = InPlace.success st
    + length (filter (found_at (InPlace.pharmacies st)) (seq idx n)).
Proof.
  revert idx st. induction n as [|n IH]; intros idx st;
    cbn [InPlace.iter seq filter]; [cbn [length]; lia|].
  rewrite IH.
  rewrite (filter_ext_in _ (found_at (InPlace.pharmacies st)))
    by (intros j Hj; apply in_seq in Hj; apply found_at_step; lia).
  assert (Hs : InPlace.success (InPlace.step api py_str locality idx st)
               = InPlace.success st
                 + (if found_at (InPlace.pharmacies st) idx then 1 else 0)).
  { unfold InPlace.step, found_at.
    destruct (nth_error (InPlace.pharmacies st) idx) as [p|]; [|lia].
    destruct (InPlace.lookup api py_str locality idx p) as [p' [|]|p'];
      cbn [InPlace.success]; lia. }
  rewrite Hs. destruct (found_at (InPlace.pharmacies st) idx); cbn [length]; lia.
Qed.

Lemma inplace_iter_counts (n idx : nat) (st : InPlace.Run) :
  map fst (InPlace.checkpoints (InPlace.iter api py_str locality n idx st))
  = map fst (InPlace.checkpoints st)
    ++ map (fun j => j + 1)
         (filter (fun j => completes_at (InPlace.pharmacies st) j
                           && ((j + 1) mod 50 =? 0)%nat)
            (seq idx n)).
Proof.
  revert idx st. induction n as [|n IH]; intros idx st;
    cbn [InPlace.iter]; [cbn [seq filter map]; now rewrite app_nil_r|].
  rewrite IH.
  rewrite (filter_ext_in
             (fun j => completes_at
                         (InPlace.pharmacies (InPlace.step api py_str locality idx st)) j
                       && ((j + 1) mod 50 =? 0)%nat)
             (fun j => completes_at (InPlace.pharmacies st) j
                       && ((j + 1) mod 50 =? 0)%nat))
    by (intros j Hj; apply in_seq in Hj; rewrite completes_at_step by lia;
        reflexivity).
  set (g := fun j => completes_at (InPlace.pharmacies st) j
                     && ((j + 1) mod 50 =? 0)%nat).
  assert (Hstep : map fst (InPlace.checkpoints (InPlace.step api py_str locality idx st))
                  = map fst (InPlace.checkpoints st)
                    ++ (if g idx then [idx + 1] else [])).
  { unfold g, InPlace.step, completes_at.
    destruct (nth_error (InPlace.pharmacies st) idx) as [p|];
      [|cbn [andb]; now rewrite app_nil_r].
    destruct (InPlace.lookup api py_str locality idx p) as [p' found|p'];
      destruct ((idx + 1) mod 50 =? 0)%nat;
      cbn [InPlace.checkpoints andb]; rewrite ?app_nil_r; try reflexivity.
    now rewrite map_app. }
  rewrite Hstep, <- app_assoc. f_equal.
  change (seq idx (S n)) with (idx :: seq (S idx) n). cbn [filter].
  destruct (g idx); reflexivity.
Qed.

End InPlaceOutcomes.

(** The three ways the [try] body can leave a record. *)
Lemma inplace_lookup_cases (api : endpoint) (py_str : json -> pystr)
    (locality : string) (idx : nat) (p : pydict) :
  (exists lat lng,
      InPlace.lookup api py_str locality idx p
      = Completed (dict_set "geocoded" (JBool true)
                     (dict_set "longitude" lng (dict_set "latitude" lat p))) true)
  \/ InPlace.lookup api py_str locality idx p = Completed p false
  \/ InPlace.lookup api py_str locality idx p = Raised p
  \/ (exists lat,
         InPlace.lookup api py_str locality idx p
         = Raised (dict_set "latitude" lat p)).
Proof.
  unfold InPlace.lookup.
  destruct (dict_get p "name") as [name|]; [|auto].
  destruct (api idx _) as [data|]; [|auto].
  destruct (getitem data "status") as [st|]; [|auto].
  destruct (eq_str st "OK"); [|auto].
  destruct (first_location data) as [loc|]; [|auto].
  unfold assign_location.
  destruct (getitem loc "lat") as [lat|]; [|auto].
  destruct (getitem loc "lng") as [lng|]; [left|right; right; right]; eauto.
Qed.




(** X11: geocode_rabat.py writes the checkpoint of running count [c] exactly
    when [c] is a multiple of 50 within the list and the [try] body of the
    record at position [c - 1] reached the checkpoint test: the bare
    [except] skips the rest of the body, so a call that raises for the
    fiftieth record leaves [rabat_checkpoint_50.json] unwritten. *)
Theorem geocode_rabat_checkpoint_counts (api : endpoint) (py_str : json -> pystr)
    (pharmacies : list pydict) :
  let run := GeocodeRabat.geocode_rabat api py_str pharmacies in
  (forall c,
      In c (map fst (InPlace.checkpoints run))
      <-> exists p,
            1 <= c /\ nth_error pharmacies (c - 1) = Some p /\ c mod 50 = 0
            /\ exists p' found,
                 InPlace.lookup api py_str "Rabat" (c - 1) p = Completed p' found)
  /\ (forall k p name,
         nth_error pharmacies k = Some p ->
         dict_get p "name" = Some name ->
         api k (py_str name ++ lit ", " ++ lit "Rabat" ++ lit ", Morocco") = None ->
         ~ In (k + 1) (map fst (InPlace.checkpoints run))).
Proof.
  intro run.
  assert (Hiff : forall c,
             In c (map fst (InPlace.checkpoints run))
             <-> exists p,
                   1 <= c /\ nth_error pharmacies (c - 1) = Some p /\ c mod 50 = 0
                   /\ exists p' found,
                        InPlace.lookup api py_str "Rabat" (c - 1) p
                        = Completed p' found).
  { intros c. unfold run, GeocodeRabat.geocode_rabat.
    rewrite inplace_iter_counts. cbn [InPlace.checkpoints InPlace.pharmacies map app].
    rewrite in_map_iff. split.
    - intros (j & <- & Hj). apply filter_In in Hj. destruct Hj as [Hj Hg].
      apply andb_true_iff in Hg. destruct Hg as [Hc Hm].
      apply Nat.eqb_eq in Hm. unfold completes_at in Hc.
      replace (j + 1 - 1) with j by lia.
      destruct (nth_error pharmacies j) as [p|]; [|discriminate].
      exists p. split; [lia|]. split; [reflexivity|]. split; [exact Hm|].
      destruct (InPlace.lookup api py_str "Rabat" j p) as [p' found|p'];
        [eauto|discriminate].
    - intros (p & Hc1 & Hp & Hm & p' & found & Hl). exists (c - 1).
      split; [lia|]. apply filter_In. split.
      + apply in_seq. assert (c - 1 < length pharmacies)
          by (apply nth_error_Some; congruence). lia.
      + unfold completes_at. rewrite Hp, Hl. cbn [andb].
        replace (c - 1 + 1) with c by lia. now apply Nat.eqb_eq. }
  split; [exact Hiff|].
  intros k p name Hk Hname Hapi Hin. apply Hiff in Hin.
  destruct Hin as (p0 & _ & Hk' & _ & p' & found & Hl).
  replace (k + 1 - 1) with k in Hk', Hl by lia.
  rewrite Hk in Hk'. injection Hk' as <-.
  unfold InPlace.lookup in Hl. rewrite Hname, Hapi in Hl. discriminate.
Qed.

Lemma geocode_rabat_checkpoint_counts_witness :
  ~ In 50
      (map fst
         (InPlace.checkpoints
            (GeocodeRabat.geocode_rabat api_down sample_str
               (repeat sample_dict 50)))).
Proof.
  apply (proj2 (geocode_rabat_checkpoint_counts api_down sample_str
                  (repeat sample_dict 50))
           49 sample_dict (JStr (lit "Pharmacie Al Amal")));
    reflexivity.
Defined.

(** ** scrape_rabat.py, then geocode_rabat.py *)

(** The dict scrape_rabat.py makes of a listing. *)
Definition rabat_record (name phone : pystr) : pydict :=
  [(lit "name", JStr name);
   (lit "phone", JStr phone);
   (lit "address", JStr (name ++ lit ", Rabat, Morocco"));
   (lit "city", JStr (lit "Rabat"));
   (lit "geocoded", JBool false);
   (lit "latitude", JFloat 0%float);
   (lit "longitude", JFloat 0%float)].

Lemma rabat_scrape_listings_In (listings : list PharmacyScraper.Listing)
    (d : pydict) :
  In d (ScrapeRabat.scrape_listings listings []) ->
  exists listing, In listing listings /\ ScrapeRabat.scrape_listing listing = Some d.
Proof.
  induction listings as [|l ls IH]; cbn [ScrapeRabat.scrape_listings].
  - intros [].
  - destruct (ScrapeRabat.scrape_listing l) as [x|] eqn:Hl.
    + rewrite ScrapeRabat.scrape_listings_acc. cbn [app]. intros [<-|Hin].
      * exists l. split; [now left|exact Hl].
      * destruct (IH Hin) as (l' & Hl' & Hd). exists l'. split; [now right|exact Hd].
    + intros Hin. destruct (IH Hin) as (l' & Hl' & Hd).
      exists l'. split; [now right|exact Hd].
Qed.

Lemma scrape_rabat_In (web : PharmacyScraper.directory) (TOTAL_PAGES : Z)
    (d : pydict) :
  In d (ScrapeRabat.scrape_rabat web TOTAL_PAGES) ->
  exists page_num listings listing,
    (1 <= page_num <= TOTAL_PAGES)%Z
    /\ web (ScrapeRabat.page_url page_num) = Some listings
    /\ In listing listings
    /\ ScrapeRabat.scrape_listing listing = Some d.
Proof.
  rewrite (proj1 (ScrapeRabat.scrape_rabat_concat web TOTAL_PAGES)).
  intros Hin. apply in_flat_map in Hin. destruct Hin as (page & Hpage & Hd).
  unfold py_range in Hpage. apply in_map_iff in Hpage.
  destruct Hpage as (k & <- & Hk). apply in_seq in Hk.
  unfold ScrapeRabat.scrape_page in Hd.
  destruct (web _) as [listings|] eqn:Hweb; [|destruct Hd].
  apply rabat_scrape_listings_In in Hd. destruct Hd as (listing & Hl & Hd).
  exists (1 + Z.of_nat k)%Z, listings, listing.
  split; [lia|]. auto.
Qed.

Lemma scrape_rabat_shape (web : PharmacyScraper.directory) (TOTAL_PAGES : Z)
    (d : pydict) :
  In d (ScrapeRabat.scrape_rabat web TOTAL_PAGES) ->
  exists name phone, d = rabat_record name phone.
Proof.
  intros Hin. apply scrape_rabat_In in Hin.
  destruct Hin as (_ & _ & listing & _ & _ & _ & Hd).
  unfold ScrapeRabat.scrape_listing in Hd.
  destruct (PharmacyScraper.link_href listing) as [href|]; [|discriminate].
  destruct (contains (lit "/pharmacies/") href); [|discriminate].
  destruct (PharmacyScraper.name_elem listing) as [name|]; [|discriminate].
  injection Hd as <-. eexists. eexists. reflexivity.
Qed.

Lemma filter_length_by_index {A : Type} (f : A -> bool) (g : nat -> bool)
    (l : list A) (k : nat) :
  (forall j x, nth_error l j = Some x -> f x = g (k + j)) ->
  length (filter f l) = length (filter g (seq k (length l))).
Proof.
  revert k. induction l as [|a l IH]; intros k H; [reflexivity|].
  cbn [length seq filter]. rewrite (H 0 a eq_refl), Nat.add_0_r.
  assert (Hrest : length (filter f l) = length (filter g (seq (S k) (length l)))).
  { apply IH. intros j x Hj. rewrite (H (S j) x Hj). f_equal. lia. }
  destruct (g k); cbn [length]; now rewrite Hrest.
Qed.

(** A record that was scraped unflagged and has not been located. *)
Definition unlocated (q : pydict) : Prop :=
  dict_get q "geocoded" = Some (JBool false)
  /\ dict_get q "longitude" = Some (JFloat 0%float).

Lemma rabat_left_by (api : endpoint) (py_str : json -> pystr) (idx : nat)
    (name phone : pystr) :
  let p := rabat_record name phone in
  (located (left_by api py_str "Rabat" idx p)
   /\ flagged (left_by api py_str "Rabat" idx p) = true
   /\ exists p', InPlace.lookup api py_str "Rabat" idx p = Completed p' true)
  \/ (unlocated (left_by api py_str "Rabat" idx p)
      /\ flagged (left_by api py_str "Rabat" idx p) = false
      /\ forall p', InPlace.lookup api py_str "Rabat" idx p <> Completed p' true).
Proof.
  intro p. unfold left_by.
  destruct (inplace_lookup_cases api py_str "Rabat" idx p)
    as [(lat & lng & ->)|[->|[->|(lat & ->)]]].
  - left. split; [|split; [|eauto]].
    + split; [apply dict_get_set|]. exists lat, lng. split.
      * rewrite dict_get_set_other by lit_neq.
        rewrite dict_get_set_other by lit_neq. apply dict_get_set.
      * rewrite dict_get_set_other by lit_neq. apply dict_get_set.
    + unfold flagged. now rewrite dict_get_set.
  - right. split; [split; reflexivity|]. split; [reflexivity|discriminate].
  - right. split; [split; reflexivity|]. split; [reflexivity|discriminate].
  - right. split; [|split; [|discriminate]].
    + split; rewrite dict_get_set_other by lit_neq; reflexivity.
    + unfold flagged. rewrite dict_get_set_other by lit_neq. reflexivity.
Qed.




(** ** final_integrate.py: the whole script

    The script first waits for quick_geocode.py to end; what is embedded
    here starts where it loads [pharmacies_quick.json]. *)

Module FinalIntegrateScript.

(** [v.replace('"', '\\"').replace("'", "\\'")], an [AttributeError] unless
    [v] is a string. *)
Definition escape (v : json) : option pystr :=
  match v with
  | JStr s => Some (replace_char 39 [92; 39]%N (replace_char 34 [92; 34]%N s))
  | _ => None
  end.

Section Script.

(** Python's [str()] and [str.lower()], the text of
    [f"{a*100/b:.1f}"] for a non-zero [b], and the clock as
    [strftime] formats it. *)
Variable py_str : json -> pystr.
Variable py_lower : pystr -> pystr.
Variable percent : nat -> nat -> pystr.
Variable date : pystr.

(** The head of [kotlin_code], for [total] records of which [success] are
    geocoded. *)
Definition header (total success : nat) : pystr :=
  line "package com.pharmatech.morocco.features.pharmacy.domain.model"
  ++ line ""
  ++ line "import java.util.Date"
  ++ line ""
  ++ line "/**"
  ++ line " * Kenitra Pharmacy Data"
  ++ lit " * Generated: " ++ date ++ line ""
  ++ lit " * Total: " ++ str_nat total ++ line " pharmacies"
  ++ lit " * Geocoded: " ++ str_nat success ++ lit " (" ++ percent success total
  ++ line "%)"
  ++ line " * Source: Google Places API"
  ++ line " */"
  ++ line "object KenitraPharmacyData {"
  ++ line "    "
  ++ line "    val pharmacies = listOf(".

(** What the iteration for the record [p] at 0-based position [i] adds to
    [kotlin_code]; [None] when [name] or [address] is missing or is not a
    string, which ends the script. *)
Definition entry (i : nat) (p : pydict) (last : bool) : option pystr :=
  name_value <- dict_get p "name" ;;
  name <- escape name_value ;;
  addr_value <- dict_get p "address" ;;
  addr <- escape addr_value ;;
  let phone := FinalIntegrate.get p "phone" (JStr []) in
  let lat := FinalIntegrate.lat p in
  let lon := FinalIntegrate.lon p in
  let rating := FinalIntegrate.get p "rating" (JFloat 0%float) in
  let review_count := FinalIntegrate.get p "reviewCount" (JInt 0) in
  let geocoded := py_lower (py_str (FinalIntegrate.geocoded p)) in
  let comma := if last then [] else lit "," in
  Some (line "        Pharmacy("
        ++ lit "            id = " ++ dq ++ lit "pharmacy_" ++ pad4 (i + 1) ++ dq ++ line ","
        ++ lit "            name = " ++ dq ++ name ++ dq ++ line ","
        ++ line "            nameAr = null,"
        ++ lit "            address = " ++ dq ++ addr ++ dq ++ line ","
        ++ line "            addressAr = null,"
        ++ lit "            city = " ++ dq ++ lit "Kenitra" ++ dq ++ line ","
        ++ lit "            latitude = " ++ py_str lat ++ line ","
        ++ lit "            longitude = " ++ py_str lon ++ line ","
        ++ lit "            phoneNumber = " ++ dq ++ py_str phone ++ dq ++ line ","
        ++ line "            email = null,"
        ++ line "            website = null,"
        ++ lit "            openingHours = " ++ dq ++ lit "Lun-Ven: 09:00-19:00" ++ dq ++ line ","
        ++ line "            is24Hours = false,"
        ++ line "            hasParking = false,"
        ++ line "            isGuardPharmacy = false,"
        ++ lit "            rating = " ++ py_str rating ++ line ","
        ++ lit "            reviewCount = " ++ py_str review_count ++ line ","
        ++ line "            imageUrl = null,"
        ++ line "            services = emptyList(),"
        ++ line "            distance = null,"
        ++ line "            lastUpdated = Date(),"
        ++ lit "            geocoded = " ++ geocoded ++ line ""
        ++ lit "        )" ++ comma ++ [10%N]).

(** [for i, p in enumerate(pharmacies)] from position [i] on. *)
Fixpoint entries (i : nat) (todo : list pydict) (kotlin_code : pystr)
  : option pystr :=
  match todo with
  | [] => Some kotlin_code
  | p :: rest =>
      e <- entry i p (match rest with [] => true | _ => false end) ;;
      entries (S i) rest (kotlin_code ++ e)
  end.

(** The tail of [kotlin_code]. *)
Definition footer : pystr :=
  line "    )"
  ++ line "    "
  ++ line "    fun getAllPharmacies(): List<Pharmacy> = pharmacies"
  ++ line "    "
  ++ line "    fun getPharmacyById(id: String): Pharmacy? = pharmacies.find { it.id == id }"
  ++ line "    "
  ++ line "    fun searchPharmacies(query: String): List<Pharmacy> {"
  ++ line "        val lowerQuery = query.lowercase()"
  ++ line "        return pharmacies.filter {"
  ++ line "            it.name.lowercase().contains(lowerQuery) ||"
  ++ line "            it.address.lowercase().contains(lowerQuery) ||"
  ++ line "            it.phoneNumber.contains(query)"
  ++ line "        }"
  ++ line "    }"
  ++ line "}".

(** [sum(1 for p in pharmacies if p.get('geocoded', False))] *)
Definition count_geocoded (pharmacies : list pydict) : nat :=
  length (filter (fun p => truthy (FinalIntegrate.get p "geocoded" (JBool false)))
            pharmacies).

(** The text written to [KenitraPharmacyData.kt] for the loaded list;
    [None] when the script raised before writing it.  The percentage
    printed right after the count divides by [len(pharmacies)]. *)
Definition final_integrate (pharmacies : list pydict) : option pystr :=
  let success := count_geocoded pharmacies in
  if (length pharmacies =? 0)%nat then None
  else
    kotlin_code <- entries 0 pharmacies (header (length pharmacies) success) ;;
    Some (kotlin_code ++ footer).

End Script.

End FinalIntegrateScript.

(** A record the emitter of final_integrate.py can write: its name and its
    address are strings. *)
Definition has_texts (p : pydict) : Prop :=
  (exists s, dict_get p "name" = Some (JStr s))
  /\ (exists s, dict_get p "address" = Some (JStr s)).

Lemma final_entry_some (py_str : json -> pystr) (py_lower : pystr -> pystr)
    (i : nat) (p : pydict) (last : bool) :
  FinalIntegrateScript.entry py_str py_lower i p last <> None <-> has_texts p.
Proof.
  unfold FinalIntegrateScript.entry, has_texts, FinalIntegrateScript.escape.
  destruct (dict_get p "name") as [[| | | |n| |]|];
    try (split; [congruence|intros [[s [=]] _]]).
  destruct (dict_get p "address") as [[| | | |a| |]|];
    try (split; [congruence|intros [_ [s [=]]]]).
  split; [eauto|discriminate].
Qed.

Lemma final_entries_some (py_str : json -> pystr) (py_lower : pystr -> pystr)
    (todo : list pydict) (i : nat) (code : pystr) :
  FinalIntegrateScript.entries py_str py_lower i todo code <> None
  <-> Forall has_texts todo.
Proof.
  revert i code. induction todo as [|p rest IH]; intros i code;
    cbn [FinalIntegrateScript.entries].
  - split; [constructor|discriminate].
  - pose proof (final_entry_some py_str py_lower i p
                  (match rest with [] => true | _ => false end)) as He.
    destruct (FinalIntegrateScript.entry py_str py_lower i p _) as [e|].
    + rewrite IH. split.
      * intros H. constructor; [apply He; discriminate|exact H].
      * now inversion 1.
    + split; [congruence|]. inversion 1; subst.
      exfalso. apply He in H2. now apply H2.
Qed.

Lemma final_entries_prefix (py_str : json -> pystr) (py_lower : pystr -> pystr)
    (todo : list pydict) (i : nat) (code : pystr) :
  Forall has_texts todo ->
  exists body,
    FinalIntegrateScript.entries py_str py_lower i todo code = Some (code ++ body).
Proof.
  intros Hall. revert i code. induction Hall as [|p rest Hp _ IH]; intros i code;
    cbn [FinalIntegrateScript.entries].
  - exists []. now rewrite app_nil_r.
  - destruct (FinalIntegrateScript.entry py_str py_lower i p _) as [e|] eqn:He.
    + destruct (IH (S i) (code ++ e)) as (body & ->).
      exists (e ++ body). now rewrite app_assoc.
    + exfalso. apply (final_entry_some py_str py_lower i p
                        (match rest with [] => true | _ => false end)) in Hp.
      congruence.
Qed.

(** X13: final_integrate.py writes the Kotlin file exactly when the loaded list
    is not empty and every record has a string as [name] and as [address]:
    on an empty list the percentage of the first report divides by zero, and
    a record without one of the two texts raises in the loop, in both cases
    before anything is written.  Every other key may be missing. *)
Theorem final_integrate_writes_iff (py_str : json -> pystr)
    (py_lower : pystr -> pystr) (percent : nat -> nat -> pystr) (date : pystr)
    (pharmacies : list pydict) :
  (exists kotlin_code,
      FinalIntegrateScript.final_integrate py_str py_lower percent date pharmacies
      = Some kotlin_code)
  <-> pharmacies <> [] /\ Forall has_texts pharmacies.
Proof.
  unfold FinalIntegrateScript.final_integrate.
  pose proof (final_entries_some py_str py_lower pharmacies 0
                (FinalIntegrateScript.header percent date (length pharmacies)
                   (FinalIntegrateScript.count_geocoded pharmacies))) as He.
  destruct pharmacies as [|p rest].
  - cbn [length Nat.eqb]. split; [intros [? [=]]|intros [H _]; congruence].
  - cbn [length Nat.eqb].
    destruct (FinalIntegrateScript.entries py_str py_lower 0 (p :: rest) _) as [code|].
    + split; [|eauto]. intros _. split; [discriminate|]. apply He. discriminate.
    + split; [intros [? [=]]|]. intros [_ H]. apply He in H. congruence.
Qed.

Lemma final_integrate_writes_iff_witness :
  exists kotlin_code,
    FinalIntegrateScript.final_integrate sample_str (fun s => s)
      (fun _ _ => lit "0.0") (lit "2024-01-01 00:00:00") [sample_dict]
    = Some kotlin_code.
Proof.
  apply (proj2 (final_integrate_writes_iff sample_str (fun s => s)
                  (fun _ _ => lit "0.0") (lit "2024-01-01 00:00:00")
                  [sample_dict])).
  split; [discriminate|].
  constructor; [|constructor]. split; eexists; reflexivity.
Defined.


(** *** Well-formed values through the lookups *)

Section WellFormed.

Variable float_repr : float -> pystr.
Variable float_of_str : pystr -> float.

Lemma wf_obj_iff (kv : list (pystr * json)) :
  JsonFacts.wf float_repr float_of_str (JObj kv) <-> NoDup (map fst kv) /\ Forall (fun p => JsonFacts.wf float_repr float_of_str (snd p)) kv.
Proof.
  cbn [JsonFacts.wf]. split; intros [Hk Hv]; (split; [exact Hk|]).
  - induction kv as [|p kv IH]; [constructor|].
    cbn [fold_right] in Hv. destruct Hv as [Hp Hv]. constructor; [exact Hp|].
    apply IH; [now inversion Hk|exact Hv].
  - clear Hk. induction Hv as [|p kv Hp _ IH]; cbn [fold_right]; auto.
Qed.

Lemma wf_arr_iff (l : list json) :
  JsonFacts.wf float_repr float_of_str (JArr l)
  <-> Forall (JsonFacts.wf float_repr float_of_str) l.
Proof.
  cbn [JsonFacts.wf]. split.
  - induction l as [|x l IH]; [constructor|].
    cbn [fold_right]. intros [Hx Hl]. constructor; auto.
  - induction 1 as [|x l Hx _ IH]; cbn [fold_right]; auto.
Qed.

Lemma wf_assoc (k : pystr) (kv : list (pystr * json)) (v : json) :
  JsonFacts.wf float_repr float_of_str (JObj kv) -> assoc k kv = Some v -> JsonFacts.wf float_repr float_of_str v.
Proof.
  rewrite wf_obj_iff. intros [_ Hv]. induction Hv as [|[k' v'] kv Hp _ IH];
    cbn [assoc]; [discriminate|].
  destruct (pystr_eqb k k'); [|exact IH]. now intros [= <-].
Qed.

Lemma wf_getitem (v : json) (k : string) (x : json) :
  JsonFacts.wf float_repr float_of_str v -> getitem v k = Some x -> JsonFacts.wf float_repr float_of_str x.
Proof.
  destruct v; cbn [getitem]; try discriminate. apply wf_assoc.
Qed.

Lemma wf_getitem0 (v x : json) : JsonFacts.wf float_repr float_of_str v -> getitem0 v = Some x -> JsonFacts.wf float_repr float_of_str x.
Proof.
  destruct v as [| | | |s|l|]; cbn [getitem0]; try discriminate.
  - destruct s; [discriminate|]. intros _ [= <-]. exact I.
  - destruct l as [|y l]; [discriminate|]. rewrite wf_arr_iff.
    intros H [= <-]. now inversion H.
Qed.

Lemma assoc_set_keys (k : pystr) (v : json) (kv : list (pystr * json)) :
  map fst (assoc_set k v kv)
  = if existsb (pystr_eqb k) (map fst kv) then map fst kv
    else map fst kv ++ [k].
Proof.
  induction kv as [|[k' v'] kv IH]; cbn [assoc_set map fst existsb app];
    [reflexivity|].
  destruct (pystr_eqb k k') eqn:E; cbn [orb map fst]; [reflexivity|].
  rewrite IH. destruct (existsb (pystr_eqb k) (map fst kv)); reflexivity.
Qed.

Lemma wf_assoc_set (k : pystr) (v : json) (kv : list (pystr * json)) :
  JsonFacts.wf float_repr float_of_str (JObj kv) -> JsonFacts.wf float_repr float_of_str v -> JsonFacts.wf float_repr float_of_str (JObj (assoc_set k v kv)).
Proof.
  rewrite !wf_obj_iff. intros [Hk Hv] Hx. split.
  - rewrite assoc_set_keys.
    destruct (existsb (pystr_eqb k) (map fst kv)) eqn:E; [exact Hk|].
    apply NoDup_app; [exact Hk|repeat constructor; intros []|].
    intros x Hin [Heq|[]]. subst x.
    assert (existsb (pystr_eqb k) (map fst kv) = true); [|congruence].
    apply existsb_exists. exists k. split; [exact Hin|apply pystr_eqb_refl].
  - clear Hk. induction Hv as [|[k' v'] kv Hp Hrest IH]; cbn [assoc_set].
    + repeat constructor. exact Hx.
    + destruct (pystr_eqb k k'); constructor; cbn [snd] in *; auto.
Qed.

Lemma wf_dict_set (k : string) (v : json) (d : pydict) :
  JsonFacts.wf float_repr float_of_str (JObj d) -> JsonFacts.wf float_repr float_of_str v -> JsonFacts.wf float_repr float_of_str (JObj (dict_set k v d)).
Proof. apply wf_assoc_set. Qed.

(** The interpreter converts the two fallback coordinates back from their
    text. *)
Hypothesis kenitra_ok :
  JsonFacts.wf float_repr float_of_str kenitra_lat
  /\ JsonFacts.wf float_repr float_of_str kenitra_lng.

Lemma wf_set_fallback (d : pydict) : JsonFacts.wf float_repr float_of_str (JObj d) -> JsonFacts.wf float_repr float_of_str (JObj (set_fallback d)).
Proof.
  intros H. unfold set_fallback.
  apply wf_dict_set; [|exact I].
  apply wf_dict_set; [|apply kenitra_ok].
  apply wf_dict_set; [exact H|apply kenitra_ok].
Qed.

Lemma wf_first_location (data loc : json) :
  JsonFacts.wf float_repr float_of_str data -> first_location data = Some loc -> JsonFacts.wf float_repr float_of_str loc.
Proof.
  unfold first_location. intros H.
  destruct (getitem data "results") as [results|] eqn:E1; [|discriminate].
  destruct (getitem0 results) as [r0|] eqn:E2; [|discriminate].
  destruct (getitem r0 "geometry") as [g|] eqn:E3; [|discriminate].
  intros E4.
  eapply wf_getitem; [|exact E4]. eapply wf_getitem; [|exact E3].
  eapply wf_getitem0; [|exact E2]. eapply wf_getitem; [|exact E1]. exact H.
Qed.

Lemma wf_assign_location (loc : json) (d : pydict) :
  JsonFacts.wf float_repr float_of_str loc -> JsonFacts.wf float_repr float_of_str (JObj d) ->
  match assign_location loc d with
  | Completed d' _ | Raised d' => JsonFacts.wf float_repr float_of_str (JObj d')
  end.
Proof.
  intros Hloc Hd. unfold assign_location.
  destruct (getitem loc "lat") as [lat|] eqn:E1; [|exact Hd].
  assert (H1 : JsonFacts.wf float_repr float_of_str (JObj (dict_set "latitude" lat d)))
    by (apply wf_dict_set; [exact Hd|exact (wf_getitem _ _ _ Hloc E1)]).
  destruct (getitem loc "lng") as [lng|] eqn:E2; [|exact H1].
  apply wf_dict_set; [|exact I].
  apply wf_dict_set; [exact H1|exact (wf_getitem _ _ _ Hloc E2)].
Qed.

Lemma wf_quick_appended (api : endpoint) (py_str : json -> pystr)
    (i : nat) (pharm out : pydict) :
  (forall n q data, api n q = Some data -> JsonFacts.wf float_repr float_of_str data) ->
  JsonFacts.wf float_repr float_of_str (JObj pharm) ->
  QuickGeocode.appended api py_str i pharm = Some out -> JsonFacts.wf float_repr float_of_str (JObj out).
Proof.
  intros Hapi Hp. unfold QuickGeocode.appended, QuickGeocode.lookup.
  destruct (dict_get pharm "name") as [name|]; [|discriminate].
  destruct (api i _) as [data|] eqn:Ha;
    [|intros [= <-]; now apply wf_set_fallback].
  apply Hapi in Ha.
  destruct (getitem data "status") as [st|];
    [|intros [= <-]; now apply wf_set_fallback].
  destruct (if eq_str st "OK" then _ else _) as [[|]|];
    try (intros [= <-]; now apply wf_set_fallback).
  destruct (first_location data) as [loc|] eqn:El;
    [|intros [= <-]; now apply wf_set_fallback].
  pose proof (wf_assign_location loc pharm (wf_first_location _ _ Ha El) Hp) as H.
  destruct (assign_location loc pharm) as [d' found|d']; intros [= <-];
    [exact H|now apply wf_set_fallback].
Qed.

End WellFormed.

(** final_integrate.py from the file it loads. *)
Definition final_integrate_script (float_of_str : pystr -> float)
    (py_str : json -> pystr) (py_lower : pystr -> pystr)
    (percent : nat -> nat -> pystr) (date : pystr) (pharmacies_quick_json : pystr)
  : option pystr :=
  v <- Json.loads float_of_str pharmacies_quick_json ;;
  pharmacies <- records_of v ;;
  FinalIntegrateScript.final_integrate py_str py_lower percent date pharmacies.

(** The text quick_geocode.py writes to [pharmacies_quick.json]. *)
Definition pharmacies_quick_json (float_repr : float -> pystr)
    (run : QuickGeocode.Run) : pystr :=
  Json.dumps float_repr (JArr (map JObj (QuickGeocode.geocoded run))).



(** [repr] and [float] on the two fallback coordinates. *)
Definition kenitra_repr (f : float) : pystr :=
  if PrimFloat.eqb f 34.261%float then lit "34.261"
  else if PrimFloat.eqb f (-6.587)%float then lit "-6.587"
  else lit "0.0".

Definition kenitra_float (s : pystr) : float :=
  if pystr_eqb s (lit "34.261") then 34.261%float
  else if pystr_eqb s (lit "-6.587") then (-6.587)%float
  else 0%float.



(** ** geocode_places_api.py: the driver and the whole script *)

Module GeocodePlacesApiDriver.

(** The state of the loop: the list built, the two counters and the
    checkpoint files written (running count, content). *)
Record Run := {
  geocoded_pharmacies : list pydict;
  success_count : nat;
  failed_count : nat;
  checkpoints : list (nat * list pydict)
}.

(** What the script leaves when it does not raise before its first file:
    the list dumped to [pharmacies_kenitra_final.json], the checkpoints, and
    the Kotlin text, [None] when the script raised while building it. *)
Record Outputs := {
  pharmacies_kenitra_final : list pydict;
  checkpoint_files : list (nat * list pydict);
  KenitraPharmacyData_final : option pystr
}.

Definition short_hours : json := JStr (lit "Lun-Ven: 09:00-19:00").

(** The value of the [opening_hours] key in the record of a found place. *)
Definition opening_hours_of (result : json) : option json :=
  match result with
  | JObj kv =>
      match assoc (lit "opening_hours") kv with
      | Some hours =>
          weekday_text <- TestPlacesApi.get_or hours "weekday_text" (JArr [short_hours]) ;;
          getitem0 weekday_text
      | None => Some TestPlacesApi.default_hours
      end
  | _ => None
  end.

Section Driver.

(** The Places endpoint, Python's [str()] and [str.lower()], the clock of
    [datetime.now().isoformat()] at each record and at the Kotlin header,
    and the text of [f"{a*100/b:.1f}"] for a non-zero [b]. *)
Variable api : endpoint.
Variable py_str : json -> pystr.
Variable py_lower : pystr -> pystr.
Variable now : nat -> pystr.
Variable date : pystr.
Variable percent : nat -> nat -> pystr.

(** The [try] body up to [geocoded_pharmacies.append(pharmacy)] for the
    record at 1-based position [i]: the dict it appends and whether it
    counted a success, or [None] when it raised. *)
Definition lookup (i : nat) (pharmacy_raw : pydict) (name city : json)
    (resp : http_result) : option (pydict * bool) :=
  data <- resp ;;
  st <- getitem data "status" ;;
  cond <- (if eq_str st "OK"
           then results <- getitem data "results" ;;
                n <- py_len results ;; Some (0 <? n)%nat
           else Some false) ;;
  let id := JStr (lit "pharmacy_kenitra_" ++ pad4 i) in
  if cond then
    results <- getitem data "results" ;;
    result <- getitem0 results ;;
    geometry <- getitem result "geometry" ;;
    location <- getitem geometry "location" ;;
    raw_address <- dict_get pharmacy_raw "address" ;;
    address <- TestPlacesApi.get_or result "formatted_address" raw_address ;;
    lat <- getitem location "lat" ;;
    lng <- getitem location "lng" ;;
    phone <- dict_get pharmacy_raw "phone" ;;
    opening_hours <- opening_hours_of result ;;
    rating <- TestPlacesApi.get_or result "rating" (JFloat 0%float) ;;
    review_count <- TestPlacesApi.get_or result "user_ratings_total" (JInt 0) ;;
    place_id <- TestPlacesApi.get_or result "place_id" (JStr []) ;;
    Some ([(lit "id", id);
           (lit "name", name);
           (lit "name_ar", JNull);
           (lit "address", address);
           (lit "address_ar", JNull);
           (lit "city", city);
           (lit "latitude", lat);
           (lit "longitude", lng);
           (lit "phone_number", phone);
           (lit "email", JNull);
           (lit "website", JNull);
           (lit "opening_hours", opening_hours);
           (lit "is_24_hours", JBool false);
           (lit "has_parking", JBool false);
           (lit "is_guard_pharmacy", JBool false);
           (lit "rating", rating);
           (lit "review_count", review_count);
           (lit "image_url", JNull);
           (lit "services", JArr []);
           (lit "distance", JNull);
           (lit "last_updated", JStr (now i));
           (lit "geocoded", JBool true);
           (lit "geocode_status", JStr (lit "OK"));
           (lit "place_id", place_id)], true)
  else
    raw_address <- dict_get pharmacy_raw "address" ;;
    phone <- dict_get pharmacy_raw "phone" ;;
    status <- getitem data "status" ;;
    Some ([(lit "id", id);
           (lit "name", name);
           (lit "name_ar", JNull);
           (lit "address", raw_address);
           (lit "address_ar", JNull);
           (lit "city", city);
           (lit "latitude", kenitra_lat);
           (lit "longitude", kenitra_lng);
           (lit "phone_number", phone);
           (lit "email", JNull);
           (lit "website", JNull);
           (lit "opening_hours", TestPlacesApi.default_hours);
           (lit "is_24_hours", JBool false);
           (lit "has_parking", JBool false);
           (lit "is_guard_pharmacy", JBool false);
           (lit "rating", JFloat 0%float);
           (lit "review_count", JInt 0);
           (lit "image_url", JNull);
           (lit "services", JArr []);
           (lit "distance", JNull);
           (lit "last_updated", JStr (now i));
           (lit "geocoded", JBool false);
           (lit "geocode_status", status)], false).

(** The dict the [except] branch appends; it reads [address] and [phone]
    of the raw record again, outside any [try]. *)
Definition error_record (i : nat) (pharmacy_raw : pydict) (name city : json)
  : option pydict :=
  raw_address <- dict_get pharmacy_raw "address" ;;
  phone <- dict_get pharmacy_raw "phone" ;;
  Some [(lit "id", JStr (lit "pharmacy_kenitra_" ++ pad4 i));
        (lit "name", name);
        (lit "address", raw_address);
        (lit "city", city);
        (lit "latitude", kenitra_lat);
        (lit "longitude", kenitra_lng);
        (lit "phone_number", phone);
        (lit "geocoded", JBool false);
        (lit "geocode_status", JStr (lit "ERROR"))].

(** One iteration; [name] and [city] are read before the [try]. *)
Definition step (i : nat) (pharmacy_raw : pydict) (st : Run) : option Run :=
  name <- dict_get pharmacy_raw "name" ;;
  city <- dict_get pharmacy_raw "city" ;;
  let query := py_str name ++ lit ", " ++ py_str city ++ lit ", Morocco" in
  match lookup i pharmacy_raw name city (api i query) with
  | Some (pharmacy, found) =>
      let l := geocoded_pharmacies st ++ [pharmacy] in
      Some {| geocoded_pharmacies := l;
              success_count := if found then S (success_count st)
                               else success_count st;
              failed_count := if found then failed_count st
                              else S (failed_count st);
              checkpoints :=
                if (i mod 100 =? 0)%nat then checkpoints st ++ [(i, l)]
                else checkpoints st |}
  | None =>
      pharmacy <- error_record i pharmacy_raw name city ;;
      Some {| geocoded_pharmacies := geocoded_pharmacies st ++ [pharmacy];
              success_count := success_count st;
              failed_count := S (failed_count st);
              checkpoints := checkpoints st |}
  end.

(** [for i, pharmacy_raw in enumerate(raw_pharmacies, 1)] from [i] on. *)
Fixpoint loop (i : nat) (todo : list pydict) (st : Run) : option Run :=
  match todo with
  | [] => Some st
  | pharmacy_raw :: todo' => st' <- step i pharmacy_raw st ;; loop (S i) todo' st'
  end.

(** The head of [kotlin_code]. *)
Definition header (total success : nat) : pystr :=
  line "package com.pharmatech.morocco.features.pharmacy.domain.model"
  ++ line ""
  ++ line "import java.util.Date"
  ++ line "import java.text.SimpleDateFormat"
  ++ line ""
  ++ line "/**"
  ++ line " * Kenitra Pharmacy Data - Generated from Google Places API"
  ++ lit " * Generated: " ++ date ++ line ""
  ++ lit " * Total: " ++ str_nat total ++ line " pharmacies"
  ++ lit " * Geocoded: " ++ str_nat success ++ lit " (" ++ percent success total
  ++ line "%)"
  ++ line " */"
  ++ line "object KenitraPharmacyData {"
  ++ line "    "
  ++ lit "    private val dateFormat = SimpleDateFormat(" ++ dq
  ++ lit "yyyy-MM-dd'T'HH:mm:ss" ++ dq ++ line ")"
  ++ line "    "
  ++ line "    val pharmacies = listOf(".

(** The tail of [kotlin_code]. *)
Definition footer : pystr :=
  line "    )"
  ++ line "    "
  ++ line "    fun getAllPharmacies(): List<Pharmacy> = pharmacies"
  ++ line "    "
  ++ line "    fun getPharmacyById(id: String): Pharmacy? = pharmacies.find { it.id == id }"
  ++ line "    "
  ++ line "    fun searchPharmacies(query: String): List<Pharmacy> {"
  ++ line "        val lowerQuery = query.lowercase()"
  ++ line "        return pharmacies.filter {"
  ++ line "            it.name.lowercase().contains(lowerQuery) ||"
  ++ line "            it.address.lowercase().contains(lowerQuery) ||"
  ++ line "            it.phoneNumber.contains(query)"
  ++ line "        }"
  ++ line "    }"
  ++ line "    "
  ++ line "    fun getNearbyPharmacies(latitude: Double, longitude: Double, radiusKm: Double = 5.0): List<Pharmacy> {"
  ++ line "        return pharmacies.filter {"
  ++ line "            val distance = calculateDistance(latitude, longitude, it.latitude, it.longitude)"
  ++ line "            distance <= radiusKm"
  ++ line "        }.sortedBy { it.distance }"
  ++ line "    }"
  ++ line "    "
  ++ line "    private fun calculateDistance(lat1: Double, lon1: Double, lat2: Double, lon2: Double): Double {"
  ++ line "        val earthRadius = 6371.0"
  ++ line "        val dLat = Math.toRadians(lat2 - lat1)"
  ++ line "        val dLon = Math.toRadians(lon2 - lon1)"
  ++ line "        val a = Math.sin(dLat / 2) * Math.sin(dLat / 2) +"
  ++ line "                Math.cos(Math.toRadians(lat1)) * Math.cos(Math.toRadians(lat2)) *"
  ++ line "                Math.sin(dLon / 2) * Math.sin(dLon / 2)"
  ++ line "        val c = 2 * Math.atan2(Math.sqrt(a), Math.sqrt(1 - a))"
  ++ line "        return earthRadius * c"
  ++ line "    }"
  ++ line "}".

(** The whole script on the loaded list: [None] when it raised before
    [pharmacies_kenitra_final.json] was written (a raw record without one of
    its keys, or the percentage of the report on an empty list). *)
Definition geocode_places_api (raw_pharmacies : list pydict) : option Outputs :=
  run <- loop 1 raw_pharmacies
           {| geocoded_pharmacies := []; success_count := 0;
              failed_count := 0; checkpoints := [] |} ;;
  if (length raw_pharmacies =? 0)%nat then None
  else
    Some {| pharmacies_kenitra_final := geocoded_pharmacies run;
            checkpoint_files := checkpoints run;
            KenitraPharmacyData_final :=
              kotlin_code <- GeocodePlacesApi.entries py_str py_lower
                               (geocoded_pharmacies run)
                               (header (length (geocoded_pharmacies run))
                                  (success_count run)) ;;
              Some (kotlin_code ++ footer) |}.

End Driver.

End GeocodePlacesApiDriver.


(** A raw record without one of the four keys the driver reads. *)
Definition lacks_raw_key (p : pydict) : Prop :=
  dict_get p "name" = None \/ dict_get p "city" = None
  \/ dict_get p "address" = None \/ dict_get p "phone" = None.

Section PlacesDriverFacts.

Variable api : endpoint.
Variable py_str : json -> pystr.
Variable py_lower : pystr -> pystr.
Variable now : nat -> pystr.
Variable date : pystr.
Variable percent : nat -> nat -> pystr.

Lemma places_lookup_reads (i : nat) (raw : pydict) (name city : json)
    (resp : http_result) (x : pydict * bool) :
  GeocodePlacesApiDriver.lookup now i raw name city resp = Some x ->
  dict_get raw "address" <> None /\ dict_get raw "phone" <> None.
Proof.
  unfold GeocodePlacesApiDriver.lookup.
  destruct resp as [data|]; [|discriminate].
  destruct (getitem data "status") as [st|]; [|discriminate].
  destruct (if eq_str st "OK" then _ else _) as [[|]|]; [| |discriminate].
  - destruct (getitem data "results") as [results|]; [|discriminate].
    destruct (getitem0 results) as [result|]; [|discriminate].
    destruct (getitem result "geometry") as [geometry|]; [|discriminate].
    destruct (getitem geometry "location") as [location|]; [|discriminate].
    destruct (dict_get raw "address") as [a|]; [|discriminate].
    destruct (TestPlacesApi.get_or result "formatted_address" a); [|discriminate].
    destruct (getitem location "lat"); [|discriminate].
    destruct (getitem location "lng"); [|discriminate].
    destruct (dict_get raw "phone") as [ph|]; [|discriminate].
    intros _. split; discriminate.
  - destruct (dict_get raw "address") as [a|]; [|discriminate].
    destruct (dict_get raw "phone") as [ph|]; [|discriminate].
    intros _. split; discriminate.
Qed.

(** An iteration raises exactly on a record that lacks one of its keys. *)
Lemma places_step_none (i : nat) (raw : pydict) (st : GeocodePlacesApiDriver.Run) :
  GeocodePlacesApiDriver.step api py_str now i raw st = None <-> lacks_raw_key raw.
Proof.
  unfold GeocodePlacesApiDriver.step, lacks_raw_key.
  destruct (dict_get raw "name") as [name|]; [|split; auto].
  destruct (dict_get raw "city") as [city|]; [|split; auto].
  destruct (GeocodePlacesApiDriver.lookup now i raw name city _)
    as [[pharmacy found]|] eqn:Hl.
  - apply places_lookup_reads in Hl. destruct Hl as [Ha Hp].
    split; [discriminate|]. intros [H|[H|[H|H]]]; congruence.
  - unfold GeocodePlacesApiDriver.error_record.
    destruct (dict_get raw "address") as [a|]; [|split; auto].
    destruct (dict_get raw "phone") as [ph|]; [|split; auto].
    split; [discriminate|]. intros [H|[H|[H|H]]]; discriminate.
Qed.

Lemma places_loop_none (todo : list pydict) (i : nat)
    (st : GeocodePlacesApiDriver.Run) :
  GeocodePlacesApiDriver.loop api py_str now i todo st = None
  <-> Exists lacks_raw_key todo.
Proof.
  revert i st. induction todo as [|raw todo IH]; intros i st;
    cbn [GeocodePlacesApiDriver.loop].
  - split; [discriminate|]. inversion 1.
  - pose proof (places_step_none i raw st) as Hs.
    destruct (GeocodePlacesApiDriver.step api py_str now i raw st) as [st1|].
    + rewrite IH. split; [now right|]. inversion 1; subst; [|assumption].
      apply Hs in H1. discriminate.
    + split; [|reflexivity]. intros _. left. now apply Hs.
Qed.

(** The record the iteration for [raw] at position [i] appends. *)
Definition places_appended (i : nat) (raw : pydict) : option pydict :=
  name <- dict_get raw "name" ;;
  city <- dict_get raw "city" ;;
  match GeocodePlacesApiDriver.lookup now i raw name city
          (api i (py_str name ++ lit ", " ++ py_str city ++ lit ", Morocco")) with
  | Some (pharmacy, _) => Some pharmacy
  | None => GeocodePlacesApiDriver.error_record i raw name city
  end.

Lemma places_step_appended (i : nat) (raw : pydict)
    (st st' : GeocodePlacesApiDriver.Run) :
  GeocodePlacesApiDriver.step api py_str now i raw st = Some st' ->
  exists out,
    places_appended i raw = Some out
    /\ GeocodePlacesApiDriver.geocoded_pharmacies st'
       = GeocodePlacesApiDriver.geocoded_pharmacies st ++ [out]
    /\ GeocodePlacesApiDriver.success_count st'
       + GeocodePlacesApiDriver.failed_count st'
       = S (GeocodePlacesApiDriver.success_count st
            + GeocodePlacesApiDriver.failed_count st).
Proof.
  unfold GeocodePlacesApiDriver.step, places_appended.
  destruct (dict_get raw "name") as [name|]; [|discriminate].
  destruct (dict_get raw "city") as [city|]; [|discriminate].
  destruct (GeocodePlacesApiDriver.lookup now i raw name city _)
    as [[pharmacy found]|].
  - destruct (i mod 100 =? 0)%nat; intros [= <-]; exists pharmacy;
      cbn [GeocodePlacesApiDriver.geocoded_pharmacies
             GeocodePlacesApiDriver.success_count
             GeocodePlacesApiDriver.failed_count];
      (split; [reflexivity|split; [reflexivity|destruct found; lia]]).
  - destruct (GeocodePlacesApiDriver.error_record i raw name city) as [e|];
      [|discriminate].
    intros [= <-]. exists e.
    cbn [GeocodePlacesApiDriver.geocoded_pharmacies
           GeocodePlacesApiDriver.success_count
           GeocodePlacesApiDriver.failed_count].
    split; [reflexivity|split; [reflexivity|lia]].
Qed.

Lemma places_loop_appended (todo : list pydict) (i : nat)
    (st st' : GeocodePlacesApiDriver.Run) :
  GeocodePlacesApiDriver.loop api py_str now i todo st = Some st' ->
  exists outs,
    GeocodePlacesApiDriver.geocoded_pharmacies st'
    = GeocodePlacesApiDriver.geocoded_pharmacies st ++ outs
    /\ length outs = length todo
    /\ (forall k raw, nth_error todo k = Some raw ->
          exists out, places_appended (i + k) raw = Some out
                      /\ nth_error outs k = Some out)
    /\ GeocodePlacesApiDriver.success_count st'
       + GeocodePlacesApiDriver.failed_count st'
       = GeocodePlacesApiDriver.success_count st
         + GeocodePlacesApiDriver.failed_count st + length todo.
Proof.
  revert i st. induction todo as [|raw todo IH]; intros i st;
    cbn [GeocodePlacesApiDriver.loop].
  - intros [= <-]. exists []. rewrite app_nil_r. split; [reflexivity|].
    split; [reflexivity|]. split; [|cbn [length]; lia].
    intros [|k] ? [=].
  - destruct (GeocodePlacesApiDriver.step api py_str now i raw st) as [st1|] eqn:Hs;
      [|discriminate].
    intros Hl. destruct (places_step_appended _ _ _ _ Hs) as (out & Ho & Hg & Hc).
    destruct (IH _ _ Hl) as (outs & Hg' & Hlen & Hnth & Hc').
    exists (out :: outs). split; [|split; [|split]].
    + rewrite Hg', Hg, <- app_assoc. reflexivity.
    + cbn [length]. now rewrite Hlen.
    + intros [|k] x Hx; cbn [nth_error] in Hx |- *.
      * injection Hx as <-. exists out. rewrite Nat.add_0_r. auto.
      * destruct (Hnth k x Hx) as (o & Ha & Hn). exists o.
        rewrite Nat.add_succ_r. auto.
    + cbn [length]. lia.
Qed.

Lemma places_entry_needs_hours (p : pydict) (last : bool) :
  dict_get p "opening_hours" = None ->
  GeocodePlacesApi.entry py_str py_lower p last = None.
Proof.
  intros H. unfold GeocodePlacesApi.entry.
  destruct (dict_get p "name") as [n|]; [|reflexivity].
  destruct (GeocodePlacesApi.escape_quote n); [|reflexivity].
  destruct (dict_get p "address") as [a|]; [|reflexivity].
  destruct (GeocodePlacesApi.escape_quote a); [|reflexivity].
  now rewrite H.
Qed.

Lemma places_entries_need_hours (l : list pydict) (code : pystr) (p : pydict) :
  In p l -> dict_get p "opening_hours" = None ->
  GeocodePlacesApi.entries py_str py_lower l code = None.
Proof.
  intros Hin Hp. revert code. induction l as [|q l IH]; intro code; [destruct Hin|].
  cbn [GeocodePlacesApi.entries]. destruct Hin as [->|Hin].
  - now rewrite places_entry_needs_hours.
  - destruct (GeocodePlacesApi.entry py_str py_lower q _); [|reflexivity].
    now apply IH.
Qed.

End PlacesDriverFacts.

(** X15: geocode_places_api.py raises before it writes its JSON file exactly
    when the loaded list is empty (the percentage of the report divides by
    its length) or some raw record lacks [name], [city], [address] or
    [phone]: the first two are read before the [try], the other two are read
    again by the [except] branch. *)
Theorem places_driver_raises_iff (api : endpoint) (py_str : json -> pystr)
    (py_lower : pystr -> pystr) (now : nat -> pystr) (date : pystr)
    (percent : nat -> nat -> pystr) (raw_pharmacies : list pydict) :
  GeocodePlacesApiDriver.geocode_places_api api py_str py_lower now date percent
    raw_pharmacies = None
  <-> raw_pharmacies = [] \/ Exists lacks_raw_key raw_pharmacies.
Proof.
  unfold GeocodePlacesApiDriver.geocode_places_api.
  pose proof (places_loop_none api py_str now raw_pharmacies 1
                {| GeocodePlacesApiDriver.geocoded_pharmacies := [];
                   GeocodePlacesApiDriver.success_count := 0;
                   GeocodePlacesApiDriver.failed_count := 0;
                   GeocodePlacesApiDriver.checkpoints := [] |}) as Hl.
  destruct (GeocodePlacesApiDriver.loop api py_str now 1 raw_pharmacies _) as [run|].
  - destruct raw_pharmacies as [|raw rest]; cbn [length Nat.eqb].
    + split; auto.
    + split; [discriminate|]. intros [H|H]; [discriminate|].
      apply Hl in H. discriminate.
  - split; [|reflexivity]. intros _. right. now apply Hl.
Qed.

Lemma places_driver_raises_iff_witness :
  GeocodePlacesApiDriver.geocode_places_api api_down sample_str (fun s => s)
    PharmacyScraper.sample_now (lit "2024-01-01T00:00:00")
    (fun _ _ => lit "0.0") [[(lit "name", JStr (lit "Pharmacie Al Amal"))]]
  = None.
Proof.
  apply (proj2 (places_driver_raises_iff api_down sample_str (fun s => s)
                  PharmacyScraper.sample_now (lit "2024-01-01T00:00:00")
                  (fun _ _ => lit "0.0")
                  [[(lit "name", JStr (lit "Pharmacie Al Amal"))]])).
  right. constructor. right; left. reflexivity.
Defined.

(** X16: when geocode_places_api.py gets to write its JSON file, the file holds
    one record per raw record; but the record its [except] branch appends
    for a lookup that raised has no [opening_hours], which the Kotlin
    emitter reads from every record: after a single such failure the script
    raises [KeyError] in the emitter and writes no Kotlin file. *)
Theorem places_error_blocks_kotlin (api : endpoint) (py_str : json -> pystr)
    (py_lower : pystr -> pystr) (now : nat -> pystr) (date : pystr)
    (percent : nat -> nat -> pystr) (raw_pharmacies : list pydict)
    (out : GeocodePlacesApiDriver.Outputs) :
  GeocodePlacesApiDriver.geocode_places_api api py_str py_lower now date percent
    raw_pharmacies = Some out ->
  length (GeocodePlacesApiDriver.pharmacies_kenitra_final out)
  = length raw_pharmacies
  /\ forall k raw name city,
       nth_error raw_pharmacies k = Some raw ->
       dict_get raw "name" = Some name ->
       dict_get raw "city" = Some city ->
       GeocodePlacesApiDriver.lookup now (k + 1) raw name city
         (api (k + 1) (py_str name ++ lit ", " ++ py_str city ++ lit ", Morocco"))
       = None ->
       GeocodePlacesApiDriver.KenitraPharmacyData_final out = None.
Proof.
  unfold GeocodePlacesApiDriver.geocode_places_api.
  destruct (GeocodePlacesApiDriver.loop api py_str now 1 raw_pharmacies _)
    as [run|] eqn:Hloop; [|discriminate].
  destruct (length raw_pharmacies =? 0)%nat; [discriminate|].
  intros [= <-].
  cbn [GeocodePlacesApiDriver.pharmacies_kenitra_final
         GeocodePlacesApiDriver.KenitraPharmacyData_final].
  destruct (places_loop_appended api py_str now _ _ _ _ Hloop)
    as (outs & Hg & Hlen & Hnth & _).
  cbn [GeocodePlacesApiDriver.geocoded_pharmacies app] in Hg. rewrite Hg.
  split; [exact Hlen|].
  intros k raw name city Hk Hname Hcity Hraise.
  destruct (Hnth k raw Hk) as (o & Ho & Hin).
  replace (1 + k) with (k + 1) in Ho by lia.
  unfold places_appended in Ho. rewrite Hname, Hcity, Hraise in Ho.
  unfold GeocodePlacesApiDriver.error_record in Ho.
  destruct (dict_get raw "address") as [a|]; [|discriminate].
  destruct (dict_get raw "phone") as [ph|]; [|discriminate].
  injection Ho as <-.
  rewrite (places_entries_need_hours py_str py_lower outs _ _
             (nth_error_In _ _ Hin) eq_refl).
  reflexivity.
Qed.

Lemma places_error_blocks_kotlin_witness :
  exists out,
    GeocodePlacesApiDriver.geocode_places_api api_down sample_str (fun s => s)
      PharmacyScraper.sample_now (lit "2024-01-01T00:00:00")
      (fun _ _ => lit "0.0") [sample_dict] = Some out
    /\ length (GeocodePlacesApiDriver.pharmacies_kenitra_final out) = 1
    /\ GeocodePlacesApiDriver.KenitraPharmacyData_final out = None.
Proof.
  eexists. split; [reflexivity|].
  destruct (places_error_blocks_kotlin api_down sample_str (fun s => s)
              PharmacyScraper.sample_now (lit "2024-01-01T00:00:00")
              (fun _ _ => lit "0.0") [sample_dict] _ eq_refl) as [Hlen Hk].
  split; [exact Hlen|].
  exact (Hk 0 sample_dict _ _ eq_refl eq_refl eq_refl eq_refl).
Defined.


(** ** auto_complete.py: the progress line and the statistics *)

Module AutoComplete.

(** [lines[-n:]] for a positive [n] *)
Definition last_lines (n : nat) (lines : list pystr) : list pystr :=
  skipn (length lines - n) lines.

(** The loop of [get_progress] over [reversed(lines[-50:])]: what it
    returns, or [None] when it falls through. *)
Fixpoint scan (reversed : list pystr) : option pystr :=
  match reversed with
  | [] => None
  | line :: rest =>
      if contains (lit "Geocoding") line && contains (lit "/") line
      then Some (strip line)
      else if contains (lit "Successfully geocoded") line
      then Some (lit "COMPLETED: " ++ strip line)
      else scan rest
  end.

(** [get_progress()], given the lines of the log file, [None] when the file
    does not exist. *)
Definition get_progress (log_file : option (list pystr)) : pystr :=
  match log_file with
  | Some lines =>
      match scan (rev (last_lines 50 lines)) with
      | Some progress => progress
      | None => lit "Unknown"
      end
  | None => lit "Unknown"
  end.

(** [format(v, ".6f")] raises unless [v] is a number. *)
Definition formats_as_float (v : json) : bool :=
  match v with
  | JInt _ | JFloat _ | JBool _ => true
  | _ => false
  end.

(** The three counts [show_statistics] prints. *)
Record Statistics := {
  total : nat;
  geocoded : nat;
  with_phone : nat
}.

(** The lines printed for one of the first three records: every key is
    read, the coordinates are formatted with six decimals. *)
Definition sample_ok (pharmacy : pydict) : option unit :=
  _ <- dict_get pharmacy "name" ;;
  _ <- dict_get pharmacy "phone_number" ;;
  latitude <- dict_get pharmacy "latitude" ;;
  longitude <- dict_get pharmacy "longitude" ;;
  _ <- dict_get pharmacy "geocoded" ;;
  if formats_as_float latitude && formats_as_float longitude
  then Some tt else None.

(** [sum(1 for p in data if p[k])] *)
Fixpoint count_truthy (k : string) (data : list pydict) : option nat :=
  match data with
  | [] => Some 0
  | p :: rest =>
      v <- dict_get p k ;;
      n <- count_truthy k rest ;;
      Some (if truthy v then S n else n)
  end.

Fixpoint all_ok (l : list pydict) : option unit :=
  match l with
  | [] => Some tt
  | p :: rest => _ <- sample_ok p ;; all_ok rest
  end.

(** [show_statistics()], given the text of [pharmacies_kenitra.json],
    [None] when the file does not exist.  The outer [None] is an exception;
    [Some None] is the return value [False]; [Some (Some s)] is the return
    value [True] after the counts [s] were printed. *)
Definition show_statistics (float_of_str : pystr -> float)
    (json_file : option pystr) : option (option Statistics) :=
  match json_file with
  | None => Some None
  | Some text =>
      v <- Json.loads float_of_str text ;;
      data <- records_of v ;;
      geocoded <- count_truthy "geocoded" data ;;
      with_phone <- count_truthy "phone_number" data ;;
      if (length data =? 0)%nat then None
      else
        _ <- all_ok (firstn 3 data) ;;
        Some (Some {| total := length data;
                      geocoded := geocoded;
                      with_phone := with_phone |})
  end.

End AutoComplete.

Lemma last_lines_app (n : nat) (old recent : list pystr) :
  n <= length recent ->
  AutoComplete.last_lines n (old ++ recent) = AutoComplete.last_lines n recent.
Proof.
  intros H. unfold AutoComplete.last_lines.
  rewrite length_app, skipn_app.
  replace (length old + length recent - n - length old)
    with (length recent - n) by lia.
  rewrite skipn_all2 by lia. reflexivity.
Qed.

Lemma last_lines_snoc (n : nat) (lines : list pystr) (l : pystr) :
  1 <= n ->
  AutoComplete.last_lines n (lines ++ [l])
  = AutoComplete.last_lines (n - 1) lines ++ [l].
Proof.
  intros H. unfold AutoComplete.last_lines.
  rewrite length_app, skipn_app. cbn [length].
  replace (length lines + 1 - n) with (length lines - (n - 1)) by lia.
  replace (length lines - (n - 1) - length lines) with 0 by lia.
  reflexivity.
Qed.

Lemma scan_none (l : list pystr) :
  Forall (fun line =>
            contains (lit "Geocoding") line && contains (lit "/") line = false
            /\ contains (lit "Successfully geocoded") line = false) l ->
  AutoComplete.scan l = None.
Proof.
  induction 1 as [|x l [H1 H2] _ IH]; [reflexivity|].
  cbn [AutoComplete.scan]. now rewrite H1, H2.
Qed.

(** X17: [get_progress] reads the fifty last lines of the log from the newest
    to the oldest and reports the first that matches: older lines never
    count; a last line holding [Geocoding] and a slash is returned stripped;
    a last line holding [Successfully geocoded], and not both of the former,
    is returned stripped after [COMPLETED: ]; and the answer is [Unknown]
    when none of the fifty matches or the log does not exist. *)
Theorem get_progress_reads_the_latest :
  (forall old recent,
      50 <= length recent ->
      AutoComplete.get_progress (Some (old ++ recent))
      = AutoComplete.get_progress (Some recent))
  /\ (forall lines l,
         contains (lit "Geocoding") l = true -> contains (lit "/") l = true ->
         AutoComplete.get_progress (Some (lines ++ [l])) = strip l)
  /\ (forall lines l,
         contains (lit "Geocoding") l && contains (lit "/") l = false ->
         contains (lit "Successfully geocoded") l = true ->
         AutoComplete.get_progress (Some (lines ++ [l]))
         = lit "COMPLETED: " ++ strip l)
  /\ (forall lines,
         Forall (fun line =>
                   contains (lit "Geocoding") line && contains (lit "/") line = false
                   /\ contains (lit "Successfully geocoded") line = false)
           (AutoComplete.last_lines 50 lines) ->
         AutoComplete.get_progress (Some lines) = lit "Unknown")
  /\ AutoComplete.get_progress None = lit "Unknown".
Proof.
  split; [|split; [|split; [|split]]].
  - intros old recent H. unfold AutoComplete.get_progress.
    now rewrite last_lines_app.
  - intros lines l H1 H2. unfold AutoComplete.get_progress.
    rewrite last_lines_snoc by lia. rewrite rev_app_distr.
    cbn [rev app AutoComplete.scan]. now rewrite H1, H2.
  - intros lines l H1 H2. unfold AutoComplete.get_progress.
    rewrite last_lines_snoc by lia. rewrite rev_app_distr.
    cbn [rev app AutoComplete.scan]. now rewrite H1, H2.
  - intros lines H. unfold AutoComplete.get_progress.
    rewrite scan_none; [reflexivity|]. now apply Forall_rev.
  - reflexivity.
Qed.

Lemma get_progress_reads_the_latest_witness :
  AutoComplete.get_progress
    (Some ([line "Scraping page 1"; line "Geocoding 1/654: Pharmacie Al Amal"]
           ++ [line "Geocoding 2/654: Pharmacie Centrale"]))
  = lit "Geocoding 2/654: Pharmacie Centrale".
Proof.
  rewrite (proj1 (proj2 get_progress_reads_the_latest)
             [line "Scraping page 1"; line "Geocoding 1/654: Pharmacie Al Amal"]
             (line "Geocoding 2/654: Pharmacie Centrale") eq_refl eq_refl).
  reflexivity.
Defined.


Lemma asdict_geocoded (p : PharmacyScraper.Pharmacy) :
  dict_get (PharmacyScraper.asdict p) "geocoded"
  = Some (JBool (PharmacyScraper.geocoded p)).
Proof. reflexivity. Qed.

Lemma asdict_phone_number (p : PharmacyScraper.Pharmacy) :
  dict_get (PharmacyScraper.asdict p) "phone_number"
  = Some (JStr (PharmacyScraper.phone_number p)).
Proof. reflexivity. Qed.

Lemma count_truthy_geocoded (pharmacies : list PharmacyScraper.Pharmacy) :
  AutoComplete.count_truthy "geocoded" (map PharmacyScraper.asdict pharmacies)
  = Some (length (filter PharmacyScraper.geocoded pharmacies)).
Proof.
  induction pharmacies as [|p ps IH]; [reflexivity|].
  cbn [map AutoComplete.count_truthy filter]. rewrite asdict_geocoded, IH.
  cbn [truthy]. destruct (PharmacyScraper.geocoded p); reflexivity.
Qed.

Lemma count_truthy_phone (pharmacies : list PharmacyScraper.Pharmacy) :
  AutoComplete.count_truthy "phone_number" (map PharmacyScraper.asdict pharmacies)
  = Some (length (filter (fun p => negb (length (PharmacyScraper.phone_number p) =? 0)%nat)
                    pharmacies)).
Proof.
  induction pharmacies as [|p ps IH]; [reflexivity|].
  cbn [map AutoComplete.count_truthy filter]. rewrite asdict_phone_number, IH.
  cbn [truthy].
  destruct (negb (length (PharmacyScraper.phone_number p) =? 0)%nat); reflexivity.
Qed.

Lemma sample_ok_asdict (p : PharmacyScraper.Pharmacy) :
  AutoComplete.sample_ok (PharmacyScraper.asdict p)
  = if AutoComplete.formats_as_float (PharmacyScraper.latitude p)
       && AutoComplete.formats_as_float (PharmacyScraper.longitude p)
    then Some tt else None.
Proof. reflexivity. Qed.




(** ** verify_integration.py *)

Module VerifyIntegration.

(** [a <= z] and [z <= b] between a float and an [int]: Python compares the
    exact values. *)
Definition float_le_int (a : float) (z : Z) : bool :=
  match Prim2SF a with
  | S754_zero _ => (0 <=? z)%Z
  | S754_infinity s => s
  | S754_nan => false
  | S754_finite s m e =>
      let v := if s then Z.neg m else Z.pos m in
      if (0 <=? e)%Z then (v * 2 ^ e <=? z)%Z else (v <=? z * 2 ^ (- e))%Z
  end.

Definition int_le_float (z : Z) (b : float) : bool :=
  match Prim2SF b with
  | S754_zero _ => (z <=? 0)%Z
  | S754_infinity s => negb s
  | S754_nan => false
  | S754_finite s m e =>
      let v := if s then Z.neg m else Z.pos m in
      if (0 <=? e)%Z then (z <=? v * 2 ^ e)%Z else (z * 2 ^ (- e) <=? v)%Z
  end.

(** [a <= v] and [v <= b] for a float and a decoded value: a [TypeError]
    unless [v] is a number. *)
Definition le_value (a : float) (v : json) : option bool :=
  match v with
  | JFloat f => Some (PrimFloat.leb a f)
  | JInt z => Some (float_le_int a z)
  | JBool b => Some (float_le_int a (if b then 1 else 0))
  | _ => None
  end.

Definition value_le (v : json) (b : float) : option bool :=
  match v with
  | JFloat f => Some (PrimFloat.leb f b)
  | JInt z => Some (int_le_float z b)
  | JBool x => Some (int_le_float (if x then 1 else 0) b)
  | _ => None
  end.

(** [a <= v <= b]: the second comparison is made only when the first
    holds. *)
Definition between (a b : float) (v : json) : option bool :=
  lower <- le_value a v ;;
  if lower then value_le v b else Some false.

(** The test of the region; the longitude is compared only when the
    latitude is inside. *)
Definition in_kenitra (lat lon : json) : option bool :=
  inside <- between 34.0%float 34.5%float lat ;;
  if inside then between (-7.0)%float (-6.0)%float lon else Some false.

(** [p.get(k)] as a condition. *)
Definition get_truthy (k : string) (p : pydict) : bool :=
  match dict_get p k with
  | Some v => truthy v
  | None => false
  end.

(** The loop that counts [in_region]. *)
Fixpoint count_region (pharmacies : list pydict) : option nat :=
  match pharmacies with
  | [] => Some 0
  | p :: rest =>
      if get_truthy "geocoded" p then
        lat <- dict_get p "latitude" ;;
        lon <- dict_get p "longitude" ;;
        inside <- in_kenitra lat lon ;;
        n <- count_region rest ;;
        Some (if inside then S n else n)
      else count_region rest
  end.

(** The line printed for one of the first five records slices and pads the
    name, which has to be a string. *)
Definition sample_ok (p : pydict) : option unit :=
  match dict_get p "name" with
  | Some (JStr _) => Some tt
  | _ => None
  end.

Fixpoint all_ok (l : list pydict) : option unit :=
  match l with
  | [] => Some tt
  | p :: rest => _ <- sample_ok p ;; all_ok rest
  end.

(** The four counts the script prints. *)
Record Statistics := {
  total : nat;
  geocoded : nat;
  with_phone : nat;
  in_region : nat
}.

(** The script on the loaded list, up to the sample it prints: the counts,
    or [None] when it raised.  Each percentage divides by the count
    before it. *)
Definition verify_integration (pharmacies : list pydict) : option Statistics :=
  let total := length pharmacies in
  let geocoded := length (filter (get_truthy "geocoded") pharmacies) in
  let with_phone := length (filter (get_truthy "phone") pharmacies) in
  if (total =? 0)%nat then None
  else
    in_region <- count_region pharmacies ;;
    if (geocoded =? 0)%nat then None
    else
      _ <- all_ok (firstn 5 pharmacies) ;;
      Some {| total := total;
              geocoded := geocoded;
              with_phone := with_phone;
              in_region := in_region |}.

End VerifyIntegration.

Lemma count_region_le (pharmacies : list pydict) (n : nat) :
  VerifyIntegration.count_region pharmacies = Some n ->
  n <= length (filter (VerifyIntegration.get_truthy "geocoded") pharmacies).
Proof.
  revert n. induction pharmacies as [|p rest IH]; intro n;
    cbn [VerifyIntegration.count_region filter].
  - intros [= <-]. cbn [length]. lia.
  - destruct (VerifyIntegration.get_truthy "geocoded" p); [|apply IH].
    destruct (dict_get p "latitude") as [lat|]; [|discriminate].
    destruct (dict_get p "longitude") as [lon|]; [|discriminate].
    destruct (VerifyIntegration.in_kenitra lat lon) as [inside|]; [|discriminate].
    destruct (VerifyIntegration.count_region rest) as [m|]; [|discriminate].
    intros [= <-]. specialize (IH m eq_refl). cbn [length].
    destruct inside; lia.
Qed.

(** The fallback position of the geocoders is inside the region
    verify_integration.py checks. *)
Lemma fallback_in_kenitra :
  VerifyIntegration.in_kenitra kenitra_lat kenitra_lng = Some true.
Proof. reflexivity. Qed.

(** X19: when verify_integration.py gets to print its report, at least one
    record is geocoded, and the counts are ordered: in region at most
    geocoded at most total, with phone at most total.  It raises on an empty
    list and on a list without a geocoded record, each percentage dividing
    by the count before it.  On the list quick_geocode.py writes, its
    [geocoded] count is the [success] counter of that run, and a record at
    the fallback position, though inside the region, is never counted in
    it. *)
Theorem verify_integration_counts :
  (forall pharmacies s,
      VerifyIntegration.verify_integration pharmacies = Some s ->
      VerifyIntegration.total s = length pharmacies
      /\ 1 <= VerifyIntegration.geocoded s
      /\ VerifyIntegration.in_region s <= VerifyIntegration.geocoded s
      /\ VerifyIntegration.geocoded s <= VerifyIntegration.total s
      /\ VerifyIntegration.with_phone s <= VerifyIntegration.total s)
  /\ VerifyIntegration.verify_integration [] = None
  /\ (forall pharmacies,
         Forall (fun p => VerifyIntegration.get_truthy "geocoded" p = false)
           pharmacies ->
         VerifyIntegration.verify_integration pharmacies = None)
  /\ (forall api py_str raw_pharmacies run s,
         QuickGeocode.quick_geocode api py_str raw_pharmacies = Some run ->
         VerifyIntegration.verify_integration (QuickGeocode.geocoded run) = Some s ->
         VerifyIntegration.geocoded s = QuickGeocode.success run
         /\ VerifyIntegration.total s = length raw_pharmacies)
  /\ (forall p rest,
         VerifyIntegration.count_region (set_fallback p :: rest)
         = VerifyIntegration.count_region rest).
Proof.
  split; [|split; [|split; [|split]]].
  - intros pharmacies s. unfold VerifyIntegration.verify_integration.
    destruct (length pharmacies =? 0)%nat; [discriminate|].
    destruct (VerifyIntegration.count_region pharmacies) as [n|] eqn:Hn;
      [|discriminate].
    destruct (length (filter _ pharmacies) =? 0)%nat eqn:Hg; [discriminate|].
    destruct (VerifyIntegration.all_ok _); [|discriminate].
    intros [= <-].
    cbn [VerifyIntegration.total VerifyIntegration.geocoded
           VerifyIntegration.with_phone VerifyIntegration.in_region].
    apply Nat.eqb_neq in Hg. apply count_region_le in Hn.
    pose proof (filter_length_le (VerifyIntegration.get_truthy "geocoded") pharmacies).
    pose proof (filter_length_le (VerifyIntegration.get_truthy "phone") pharmacies).
    repeat split; lia.
  - reflexivity.
  - intros pharmacies Hall. unfold VerifyIntegration.verify_integration.
    destruct (length pharmacies =? 0)%nat; [reflexivity|].
    destruct (VerifyIntegration.count_region pharmacies); [|reflexivity].
    assert (Hf : filter (VerifyIntegration.get_truthy "geocoded") pharmacies = []).
    { induction Hall as [|p l Hp _ IH]; [reflexivity|].
      cbn [filter]. now rewrite Hp. }
    rewrite Hf. reflexivity.
  - intros api py_str raw_pharmacies run s Hrun Hs.
    destruct (quick_loop_flags api py_str raw_pharmacies 1
                {| QuickGeocode.geocoded := []; QuickGeocode.success := 0;
                   QuickGeocode.checkpoints := [] |} run
                (Forall_nil _) eq_refl Hrun) as [Hall Hsucc].
    destruct (QuickGeocode.loop_nth api py_str raw_pharmacies 1 _ run Hrun)
      as (Hlen & _). cbn [QuickGeocode.geocoded length Nat.add] in Hlen.
    unfold VerifyIntegration.verify_integration in Hs.
    destruct (length (QuickGeocode.geocoded run) =? 0)%nat; [discriminate|].
    destruct (VerifyIntegration.count_region _); [|discriminate].
    destruct (length (filter _ _) =? 0)%nat; [discriminate|].
    destruct (VerifyIntegration.all_ok _); [|discriminate].
    injection Hs as <-.
    cbn [VerifyIntegration.total VerifyIntegration.geocoded].
    split; [|exact Hlen]. rewrite Hsucc. f_equal.
    apply filter_ext_in. intros out Hin.
    rewrite Forall_forall in Hall.
    unfold VerifyIntegration.get_truthy, flagged.
    destruct (Hall out Hin) as [[-> _]|[-> _]]; reflexivity.
  - intros p rest. cbn [VerifyIntegration.count_region].
    unfold VerifyIntegration.get_truthy.
    destruct (set_fallback_fallen_back p) as [-> _]. reflexivity.
Qed.

Lemma verify_integration_counts_witness :
  exists s,
    VerifyIntegration.verify_integration
      [dict_set "geocoded" (JBool true) (set_fallback sample_dict); set_fallback sample_dict]
    = Some s
    /\ VerifyIntegration.total s = 2
    /\ VerifyIntegration.in_region s <= VerifyIntegration.geocoded s.
Proof.
  eexists. split; [vm_compute; reflexivity|].
  destruct (proj1 verify_integration_counts
              [dict_set "geocoded" (JBool true) (set_fallback sample_dict); set_fallback sample_dict]
              _ eq_refl) as (Ht & _ & Hr & _).
  split; [exact Ht|exact Hr].
Defined.


(** ** generate_rabat_kotlin.py: the entries *)

Module GenerateRabatKotlin.

(** [s.replace('"', '\\"').replace("'", "\\'")] *)
Definition escape (s : pystr) : pystr :=
  replace_char 39 [92; 39]%N (replace_char 34 [92; 34]%N s).

(** The receiver of [.replace]: an [AttributeError] unless it is a string. *)
Definition text_of (v : json) : option pystr :=
  match v with
  | JStr s => Some s
  | _ => None
  end.

Section Emitter.

(** Python's [str()] and [str.lower()]. *)
Variable py_str : json -> pystr.
Variable py_lower : pystr -> pystr.

(** The text one iteration adds for the record [p] at 1-based position
    [idx], once [name] and [address] are escaped. *)
Definition fields (idx : nat) (name address : pystr) (p : pydict) (last : bool)
  : pystr :=
  let phone := FinalIntegrate.get p "phone" (JStr []) in
  let city := FinalIntegrate.get p "city" (JStr (lit "Rabat")) in
  let geocoded := py_lower (py_str (FinalIntegrate.get p "geocoded" (JBool false))) in
  let lat := FinalIntegrate.get p "latitude" (JFloat 0%float) in
  let lon := FinalIntegrate.get p "longitude" (JFloat 0%float) in
  let rating := FinalIntegrate.get p "rating" (JFloat 0%float) in
  let review_count := FinalIntegrate.get p "reviewCount" (JInt 0) in
  line "        Pharmacy("
  ++ lit "            id = " ++ dq ++ lit "pharmacy_rabat_" ++ pad4 idx ++ dq ++ line ","
  ++ lit "            name = " ++ dq ++ name ++ dq ++ line ","
  ++ line "            nameAr = null,"
  ++ lit "            address = " ++ dq ++ address ++ dq ++ line ","
  ++ line "            addressAr = null,"
  ++ lit "            city = " ++ dq ++ py_str city ++ dq ++ line ","
  ++ lit "            latitude = " ++ py_str lat ++ line ","
  ++ lit "            longitude = " ++ py_str lon ++ line ","
  ++ lit "            phoneNumber = " ++ dq ++ py_str phone ++ dq ++ line ","
  ++ line "            email = null,"
  ++ line "            website = null,"
  ++ lit "            openingHours = " ++ dq ++ lit "Lun-Ven: 09:00-19:00" ++ dq ++ line ","
  ++ line "            is24Hours = false,"
  ++ line "            hasParking = false,"
  ++ line "            isGuardPharmacy = false,"
  ++ lit "            rating = " ++ py_str rating ++ line ","
  ++ lit "            reviewCount = " ++ py_str review_count ++ line ","
  ++ line "            imageUrl = null,"
  ++ line "            services = emptyList(),"
  ++ line "            distance = null,"
  ++ line "            lastUpdated = Date(),"
  ++ lit "            geocoded = " ++ geocoded ++ line ""
  ++ lit "        )"
  ++ (if last then [10%N] else lit "," ++ [10%N]).

(** One iteration of the loop over [pharmacies]; the default of [address]
    is the variable [name], which holds the escaped name. *)
Definition entry (idx : nat) (p : pydict) (last : bool) : option pystr :=
  name_text <- text_of (FinalIntegrate.get p "name" (JStr (lit "Unknown"))) ;;
  let name := escape name_text in
  address_text <- text_of (FinalIntegrate.get p "address" (JStr name)) ;;
  let address := escape address_text in
  Some (fields idx name address p last).

(** [for idx, p in enumerate(pharmacies, start=1)] from [idx] on. *)
Fixpoint entries (idx : nat) (todo : list pydict) (kotlin_code : pystr)
  : option pystr :=
  match todo with
  | [] => Some kotlin_code
  | p :: rest =>
      e <- entry idx p (match rest with [] => true | _ => false end) ;;
      entries (S idx) rest (kotlin_code ++ e)
  end.

End Emitter.

End GenerateRabatKotlin.

(** X20: the entry loop of generate_rabat_kotlin.py reads every key with a
    default, so it raises only on a [name] or an [address] that is present
    and is not a string.  A record without [address] is written with its
    name as address, escaped a second time since the default is the escaped
    name: a quote of the name is then preceded by two backslashes and closes
    the Kotlin literal.  A record without [name] is written as [Unknown]. *)
Theorem rabat_entry_defaults (py_str : json -> pystr) (py_lower : pystr -> pystr)
    (idx : nat) (p : pydict) (last : bool) :
  (GenerateRabatKotlin.entry py_str py_lower idx p last = None
   <-> (exists v, dict_get p "name" = Some v
                  /\ GenerateRabatKotlin.text_of v = None)
       \/ (exists v, dict_get p "address" = Some v
                     /\ GenerateRabatKotlin.text_of v = None))
  /\ (forall s,
         dict_get p "name" = Some (JStr s) -> dict_get p "address" = None ->
         GenerateRabatKotlin.entry py_str py_lower idx p last
         = Some (GenerateRabatKotlin.fields py_str py_lower idx
                   (GenerateRabatKotlin.escape s)
                   (GenerateRabatKotlin.escape (GenerateRabatKotlin.escape s))
                   p last))
  /\ (dict_get p "name" = None -> dict_get p "address" = None ->
      GenerateRabatKotlin.entry py_str py_lower idx p last
      = Some (GenerateRabatKotlin.fields py_str py_lower idx
                (lit "Unknown") (lit "Unknown") p last))
  /\ (forall s t,
         GenerateRabatKotlin.escape (GenerateRabatKotlin.escape (s ++ dq ++ t))
         = GenerateRabatKotlin.escape (GenerateRabatKotlin.escape s)
           ++ [92; 92; 34]%N
           ++ GenerateRabatKotlin.escape (GenerateRabatKotlin.escape t))
  /\ safe_in_literal false
       (GenerateRabatKotlin.escape (GenerateRabatKotlin.escape dq)) = false.
Proof.
  unfold GenerateRabatKotlin.entry, FinalIntegrate.get.
  split; [|split; [|split; [|split]]].
  - destruct (dict_get p "name") as [n|].
    + destruct n; cbn [GenerateRabatKotlin.text_of];
        try (split; [intros _; left; eexists; split; reflexivity|reflexivity]).
      destruct (dict_get p "address") as [a|].
      * destruct a; cbn [GenerateRabatKotlin.text_of];
          try (split; [intros _; right; eexists; split; reflexivity|reflexivity]).
        split; [discriminate|].
        intros [(v & [= <-] & H)|(v & [= <-] & H)]; discriminate H.
      * cbn [GenerateRabatKotlin.text_of]. split; [discriminate|].
        intros [(v & [= <-] & H)|(v & [=] & _)]. discriminate H.
    + cbn [GenerateRabatKotlin.text_of].
      destruct (dict_get p "address") as [a|].
      * destruct a; cbn [GenerateRabatKotlin.text_of];
          try (split; [intros _; right; eexists; split; reflexivity|reflexivity]).
        split; [discriminate|].
        intros [(v & [=] & _)|(v & [= <-] & H)]. discriminate H.
      * cbn [GenerateRabatKotlin.text_of]. split; [discriminate|].
        intros [(v & [=] & _)|(v & [=] & _)].
  - intros s -> ->. reflexivity.
  - intros -> ->. reflexivity.
  - intros s t. unfold GenerateRabatKotlin.escape, replace_char, dq.
    rewrite !flat_map_app. reflexivity.
  - reflexivity.
Qed.

Lemma rabat_entry_defaults_witness :
  GenerateRabatKotlin.entry sample_str (fun s => s) 1
    [(lit "name", JStr (lit "Pharmacie " ++ dq ++ lit "Atlas" ++ dq))] true
  = Some (GenerateRabatKotlin.fields sample_str (fun s => s) 1
            (lit "Pharmacie " ++ [92; 34]%N ++ lit "Atlas" ++ [92; 34]%N)
            (lit "Pharmacie " ++ [92; 92; 34]%N ++ lit "Atlas" ++ [92; 92; 34]%N)
            [(lit "name", JStr (lit "Pharmacie " ++ dq ++ lit "Atlas" ++ dq))] true).
Proof.
  exact (proj1 (proj2 (rabat_entry_defaults sample_str (fun s => s) 1
                         [(lit "name", JStr (lit "Pharmacie " ++ dq ++ lit "Atlas" ++ dq))]
                         true)) _ eq_refl eq_refl).
Defined.


(** ** More of test_places_api.py *)

Lemma test_lookup_fields (py_now : nat -> pystr) (i : nat) (raw : pydict)
    (name city : json) (resp : http_result) (o : pydict) :
  TestPlacesApi.lookup py_now i raw name city resp = Some o ->
  dict_get o "id" = Some (JStr (lit "pharmacy_kenitra_" ++ pad4 i))
  /\ dict_get o "name" = Some name
  /\ dict_get o "city" = Some city.
Proof.
  unfold TestPlacesApi.lookup.
  destruct resp as [data|]; [|discriminate].
  destruct (getitem data "status") as [st|]; [|discriminate].
  destruct (if eq_str st "OK" then _ else _) as [[|]|]; [| |discriminate].
  - destruct (getitem data "results") as [results|]; [|discriminate].
    destruct (getitem0 results) as [result|]; [|discriminate].
    destruct (getitem result "geometry") as [geometry|]; [|discriminate].
    destruct (getitem geometry "location") as [location|]; [|discriminate].
    destruct (dict_get raw "address") as [a|]; [|discriminate].
    destruct (TestPlacesApi.get_or result "formatted_address" a); [|discriminate].
    destruct (getitem location "lat"); [|discriminate].
    destruct (getitem location "lng"); [|discriminate].
    destruct (dict_get raw "phone"); [|discriminate].
    destruct (TestPlacesApi.get_or result "rating" _); [|discriminate].
    destruct (TestPlacesApi.get_or result "user_ratings_total" _); [|discriminate].
    destruct (TestPlacesApi.get_or result "place_id" _); [|discriminate].
    intros [= <-]. repeat split.
  - destruct (dict_get raw "address") as [a|]; [|discriminate].
    destruct (dict_get raw "phone"); [|discriminate].
    intros [= <-]. repeat split.
Qed.

Lemma test_loop_outputs (api : endpoint) (py_str : json -> pystr)
    (py_now : nat -> pystr) (todo : list pydict) (i : nat) (acc out : list pydict) :
  TestPlacesApi.loop api py_str py_now i todo acc = Some out ->
  exists outs,
    out = acc ++ outs
    /\ length outs <= length todo
    /\ forall o, In o outs ->
         exists k raw,
           nth_error todo k = Some raw
           /\ dict_get o "id" = Some (JStr (lit "pharmacy_kenitra_" ++ pad4 (i + k)))
           /\ dict_get o "name" = dict_get raw "name"
           /\ dict_get o "city" = dict_get raw "city".
Proof.
  revert i acc. induction todo as [|raw todo IH]; intros i acc;
    cbn [TestPlacesApi.loop].
  - intros [= <-]. exists []. rewrite app_nil_r. split; [reflexivity|].
    split; [reflexivity|]. intros o [].
  - unfold TestPlacesApi.step at 1.
    destruct (dict_get raw "name") as [name|] eqn:Hname; [|discriminate].
    destruct (dict_get raw "city") as [city|] eqn:Hcity; [|discriminate].
    destruct (TestPlacesApi.lookup py_now i raw name city _) as [o|] eqn:Hl.
    + intros H. destruct (IH _ _ H) as (outs & -> & Hlen & Hall).
      exists (o :: outs). split; [now rewrite <- app_assoc|].
      split; [cbn [length]; lia|].
      intros x [<-|Hx].
      * exists 0, raw. rewrite Nat.add_0_r, Hname, Hcity. split; [reflexivity|].
        eapply test_lookup_fields. exact Hl.
      * destruct (Hall x Hx) as (k & r & Hk & Hid & Hn & Hc).
        exists (S k), r. rewrite Nat.add_succ_r. auto.
    + intros H. destruct (IH _ _ H) as (outs & -> & Hlen & Hall).
      exists outs. split; [reflexivity|]. split; [cbn [length]; lia|].
      intros x Hx. destruct (Hall x Hx) as (k & r & Hk & Hid & Hn & Hc).
      exists (S k), r. rewrite Nat.add_succ_r. auto.
Qed.

Lemma test_loop_none (api : endpoint) (py_str : json -> pystr)
    (py_now : nat -> pystr) (todo : list pydict) (i : nat) (acc : list pydict) :
  TestPlacesApi.loop api py_str py_now i todo acc = None
  <-> Exists (fun raw => dict_get raw "name" = None \/ dict_get raw "city" = None)
        todo.
Proof.
  revert i acc. induction todo as [|raw todo IH]; intros i acc;
    cbn [TestPlacesApi.loop].
  - split; [discriminate|inversion 1].
  - unfold TestPlacesApi.step at 1.
    destruct (dict_get raw "name") as [name|] eqn:Hname;
      [|split; [intros _; left; now left|reflexivity]].
    destruct (dict_get raw "city") as [city|] eqn:Hcity;
      [|split; [intros _; left; now right|reflexivity]].
    destruct (TestPlacesApi.lookup py_now i raw name city _);
      rewrite IH; (split; [now right|]); inversion 1; subst; auto;
      match goal with H : _ \/ _ |- _ => destruct H; congruence end.
Qed.

(** X21: test_places_api.py looks at the first ten raw records only and writes
    at most one record for each: every record written carries the name and
    the city of a raw record among the first ten and the identifier of the
    position of that raw record, so the identifiers skip the positions of
    the records it dropped.  The script raises exactly when one of the first
    ten raw records has no [name] or no [city]; records after the tenth are
    never read. *)
Theorem test_places_api_outputs (api : endpoint) (py_str : json -> pystr)
    (py_now : nat -> pystr) (raw_pharmacies : list pydict) :
  (forall out,
      TestPlacesApi.test_places_api api py_str py_now raw_pharmacies = Some out ->
      length out <= 10 /\ length out <= length raw_pharmacies
      /\ forall o, In o out ->
           exists k raw,
             k < 10 /\ nth_error raw_pharmacies k = Some raw
             /\ dict_get o "id"
                = Some (JStr (lit "pharmacy_kenitra_" ++ pad4 (k + 1)))
             /\ dict_get o "name" = dict_get raw "name"
             /\ dict_get o "city" = dict_get raw "city")
  /\ (TestPlacesApi.test_places_api api py_str py_now raw_pharmacies = None
      <-> Exists (fun raw => dict_get raw "name" = None \/ dict_get raw "city" = None)
            (firstn 10 raw_pharmacies))
  /\ (forall more,
         10 <= length raw_pharmacies ->
         TestPlacesApi.test_places_api api py_str py_now (raw_pharmacies ++ more)
         = TestPlacesApi.test_places_api api py_str py_now raw_pharmacies).
Proof.
  unfold TestPlacesApi.test_places_api. split; [|split].
  - intros out H. apply test_loop_outputs in H.
    destruct H as (outs & -> & Hlen & Hall). cbn [app].
    pose proof (firstn_le_length 10 raw_pharmacies) as H10.
    rewrite length_firstn in Hlen. split; [lia|]. split; [lia|].
    intros o Ho. destruct (Hall o Ho) as (k & raw & Hk & Hid & Hn & Hc).
    assert (Hlt : k < length (firstn 10 raw_pharmacies))
      by (apply nth_error_Some; congruence).
    rewrite length_firstn in Hlt.
    exists k, raw. split; [lia|]. split.
    + rewrite nth_error_firstn in Hk.
      destruct (k <? 10)%nat eqn:E; [exact Hk|discriminate].
    + replace (k + 1) with (1 + k) by lia. auto.
  - apply test_loop_none.
  - intros more H. rewrite firstn_app.
    replace (10 - length raw_pharmacies) with 0 by lia.
    cbn [firstn]. now rewrite app_nil_r.
Qed.

Lemma test_places_api_outputs_witness :
  exists out,
    TestPlacesApi.test_places_api api_zero_results sample_str
      PharmacyScraper.sample_now (repeat sample_dict 12) = Some out
    /\ length out <= 10.
Proof.
  eexists. split; [vm_compute; reflexivity|].
  exact (proj1 (proj1 (test_places_api_outputs api_zero_results sample_str
                         PharmacyScraper.sample_now (repeat sample_dict 12))
                  _ eq_refl)).
Defined.

(** ** More of resume_geocode.py *)

(** X22: resume_geocode.py sends to the endpoint the records from position 400
    of the merged list on, each once: such a record ends located, as it was,
    or with only its latitude overwritten.  The merged list has the length
    of the checkpoint plus the raw records after the first 400; when the
    checkpoint holds fewer than 400 records, the raw records that fill the
    positions below 400 are written as they were loaded, without any call,
    and the raw records between the length of the checkpoint and 400 are in
    no position at all. *)
Theorem resume_geocode_outcomes (api : endpoint) (py_str : json -> pystr)
    (raw_pharmacies completed : list pydict) :
  let merged := ResumeGeocode.merged raw_pharmacies completed in
  let final :=
    InPlace.pharmacies
      (ResumeGeocode.resume_geocode api py_str raw_pharmacies completed) in
  length final = length completed + (length raw_pharmacies - 400)
  /\ (forall i p,
         400 <= i -> nth_error merged i = Some p ->
         exists q,
           nth_error final i = Some q
           /\ ((exists lat lng,
                   q = dict_set "geocoded" (JBool true)
                         (dict_set "longitude" lng (dict_set "latitude" lat p)))
               \/ q = p
               \/ (exists lat, q = dict_set "latitude" lat p)))
  /\ (forall j,
         length completed <= j < 400 ->
         nth_error final j
         = nth_error raw_pharmacies (400 + (j - length completed))).
Proof.
  intros merged final. split; [|split].
  - unfold final, ResumeGeocode.resume_geocode.
    rewrite InPlace.iter_length. cbn [InPlace.pharmacies].
    unfold ResumeGeocode.merged. now rewrite length_app, length_skipn.
  - intros i p Hi Hp. exists (left_by api py_str "Kenitra" i p). split.
    + unfold final, ResumeGeocode.resume_geocode.
      apply inplace_iter_nth; [exact Hp|].
      assert (i < length (ResumeGeocode.merged raw_pharmacies completed))
        by (apply nth_error_Some; fold merged; congruence).
      lia.
    + unfold left_by.
      destruct (inplace_lookup_cases api py_str "Kenitra" i p)
        as [(lat & lng & ->)|[->|[->|(lat & ->)]]]; eauto.
  - intros j Hj. unfold final, ResumeGeocode.resume_geocode.
    rewrite InPlace.iter_nth_before by lia. cbn [InPlace.pharmacies].
    unfold ResumeGeocode.merged. rewrite nth_error_app2 by lia.
    apply nth_error_skipn.
Qed.

Lemma resume_geocode_outcomes_witness :
  nth_error
    (InPlace.pharmacies
       (ResumeGeocode.resume_geocode PharmacyScraper.api_kenitra sample_str
          (repeat sample_dict 400 ++ [dict_set "page_number" (JInt 21) sample_dict])
          (repeat (set_fallback sample_dict) 399)))
    399
  = Some (dict_set "page_number" (JInt 21) sample_dict).
Proof.
  rewrite (proj2 (proj2 (resume_geocode_outcomes PharmacyScraper.api_kenitra
                           sample_str
                           (repeat sample_dict 400
                            ++ [dict_set "page_number" (JInt 21) sample_dict])
                           (repeat (set_fallback sample_dict) 399))) 399).
  - reflexivity.
  - rewrite repeat_length. lia.
Defined.
